(** * Seattle illegal dumping: star schema builder

    A shallow embedding of [scripts/build_star_schema_documented.py].

    The script is written against pandas.  A [Series] is modelled as the list
    of its cells in positional order, a [DataFrame] as a finite map from
    column names to [Series] together with the length of its index.  The
    scalar layer of pandas (float parsing, rounding and printing, timestamp
    parsing and calendar fields) is not part of the repository: it is taken
    as an interface, [PandasLib], and every result below holds for every
    implementation of that interface.  Text is modelled by ASCII strings. *)

From Stdlib Require Import ZArith Ascii String.
From stdpp Require Import base option list gmap strings pretty sorting.

Set Warnings "-clear-no-such-hyp,-abstract-large-number".

Open Scope string_scope.
Open Scope nat_scope.

(** ** Characters and text, as Python's [str] methods see them *)

Definition code (c : ascii) : nat := nat_of_ascii c.

(** [str.isspace] on one ASCII character: TAB..CR, FS..US and the blank. *)
Definition is_space (c : ascii) : bool :=
  ((9 <=? code c) && (code c <=? 13)) || ((28 <=? code c) && (code c <=? 32)).

Definition is_lower (c : ascii) : bool := (97 <=? code c) && (code c <=? 122).
Definition is_upper (c : ascii) : bool := (65 <=? code c) && (code c <=? 90).
Definition is_digit (c : ascii) : bool := (48 <=? code c) && (code c <=? 57).

Definition upper_char (c : ascii) : ascii :=
  if is_lower c then ascii_of_nat (code c - 32) else c.

(** [s.upper()] *)
Fixpoint upper (s : string) : string :=
  match s with
  | EmptyString => EmptyString
  | String c s' => String (upper_char c) (upper s')
  end.

Fixpoint lstrip (s : string) : string :=
  match s with
  | EmptyString => EmptyString
  | String c s' => if is_space c then lstrip s' else s
  end.

Fixpoint rstrip (s : string) : string :=
  match s with
  | EmptyString => EmptyString
  | String c s' =>
      match rstrip s' with
      | EmptyString => if is_space c then EmptyString else String c EmptyString
      | r => String c r
      end
  end.

(** [s.strip()] *)
Definition strip (s : string) : string := rstrip (lstrip s).

(** The character class [[A-Z0-9 ]] of the address pattern. *)
Definition is_key_char (c : ascii) : bool :=
  is_upper c || is_digit c || (code c =? 32).

(** [re.sub("[^A-Z0-9 ]+", "", s)]: every character outside the class goes. *)
Fixpoint remove_special (s : string) : string :=
  match s with
  | EmptyString => EmptyString
  | String c s' =>
      if is_key_char c then String c (remove_special s') else remove_special s'
  end.

(** [re.sub("\s+", " ", s)]: each maximal run of whitespace becomes one
    blank.  [in_run] records that the previous character was whitespace. *)
Fixpoint collapse_from (in_run : bool) (s : string) : string :=
  match s with
  | EmptyString => EmptyString
  | String c s' =>
      if is_space c
      then (if in_run then collapse_from true s'
            else String " "%char (collapse_from true s'))
      else String c (collapse_from false s')
  end.

Definition collapse_ws (s : string) : string := collapse_from false s.

Fixpoint all_digits (n : nat) (s : string) : bool :=
  match n with
  | O => true
  | S n' =>
      match s with
      | EmptyString => false
      | String c s' => is_digit c && all_digits n' s'
      end
  end.

(** [re.search("(\d{5})", s)]: the leftmost run of five digits. *)
Fixpoint extract_zip (s : string) : option string :=
  match s with
  | EmptyString => None
  | String c s' =>
      if all_digits 5 s then Some (substring 0 5 s) else extract_zip s'
  end.


(** Every character of [s] satisfies [p]. *)
Fixpoint all_chars (p : ascii → bool) (s : string) : bool :=
  match s with
  | EmptyString => true
  | String c s' => p c && all_chars p s'
  end.


(** A text cell under [.replace({"None": pd.NA, "nan": pd.NA, "": pd.NA})]:
    [None] stands for [pd.NA]. *)
Definition replace_markers_cell_str (s : string) : option string :=
  if bool_decide (s = "None") || bool_decide (s = "nan") || bool_decide (s = "")
  then None else Some s.

(** ** The scalar layer of pandas *)

(** [num] is the type of a float64/int64 scalar other than NaN, [time] that
    of a Timestamp other than NaT. *)
Class PandasLib (num time : Type) := {
  (** [pd.to_numeric(errors="coerce")] on one text cell; [None] is NaN *)
  parse_num : string → option num;
  (** [x == 0] *)
  num_is_zero : num → bool;
  (** [round(x, decimals)] *)
  num_round : Z → num → num;
  (** the text of a number under [astype("string")] *)
  num_str : num → string;
  (** [astype("Int64")] on one value; [None] when the cast is not safe *)
  num_as_Int64 : num → option num;
  (** [pd.to_datetime(errors="coerce")] on one text cell; [None] is NaT *)
  parse_datetime : string → option time;
  num_to_time : num → option time;
  time_to_num : time → num;
  time_str : time → string;
  (** the order used by [sort_values] on a datetime column *)
  time_leb : time → time → bool;
  (** [Timestamp.normalize()] : midnight of the same day *)
  dt_normalize : time → time;
  (** numeric fields of the [.dt] accessor: year, month, day, hour, ... *)
  dt_num : string → time → num;
  (** textual fields of the [.dt] accessor: day_name, month_name *)
  dt_name : string → time → string;
  (** Two behaviours that differ between the versions of pandas the script
      runs under, which the repository does not pin.
      Whether [pd.read_csv] stores a text column with dtype object, as
      pandas 2 does; pandas 3 stores it with dtype "str". *)
  csv_text_object : bool;
  (** Whether [pd.to_datetime(None)] is NaT, as in pandas 3; in pandas 2 it
      is [None]. *)
  to_datetime_none_nat : bool;
}.

(** ** Exceptions *)

Inductive exn :=
| KeyError (missing : list string)
| AttributeError (what : string)
| TypeError (what : string)
| ValueError (msg : string).

Inductive result (A : Type) :=
| Ok (a : A)
| Raise (e : exn).
Arguments Ok {A} a.
Arguments Raise {A} e.

#[export] Instance result_ret : MRet result := λ A a, Ok a.
#[export] Instance result_bind : MBind result := λ A B f r,
  match r with
  | Ok a => f a
  | Raise e => Raise e
  end.

#[export] Instance exn_eq_dec : EqDecision exn.
Proof. solve_decision. Defined.

Section Model.
Context {num time : Type} `{!EqDecision num, !EqDecision time}
  {P : PandasLib num time}.

(** ** Cells, Series and element-wise operations *)

Inductive cell :=
| NA
| Txt (s : string)
| Num (x : num)
| Ts (t : time).

#[export] Instance cell_eq_dec : EqDecision cell.
Proof. solve_decision. Defined.

(** A column of any dtype. *)
Abbreviation Series := (list cell).
(** A column of dtype "string": text or [<NA>]. *)
Abbreviation StrSeries := (list (option string)).

Definition is_text (c : cell) : bool :=
  match c with Txt _ => true | _ => false end.

Definition notna_cell (c : cell) : bool :=
  match c with NA => false | _ => true end.

(** [s.astype("string")] *)
Definition cell_to_str (c : cell) : option string :=
  match c with
  | NA => None
  | Txt s => Some s
  | Num x => Some (num_str x)
  | Ts t => Some (time_str t)
  end.

Definition astype_string (s : Series) : StrSeries := cell_to_str <$> s.

(** A "string" column stored back into a frame. *)
Definition str_cell (o : option string) : cell :=
  match o with Some s => Txt s | None => NA end.

Definition of_str (s : StrSeries) : Series := str_cell <$> s.

(** [s.str.upper()], [s.str.strip()], [s.str.replace(pat, repl, regex=True)]:
    the [.str] methods map over the text cells and keep [<NA>]. *)
Definition str_map (f : string → string) (s : StrSeries) : StrSeries :=
  fmap (M:=option) f <$> s.

(** [.replace({"None": pd.NA, "nan": pd.NA, "": pd.NA})] on one cell *)
Definition replace_markers_cell (o : option string) : option string :=
  o ≫= replace_markers_cell_str.

Definition replace_markers (s : StrSeries) : StrSeries :=
  replace_markers_cell <$> s.

(** [a + "lit"] and [a + b] on "string" columns: [<NA>] is absorbing. *)
Definition str_add_lit (s : StrSeries) (lit : string) : StrSeries :=
  fmap (M:=option) (λ x, x +:+ lit) <$> s.

Definition str_add_cell (a b : option string) : option string :=
  match a, b with
  | Some x, Some y => Some (x +:+ y)
  | _, _ => None
  end.

Definition str_add (a b : StrSeries) : StrSeries := zip_with str_add_cell a b.

(** [pd.to_numeric(s, errors="coerce")]; [None] is NaN. *)
Definition to_numeric_cell (c : cell) : option num :=
  match c with
  | NA => None
  | Txt s => parse_num s
  | Num x => Some x
  | Ts t => Some (time_to_num t)
  end.

Definition to_numeric (s : Series) : list (option num) := to_numeric_cell <$> s.

Definition of_num (s : list (option num)) : Series :=
  (λ o, match o with Some x => Num x | None => NA end) <$> s.

(** [pd.to_datetime(s, errors="coerce")]; [None] is NaT. *)
Definition to_datetime_cell (c : cell) : option time :=
  match c with
  | NA => None
  | Txt s => parse_datetime s
  | Num x => num_to_time x
  | Ts t => Some t
  end.

Definition to_datetime (s : Series) : list (option time) := to_datetime_cell <$> s.

Definition of_time (s : list (option time)) : Series :=
  (λ o, match o with Some t => Ts t | None => NA end) <$> s.

(** [s == 0] on a float column: NaN compares unequal. *)
Definition eq_zero (s : list (option num)) : list bool :=
  (λ o, match o with Some x => num_is_zero x | None => false end) <$> s.

(** [a & b] *)
Definition mask_and (a b : list bool) : list bool := zip_with andb a b.

(** [s.mask(cond, other)]: where [cond] holds the value is replaced. *)
Definition mask {A} (s : list A) (cond : list bool) (other : A) : list A :=
  zip_with (λ v (b : bool), if b then other else v) s cond.

Definition round_series (decimals : Z) (s : list (option num)) : list (option num) :=
  fmap (M:=option) (num_round decimals) <$> s.

Definition notna {A} (s : list (option A)) : list bool :=
  (λ o, match o with Some _ => true | None => false end) <$> s.

(** [target.loc[cond] = values], the three aligned on one index. *)
Definition loc_assign {A} (target : list A) (cond : list bool) (values : list A)
  : list A :=
  zip_with (λ (tb : A * bool) v, if tb.2 then v else tb.1) (zip target cond) values.

(** [a.fillna(b)] with a Series argument. *)
Definition fillna_from {A} (a b : list (option A)) : list (option A) :=
  zip_with (λ x y, match x with Some _ => x | None => y end) a b.

(** [s.fillna(value)] with a scalar. *)
Definition fillna (value : cell) (s : Series) : Series :=
  (λ c, match c with NA => value | _ => c end) <$> s.

(** ** Helper functions of the script *)

(** [std_text], lines 37-51. *)
Definition std_text (s : Series) : StrSeries :=
  replace_markers (str_map strip (astype_string s)).

(** [std_upper_key], lines 54-71. *)
Definition std_upper_key (s : Series) : StrSeries :=
  replace_markers (str_map strip (str_map upper (astype_string s))).

(** [build_location_key], lines 74-126. *)
Definition build_location_key (location lat lon : Series) : StrSeries :=
  let loc_std :=
    replace_markers
      (str_map strip
         (str_map collapse_ws
            (str_map remove_special
               (str_map upper (astype_string location))))) in
  let lat_num := to_numeric lat in
  let lon_num := to_numeric lon in
  let mask_00 := mask_and (eq_zero lat_num) (eq_zero lon_num) in
  let lat_num := mask lat_num mask_00 None in
  let lon_num := mask lon_num mask_00 None in
  let lat_round := round_series 4 lat_num in
  let lon_round := round_series 4 lon_num in
  let has_geo := mask_and (notna lat_round) (notna lon_round) in
  let geo_key : StrSeries := replicate (length location) None in
  let geo_key :=
    loc_assign geo_key has_geo
      (str_add (str_add_lit (fmap (M:=option) num_str <$> lat_round) ",")
               (fmap (M:=option) num_str <$> lon_round)) in
  fillna_from geo_key loc_std.

(** ** Duplicates, masks and sorting

    [duplicated] marks every element that equals an earlier one
    ([keep="first"]); equality is that of the hash table pandas uses, under
    which two missing values are equal. *)

Fixpoint duplicated_from {K} `{EqDecision K} (seen l : list K) : list bool :=
  match l with
  | [] => []
  | x :: l' => bool_decide (x ∈ seen) :: duplicated_from (x :: seen) l'
  end.

Definition duplicated {K} `{EqDecision K} (l : list K) : list bool :=
  duplicated_from [] l.

(** [mask.sum()] and [mask.any()] *)
Definition mask_sum (m : list bool) : nat := length (filter (λ b, b = true) m).
Definition mask_any (m : list bool) : bool := bool_decide (true ∈ m).

(** [s[cond]] : boolean indexing followed by [reset_index(drop=True)]. *)
Fixpoint select_rows {A} (cond : list bool) (s : list A) : list A :=
  match cond, s with
  | b :: cond', x :: s' =>
      if b then x :: select_rows cond' s' else select_rows cond' s'
  | _, _ => []
  end.

(** [s.drop_duplicates()] *)
Definition drop_duplicates {K} `{EqDecision K} (s : list K) : list K :=
  select_rows (negb <$> duplicated s) s.

(** [s.dropna()] *)
Definition dropna (s : Series) : Series := filter (λ c, c ≠ NA) s.

(** [s.isna()] *)
Definition isna (s : Series) : list bool :=
  (λ c, bool_decide (c = NA)) <$> s.

(** The order of [sort_values] on the two kinds of column the script sorts:
    text by code point, timestamps chronologically. *)
Definition cell_leb (a b : cell) : bool :=
  match a, b with
  | Txt x, Txt y => String.leb x y
  | Ts x, Ts y => time_leb x y
  | _, _ => true
  end.

Definition cell_le (a b : cell) : Prop := cell_leb a b = true.

#[export] Instance cell_le_dec a b : Decision (cell_le a b).
Proof. unfold cell_le. apply _. Defined.

(** [s.sort_values()] *)
Definition sort_values (s : Series) : Series := merge_sort cell_le s.

(** Fields of the [.dt] accessor on a datetime column; NaT gives NaN. *)
Definition dt_num_field (field : string) (s : Series) : Series :=
  (λ c, match c with Ts t => Num (dt_num field t) | _ => NA end) <$> s.

Definition dt_name_field (field : string) (s : Series) : Series :=
  (λ c, match c with Ts t => Txt (dt_name field t) | _ => NA end) <$> s.

Definition normalize (s : list (option time)) : list (option time) :=
  fmap (M:=option) dt_normalize <$> s.

(** [s.str.extract("(\d{5})", expand=False)] *)
Definition str_extract_zip (s : StrSeries) : StrSeries :=
  (λ o : option string, o ≫= extract_zip) <$> s.

(** [s.astype("Int64")] on a float column: raises when a value is not
    integral. *)
Fixpoint astype_Int64 (s : list (option num)) : result (list cell) :=
  match s with
  | [] => Ok []
  | None :: s' => r ← astype_Int64 s'; Ok (NA :: r)
  | Some x :: s' =>
      match num_as_Int64 x with
      | Some y => r ← astype_Int64 s'; Ok (Num y :: r)
      | None => Raise (TypeError "cannot safely cast non-equivalent float64 to int64")
      end
  end.

(** [s == 0] on a column stored in a frame. *)
Definition cells_eq_zero (s : Series) : list bool :=
  (λ c, match c with Num x => num_is_zero x | _ => false end) <$> s.

(** ** Data frames *)

Record DataFrame := mkDF {
  (** [len(df.index)] *)
  index : nat;
  (** the columns by name *)
  data : gmap string (list cell);
}.

(** [pd.Series(pd.NA, index=df.index)] *)
Definition na_series (df : DataFrame) : Series := replicate (index df) NA.

(** [col in df.columns] *)
Definition has_column (col : string) (df : DataFrame) : bool :=
  bool_decide (is_Some (data df !! col)).

(** [df.get(col)] and [df.get(col, default)] *)
Definition df_get (col : string) (df : DataFrame) : option (list cell) :=
  data df !! col.

Definition df_get_or (col : string) (dflt : Series) (df : DataFrame) : Series :=
  default dflt (data df !! col).

(** [df[col]] *)
Definition getitem (col : string) (df : DataFrame) : result (list cell) :=
  match data df !! col with
  | Some s => Ok s
  | None => Raise (KeyError [col])
  end.

(** [df[col] = s] *)
Definition setitem (col : string) (s : Series) (df : DataFrame) : DataFrame :=
  mkDF (index df) (<[col := s]> (data df)).

(** [if col in df.columns: df[col] = f(df[col])] *)
Definition update_if_present (col : string) (f : Series → Series)
  (df : DataFrame) : DataFrame :=
  match data df !! col with
  | Some s => setitem col (f s) df
  | None => df
  end.

(** [df[[c1, ..., cn]]]: every listed column must exist. *)
Definition select_columns (cols : list string) (df : DataFrame) : result DataFrame :=
  match filter (λ c, data df !! c = None) cols with
  | [] =>
      Ok (mkDF (index df)
            (list_to_map (omap (λ c, pair c <$> data df !! c) cols)))
  | missing => Raise (KeyError missing)
  end.

(** [df.rename(columns={old: new})] for one pair. *)
Definition rename_column (old new : string) (df : DataFrame) : DataFrame :=
  match data df !! old with
  | Some s => mkDF (index df) (<[new := s]> (delete old (data df)))
  | None => df
  end.

(** [df.drop(columns=[col], errors="ignore")] *)
Definition drop_column (col : string) (df : DataFrame) : DataFrame :=
  mkDF (index df) (delete col (data df)).

(** [df[cond].reset_index(drop=True)] *)
Definition filter_rows (cond : list bool) (df : DataFrame) : DataFrame :=
  mkDF (mask_sum (take (index df) cond)) (select_rows cond <$> data df).

(** [pd.DataFrame({name: series, ...})] from aligned columns. *)
Definition new_frame (n : nat) (cols : list (string * list cell)) : DataFrame :=
  mkDF n (list_to_map cols).

(** The test of line 222, [dtype == "object" or str(dtype).startswith("string")],
    where [load_and_clean] applies it.  "ZIP Code" was made of dtype "string"
    by line 196.  Every other column that holds text has the dtype
    [pd.read_csv] gave it: object under pandas 2, where the test holds, and
    "str" under pandas 3, where it does not.  The remaining columns are
    numeric or datetime-like, or hold only missing values, which [std_text]
    leaves as they are. *)
Definition is_text_dtype (col : string) (s : Series) : bool :=
  bool_decide (col = "ZIP Code") || (csv_text_object && existsb is_text s).

(** ** [data_quality_report], lines 129-153

    The rows of a frame, each one the cells of its columns at one position;
    two rows are equal when they agree on every column, missing values
    being equal to each other. *)
Definition rows (df : DataFrame) : list (gmap string (option cell)) :=
  (λ i, (λ s : list cell, s !! i) <$> data df) <$> seq 0 (index df).

(** The integer entries of the report.  [df.duplicated()] answers with an
    empty mask for a frame without columns or without rows.  The two
    percentage entries, "rows_with_nulls_pct" and "missing_vals_pct_top5",
    are floating-point values ranked by the position of the columns; they
    are only printed and are outside the model. *)
Record QualityReport := mkReport {
  total_rows : nat;
  total_columns : nat;
  duplicate_rows : nat;
}.

Definition data_quality_report (df : DataFrame) : QualityReport :=
  mkReport (index df) (size (data df))
    (if bool_decide (data df = ∅) then 0 else mask_sum (duplicated (rows df))).

(** ** [load_and_clean], lines 160-256

    [pd.read_csv] is outside the model: the argument is the frame it
    returns.  When the column "Created Date" is missing, [df.get] returns
    [None].  Where [pd.to_datetime(None)] is [None] (pandas 2) the
    assignment fills the column with [None]; that column is not
    datetime-like, so the [.dt] accessor of the feature-engineering step
    raises [AttributeError].  Where it is NaT (pandas 3) the column is a
    datetime column of NaT and the function goes on. *)

Definition safe_unknown_cols : list string :=
  [ "Police Precinct"; "Status"; "Method Received";
    "Where is the Illegal Dumping Violation located?";
    "Choose a description of the Illegal Dumping"; "Location" ].

Definition load_and_clean (df : DataFrame) : result DataFrame :=
  (* Date parsing *)
  let datetimelike := has_column "Created Date" df || to_datetime_none_nat in
  let df :=
    setitem "Created Date"
      match df_get "Created Date" df with
      | Some s => of_time (to_datetime s)
      | None => na_series df
      end df in
  (* ZIP: five-digit codes, kept as text *)
  let df :=
    update_if_present "ZIP Code"
      (λ s, of_str (str_extract_zip (astype_string s))) df in
  (* Council District: nullable integer *)
  df ←
    match data df !! "Council District" with
    | Some s => r ← astype_Int64 (to_numeric s); Ok (setitem "Council District" r df)
    | None => Ok df
    end;
  (* Lat/Long: numeric *)
  let df := update_if_present "Latitude" (λ s, of_num (to_numeric s)) df in
  let df := update_if_present "Longitude" (λ s, of_num (to_numeric s)) df in
  (* (0, 0) is missing *)
  let df :=
    match data df !! "Latitude", data df !! "Longitude" with
    | Some la, Some lo =>
        let mask_00 := mask_and (cells_eq_zero la) (cells_eq_zero lo) in
        setitem "Longitude" (mask lo mask_00 NA)
          (setitem "Latitude" (mask la mask_00 NA) df)
    | _, _ => df
    end in
  (* Text standardisation *)
  let df :=
    mkDF (index df)
      (map_imap (λ col s, Some (if is_text_dtype col s then of_str (std_text s) else s))
         (data df)) in
  (* Column cleanup *)
  let df := drop_column "Community Reporting Area" df in
  let df :=
    foldl (λ d col, update_if_present col (fillna (Txt "Unknown")) d)
      df safe_unknown_cols in
  (* Feature engineering *)
  created ←
    (if datetimelike then getitem "Created Date" df
     else Raise (AttributeError "Can only use .dt accessor with datetimelike values"));
  let df := setitem "Year" (dt_num_field "year" created) df in
  let df := setitem "Month" (dt_num_field "month" created) df in
  let df := setitem "Day" (dt_num_field "day" created) df in
  let df := setitem "Weekday" (dt_name_field "day_name" created) df in
  let df := setitem "Hour" (dt_num_field "hour" created) df in
  Ok df.

(** ** [build_star_schema], lines 263-431 *)

Definition dim_location_columns : list string :=
  [ "LocationKey"; "Location"; "Latitude"; "Longitude";
    "ZIP Code"; "Police Precinct"; "Council District" ].

(** [std_upper_key(a) + "|" + std_upper_key(b)], lines 349-352 and 410-413. *)
Definition category_key (a b : Series) : Series :=
  of_str (str_add (str_add_lit (std_upper_key a) "|") (std_upper_key b)).

(** [df.drop_duplicates(...)]: [keys] is the list of row identities, either
    the named key column or the tuples of all columns. *)
Definition drop_duplicate_rows {K} `{EqDecision K} (keys : list K)
  (df : DataFrame) : DataFrame :=
  filter_rows (negb <$> duplicated keys) df.

(** [pd.DataFrame({name: s.dropna().drop_duplicates()}).sort_values(name)] *)
Definition lookup_table (name : string) (s : Series) : DataFrame :=
  let values := sort_values (drop_duplicates (dropna s)) in
  new_frame (length values) [(name, values)].

Record StarSchema := mkStar {
  fact : DataFrame;
  dim_date : DataFrame;
  dim_location : DataFrame;
  dim_category : DataFrame;
  dim_intake : DataFrame;
  dim_status : DataFrame;
}.

(** The fact table, lines 331-352. *)
Definition fact_table (model_df : DataFrame) (created_dt : list (option time))
    (method_received status precinct violation_located dumping_desc : StrSeries)
  : result DataFrame :=
  let na := na_series model_df in
  location_key ← getitem "LocationKey" model_df;
  let fact :=
    new_frame (index model_df)
      [ ("ServiceRequestNumber",
          of_str (std_text (df_get_or "Service Request Number" na model_df)));
        ("CreatedDateTime", of_time created_dt);
        ("CreatedDate", of_time (normalize created_dt));
        ("MethodReceived", of_str method_received);
        ("Status", of_str status);
        ("PolicePrecinct", of_str precinct);
        ("CouncilDistrict", df_get_or "Council District" na model_df);
        ("ZIPCode", df_get_or "ZIP Code" na model_df);
        ("ViolationLocatedAt", of_str violation_located);
        ("DumpingDescription", of_str dumping_desc);
        ("LocationKey", location_key) ] in
  fact_vl ← getitem "ViolationLocatedAt" fact;
  fact_dd ← getitem "DumpingDescription" fact;
  Ok (setitem "CategoryKey" (category_key fact_vl fact_dd) fact).

(** The calendar dimension, lines 358-370. *)
Definition dim_date_table (fact : DataFrame) : result DataFrame :=
  created_date ← getitem "CreatedDate" fact;
  let dim_date := lookup_table "Date" created_date in
  date_col ← getitem "Date" dim_date;
  let dt := of_time (to_datetime date_col) in
  let dim_date := setitem "Year" (dt_num_field "year" dt) dim_date in
  let dim_date := setitem "MonthNumber" (dt_num_field "month" dt) dim_date in
  let dim_date := setitem "MonthName" (dt_name_field "month_name" dt) dim_date in
  let dim_date := setitem "DayOfWeekNumber" (dt_num_field "dayofweek" dt) dim_date in
  let dim_date := setitem "DayOfWeekName" (dt_name_field "day_name" dt) dim_date in
  let dim_date := setitem "WeekOfYear" (dt_num_field "isocalendar.week" dt) dim_date in
  Ok dim_date.

(** The location dimension, lines 376-394. *)
Definition dim_location_table (model_df : DataFrame) : result DataFrame :=
  dim_location ← select_columns dim_location_columns model_df;
  let dim_location := rename_column "ZIP Code" "ZIPCode" dim_location in
  let dim_location := rename_column "Police Precinct" "PolicePrecinct" dim_location in
  let dim_location := rename_column "Council District" "CouncilDistrict" dim_location in
  loc ← getitem "Location" dim_location;
  let dim_location := setitem "Location" (of_str (std_text loc)) dim_location in
  pp ← getitem "PolicePrecinct" dim_location;
  let dim_location := setitem "PolicePrecinct" (of_str (std_text pp)) dim_location in
  (* deduplicate on LocationKey, keeping the first occurrence *)
  loc_keys ← getitem "LocationKey" dim_location;
  Ok (drop_duplicate_rows loc_keys dim_location).

(** The category dimension, lines 400-413.  [drop_duplicates()] compares
    whole rows, here the pairs of the two columns. *)
Definition dim_category_table (n : nat)
    (violation_located dumping_desc : StrSeries) : result DataFrame :=
  let dim_category :=
    new_frame n
      [ ("ViolationLocatedAt", of_str violation_located);
        ("DumpingDescription", of_str dumping_desc) ] in
  let dim_category :=
    drop_duplicate_rows (zip violation_located dumping_desc) dim_category in
  dim_vl ← getitem "ViolationLocatedAt" dim_category;
  dim_dd ← getitem "DumpingDescription" dim_category;
  Ok (setitem "CategoryKey" (category_key dim_vl dim_dd) dim_category).

Definition build_star_schema (clean_df : DataFrame) : result StarSchema :=
  let model_df := clean_df in
  let na := na_series model_df in
  (* Generate keys *)
  let model_df :=
    setitem "LocationKey"
      (of_str (build_location_key
                 (df_get_or "Location" na model_df)
                 (df_get_or "Latitude" na model_df)
                 (df_get_or "Longitude" na model_df)))
      model_df in
  (* Standardize core fields; [None.dt] raises when the column is missing *)
  created_dt ←
    match df_get "Created Date" model_df with
    | Some s => Ok (to_datetime s)
    | None => Raise (AttributeError "'NoneType' object has no attribute 'dt'")
    end;
  let method_received := std_text (df_get_or "Method Received" na model_df) in
  let status := std_text (df_get_or "Status" na model_df) in
  let precinct := std_text (df_get_or "Police Precinct" na model_df) in
  let violation_located :=
    std_text (df_get_or "Where is the Illegal Dumping Violation located?" na model_df) in
  let dumping_desc :=
    std_text (df_get_or "Choose a description of the Illegal Dumping" na model_df) in
  fact ← fact_table model_df created_dt method_received status precinct
           violation_located dumping_desc;
  dim_date ← dim_date_table fact;
  dim_location ← dim_location_table model_df;
  dim_category ← dim_category_table (index model_df) violation_located dumping_desc;
  (* dim_intake and dim_status *)
  fact_mr ← getitem "MethodReceived" fact;
  let dim_intake := lookup_table "MethodReceived" fact_mr in
  fact_st ← getitem "Status" fact;
  let dim_status := lookup_table "Status" fact_st in
  Ok (mkStar fact dim_date dim_location dim_category dim_intake dim_status).

(** ** [qa_and_export], lines 438-514

    The file system is part of the state: the directories made and the files
    written, by path.  What [to_csv] writes is represented by the table
    itself.  The success report printed at the end is not modelled. *)

Record World := mkWorld {
  dirs : gset string;
  files : gmap string DataFrame;
}.

Record IO (A : Type) := mkIO { run : World → result A * World }.
#[global] Arguments mkIO {A} _.
#[global] Arguments run {A} _ _.

#[export] Instance IO_ret : MRet IO := λ A a, mkIO (λ w, (Ok a, w)).
#[export] Instance IO_bind : MBind IO := λ A B f m,
  mkIO (λ w, match run m w with
             | (Ok a, w') => run (f a) w'
             | (Raise e, w') => (Raise e, w')
             end).

Definition raise {A} (e : exn) : IO A := mkIO (λ w, (Raise e, w)).

Definition lift {A} (r : result A) : IO A := mkIO (λ w, (r, w)).

(** A path is modelled by its text, the components separated by "/".
    [ancestors p] lists the directories above [p]: the text before each
    separator, the root apart. *)
Fixpoint ancestors_from (seen rest : string) : list string :=
  match rest with
  | EmptyString => []
  | String c rest' =>
      (if Ascii.eqb c "/" && negb (bool_decide (seen = "")) then [seen] else [])
      ++ ancestors_from (seen +:+ String c EmptyString) rest'
  end.

Definition ancestors (p : string) : list string := ancestors_from "" p.

(** [export_dir.mkdir(parents=True, exist_ok=True)]: the directory and
    every missing directory above it. *)
Definition mkdir (dir : string) : IO unit :=
  mkIO (λ w, (Ok (), mkWorld ({[dir]} ∪ list_to_set (ancestors dir) ∪ dirs w) (files w))).

(** [df.to_csv(export_dir / name, index=False)] *)
Definition to_csv (df : DataFrame) (export_dir name : string) : IO unit :=
  mkIO (λ w, (Ok (), mkWorld (dirs w) (<[export_dir +:+ "/" +:+ name := df]> (files w)))).

(** [if cond: body] *)
Definition when (cond : bool) (body : IO unit) : IO unit :=
  if cond then body else mret ().

(** [for x in xs: body(x)] *)
Fixpoint for_each {A} (xs : list A) (body : A → IO unit) : IO unit :=
  match xs with
  | [] => mret ()
  | x :: xs' => _ ← body x; for_each xs' body
  end.

Definition grain_message (dup_sr : nat) : string :=
  "Fact grain broken: " +:+ pretty dup_sr +:+
  " duplicate ServiceRequestNumber values found.".

Definition null_key_message (key_col : string) (nulls : nat) : string :=
  "Null join keys found in fact: " +:+ key_col +:+ " has " +:+ pretty nulls +:+
  " nulls.".

Definition qa_and_export (fact dim_date dim_location dim_category dim_intake
    dim_status : DataFrame) (export_dir : string) : IO unit :=
  _ ← mkdir export_dir;
  (* QA gate 1: fact grain *)
  sr ← lift (getitem "ServiceRequestNumber" fact);
  let dup_sr := mask_sum (duplicated sr) in
  _ ← when (0 <? dup_sr)
        (raise (ValueError (grain_message dup_sr)));
  (* QA gate 2: required join keys *)
  _ ← for_each ["LocationKey"; "CategoryKey"] (λ key_col,
         col ← lift (getitem key_col fact);
         let nulls := mask_sum (isna col) in
         when (0 <? nulls)
           (raise (ValueError (null_key_message key_col nulls))));
  (* QA gate 3: dimension key uniqueness *)
  loc_keys ← lift (getitem "LocationKey" dim_location);
  _ ← when (mask_any (duplicated loc_keys))
        (raise (ValueError "dim_location has duplicate LocationKey values."));
  cat_keys ← lift (getitem "CategoryKey" dim_category);
  _ ← when (mask_any (duplicated cat_keys))
        (raise (ValueError "dim_category has duplicate CategoryKey values."));
  (* Export *)
  _ ← to_csv fact export_dir "fact_illegal_dumping.csv";
  _ ← to_csv dim_date export_dir "dim_date.csv";
  _ ← to_csv dim_location export_dir "dim_location.csv";
  _ ← to_csv dim_category export_dir "dim_category.csv";
  _ ← to_csv dim_intake export_dir "dim_intake.csv";
  to_csv dim_status export_dir "dim_status.csv".

(** ** [main], lines 521-580: the three steps in sequence; [raw] is the
    frame read from [--input].  The data quality report
    ([data_quality_report] above) and the progress messages only print;
    [main] leaves them out. *)

Definition main (raw : DataFrame) (export_dir : string) : IO unit :=
  clean_df ← lift (load_and_clean raw);
  star ← lift (build_star_schema clean_df);
  qa_and_export (fact star) (dim_date star) (dim_location star)
    (dim_category star) (dim_intake star) (dim_status star) export_dir.

(** ** The specification's wording

    Definitions that follow the text of the specification, to be compared
    with the functions of the script. *)

(** Location Key, rule b: uppercase, strip the characters outside
    [A-Z0-9 ], collapse whitespace, trim; the key if that is non-empty. *)
Definition address_key (address : option string) : option string :=
  s ← address;
  let k := strip (collapse_ws (remove_special (upper s))) in
  if bool_decide (k = "") then None else Some k.

(** Location Key, rule a: both coordinates rounded to four decimals. *)
Definition coordinate_key (lat lon : num) : string :=
  num_str (num_round 4 lat) +:+ "," +:+ num_str (num_round 4 lon).

(** The ordered derivation: the coordinate key when both coordinates parse
    and are not the (0,0) placeholder, else the address key, else absent. *)
Definition location_key_spec (address lat lon : cell) : option string :=
  match to_numeric_cell lat, to_numeric_cell lon with
  | Some a, Some o =>
      if num_is_zero a && num_is_zero o
      then address_key (cell_to_str address)
      else Some (coordinate_key a o)
  | _, _ => address_key (cell_to_str address)
  end.

(** [normalizeText]: the text trimmed, the no-value markers absent. *)
Definition normalize_text (value : cell) : option string :=
  s ← cell_to_str value;
  let t := strip s in
  if bool_decide (t ∈ ["None"; "nan"; ""]) then None else Some t.

(** [normalizeKeyText]: "same as above, then uppercases". *)
Definition normalize_key_text (value : cell) : option string :=
  upper <$> normalize_text value.

(** ** Vocabulary of the properties *)

(** Every column of a frame has one cell per index entry. *)
Definition wf (df : DataFrame) : Prop :=
  map_Forall (λ _ s, length s = index df) (data df).

#[export] Instance wf_dec (df : DataFrame) : Decision (wf df).
Proof. unfold wf. apply _. Defined.

(** The column [name] of a frame that holds it. *)
Definition column (df : DataFrame) (name : string) : list cell :=
  default [] (data df !! name).

(** The cell of column [col] at position [i] of a frame. *)
Definition cell_at (df : DataFrame) (col : string) (i : nat) : option cell :=
  s ← data df !! col; s !! i.

(** The world after [mkdir] alone: no file is added. *)
Definition made_dir (dir : string) (w : World) : World :=
  mkWorld ({[dir]} ∪ list_to_set (ancestors dir) ∪ dirs w) (files w).

(** The world after a complete export: the six files, one per table. *)
Definition exported (star : StarSchema) (dir : string) (w : World) : World :=
  mkWorld ({[dir]} ∪ list_to_set (ancestors dir) ∪ dirs w)
    (<[dir +:+ "/" +:+ "dim_status.csv" := dim_status star]>
     (<[dir +:+ "/" +:+ "dim_intake.csv" := dim_intake star]>
      (<[dir +:+ "/" +:+ "dim_category.csv" := dim_category star]>
       (<[dir +:+ "/" +:+ "dim_location.csv" := dim_location star]>
        (<[dir +:+ "/" +:+ "dim_date.csv" := dim_date star]>
         (<[dir +:+ "/" +:+ "fact_illegal_dumping.csv" := fact star]> (files w))))))).

(** The tables the modeler makes of a raw frame. *)
Definition pipeline_tables (raw : DataFrame) : result StarSchema :=
  load_and_clean raw ≫= build_star_schema.

(** Three aligned columns read row by row. *)
Definition zip_with3 {A B C D} (f : A → B → C → D)
  (a : list A) (b : list B) (c : list C) : list D :=
  zip_with (λ x (yz : B * C), f x yz.1 yz.2) a (zip b c).

(** One cell of [std_upper_key] and one cell of the composite key. *)
Definition upper_key_cell (c : cell) : option string :=
  replace_markers_cell (strip <$> (upper <$> cell_to_str c)).

Definition category_key_cell (a b : cell) : cell :=
  str_cell (str_add_cell ((λ x, x +:+ "|") <$> upper_key_cell a) (upper_key_cell b)).

(** ** The cleaner, block by block *)

(** The columns [load_and_clean] drops or derives. *)
Definition excluded : list string :=
  [ "Community Reporting Area"; "Year"; "Month"; "Day"; "Weekday"; "Hour" ].

(** The columns of the input that the location dimension projects. *)
Definition location_inputs : list string :=
  [ "Location"; "Latitude"; "Longitude"; "ZIP Code"; "Police Precinct";
    "Council District" ].

(** The blocks of [load_and_clean], one per comment of the source;
    [load_and_clean_steps] below shows that they compose to it. *)
Definition step_dates (df : DataFrame) : DataFrame :=
  setitem "Created Date"
    match df_get "Created Date" df with
    | Some s => of_time (to_datetime s)
    | None => na_series df
    end df.

Definition step_zip (df : DataFrame) : DataFrame :=
  update_if_present "ZIP Code" (λ s, of_str (str_extract_zip (astype_string s))) df.

Definition step_council (df : DataFrame) : result DataFrame :=
  match data df !! "Council District" with
  | Some s => r ← astype_Int64 (to_numeric s); Ok (setitem "Council District" r df)
  | None => Ok df
  end.

Definition step_latlon (df : DataFrame) : DataFrame :=
  update_if_present "Longitude" (λ s, of_num (to_numeric s))
    (update_if_present "Latitude" (λ s, of_num (to_numeric s)) df).

Definition step_mask00 (df : DataFrame) : DataFrame :=
  match data df !! "Latitude", data df !! "Longitude" with
  | Some la, Some lo =>
      let mask_00 := mask_and (cells_eq_zero la) (cells_eq_zero lo) in
      setitem "Longitude" (mask lo mask_00 NA)
        (setitem "Latitude" (mask la mask_00 NA) df)
  | _, _ => df
  end.

Definition step_text (df : DataFrame) : DataFrame :=
  mkDF (index df)
    (map_imap (λ col s, Some (if is_text_dtype col s then of_str (std_text s) else s))
       (data df)).

Definition step_unknown (df : DataFrame) : DataFrame :=
  foldl (λ d col, update_if_present col (fillna (Txt "Unknown")) d)
    df safe_unknown_cols.

Definition step_features (datetimelike : bool) (df : DataFrame) : result DataFrame :=
  created ←
    (if datetimelike then getitem "Created Date" df
     else Raise (AttributeError "Can only use .dt accessor with datetimelike values"));
  Ok (setitem "Hour" (dt_num_field "hour" created)
        (setitem "Weekday" (dt_name_field "day_name" created)
           (setitem "Day" (dt_num_field "day" created)
              (setitem "Month" (dt_num_field "month" created)
                 (setitem "Year" (dt_num_field "year" created) df))))).

(** A frame relates to an earlier one when it has the same index and its
    columns, the dropped and derived ones apart, relate cell by cell. *)
Definition frame_rel (R : string → cell → cell → Prop) (df1 df2 : DataFrame) : Prop :=
  index df2 = index df1 ∧
  ∀ c, c ∉ excluded → option_Forall2 (Forall2 (R c)) (data df1 !! c) (data df2 !! c).

(** A cell that holds no value for its column: it is missing, or it is a
    council district that does not parse as a number. *)
Definition absent_in (c : string) (x : cell) : Prop :=
  x = NA ∨ (c = "Council District" ∧ to_numeric_cell x = None).

(** What the cleaner may make of such a cell: missing, or "Unknown" in a
    column of the fallback list. *)
Definition not_fabricated (c : string) (x y : cell) : Prop :=
  absent_in c x → y = NA ∨ (c ∈ safe_unknown_cols ∧ y = Txt "Unknown").

(** The relations the single blocks keep between a cell before and after. *)
Definition keeps_na (c : string) (x y : cell) : Prop := x = NA → y = NA.

Definition rel_pre (c : string) (x y : cell) : Prop :=
  (c = "Council District" → y = x) ∧ (x = NA → y = NA).

Definition rel_council (c : string) (x y : cell) : Prop :=
  (x = NA → y = NA) ∧
  (c = "Council District" → to_numeric_cell x = None → y = NA).

Definition rel_absent (c : string) (x y : cell) : Prop :=
  absent_in c x → y = NA.

Definition rel_fill (cols : list string) (c : string) (x y : cell) : Prop :=
  y = x ∨ (c ∈ cols ∧ x = NA ∧ y = Txt "Unknown").

Definition rel_same (c : string) (x y : cell) : Prop := y = x.

End Model.

(** ** A reference implementation of the scalar layer

    Used to run the model on concrete frames.  Numbers are decimal
    fixed-point values with six fractional digits, stored as the integer
    number of millionths; timestamps are seconds since 1970-01-01.  It reads
    plain decimal numerals and ISO timestamps ([YYYY-MM-DD], optionally
    followed by [ HH:MM:SS]), rounds half to even and prints the way Python
    prints floats of that size.  It has one zero; [Signed] below adds the
    sign bit of a float. *)

Module Ref.

Open Scope Z_scope.

Fixpoint digits_value (acc : Z) (s : string) : option Z :=
  match s with
  | EmptyString => Some acc
  | String c s' =>
      if is_digit c
      then digits_value (10 * acc + (Z.of_nat (code c) - 48)) s'
      else None
  end.

(** A non-empty run of decimal digits. *)
Definition read_nat (s : string) : option Z :=
  match s with
  | EmptyString => None
  | _ => digits_value 0 s
  end.

Fixpoint split_at_char (sep : ascii) (s : string) : string * option string :=
  match s with
  | EmptyString => (EmptyString, None)
  | String c s' =>
      if Ascii.eqb c sep then (EmptyString, Some s')
      else let '(a, b) := split_at_char sep s' in (String c a, b)
  end.

Definition read_fraction (s : string) : option Z :=
  let n := String.length s in
  if (n <=? 6)%nat
  then v ← digits_value 0 s; Some (v * 10 ^ Z.of_nat (6 - n))
  else None.

Definition read_unsigned (s : string) : option Z :=
  match split_at_char "."%char s with
  | (ip, None) => v ← read_nat ip; Some (v * 1000000)
  | (ip, Some fp) => v ← read_nat ip; f ← read_fraction fp; Some (v * 1000000 + f)
  end.

Definition parse_num (s : string) : option Z :=
  match s with
  | String "-"%char s' => Z.opp <$> read_unsigned s'
  | _ => read_unsigned s
  end.

(** Round to the nearest multiple of [unit], ties to the even multiple. *)
Definition round_to (unit x : Z) : Z :=
  let q := x / unit in
  let r := x mod unit in
  if 2 * r <? unit then q * unit
  else if unit <? 2 * r then (q + 1) * unit
  else if Z.even q then q * unit else (q + 1) * unit.

Definition num_round (decimals x : Z) : Z :=
  if 6 <=? decimals then x else round_to (10 ^ (6 - decimals)) x.

(** Six digits, most significant first. *)
Definition pad6 (f : Z) : string :=
  let s := pretty (Z.to_N f) in
  String.concat "" (replicate (6 - String.length s)%nat "0") +:+ s.

Fixpoint drop_trailing_zeros (s : string) : string :=
  match s with
  | EmptyString => EmptyString
  | String c s' =>
      match drop_trailing_zeros s' with
      | EmptyString => if Ascii.eqb c "0"%char then EmptyString else String c EmptyString
      | r => String c r
      end
  end.

Definition num_str (x : Z) : string :=
  let a := Z.abs x in
  let frac := drop_trailing_zeros (pad6 (a mod 1000000)) in
  (if x <? 0 then "-" else "") +:+ pretty (Z.to_N (a / 1000000)) +:+ "." +:+
  (if bool_decide (frac = "") then "0" else frac).

Definition num_as_Int64 (x : Z) : option Z :=
  if x mod 1000000 =? 0 then Some x else None.

(** Days since 1970-01-01 of a date of the proleptic Gregorian calendar. *)
Definition days_from_civil (y m d : Z) : Z :=
  let y := if m <=? 2 then y - 1 else y in
  let era := y / 400 in
  let yoe := y - era * 400 in
  let doy := (153 * (if 2 <? m then m - 3 else m + 9) + 2) / 5 + d - 1 in
  let doe := yoe * 365 + yoe / 4 - yoe / 100 + doy in
  era * 146097 + doe - 719468.

(** The date [(y, m, d)] of a day number. *)
Definition civil_from_days (z : Z) : Z * Z * Z :=
  let z := z + 719468 in
  let era := z / 146097 in
  let doe := z - era * 146097 in
  let yoe := (doe - doe / 1460 + doe / 36524 - doe / 146096) / 365 in
  let doy := doe - (365 * yoe + yoe / 4 - yoe / 100) in
  let mp := (5 * doy + 2) / 153 in
  let d := doy - (153 * mp + 2) / 5 + 1 in
  let m := if mp <? 10 then mp + 3 else mp - 9 in
  (if m <=? 2 then yoe + era * 400 + 1 else yoe + era * 400, m, d).

Definition valid_date (y m d : Z) : bool :=
  bool_decide (civil_from_days (days_from_civil y m d) = (y, m, d)).

Definition read_date (s : string) : option Z :=
  let '(ys, rest) := split_at_char "-"%char s in
  rest ← rest;
  let '(ms, ds) := split_at_char "-"%char rest in
  ds ← ds;
  y ← read_nat ys; m ← read_nat ms; d ← read_nat ds;
  if valid_date y m d then Some (days_from_civil y m d) else None.

Definition read_clock (s : string) : option Z :=
  let '(hs, rest) := split_at_char ":"%char s in
  rest ← rest;
  let '(ms, ss) := split_at_char ":"%char rest in
  ss ← ss;
  h ← read_nat hs; m ← read_nat ms; sec ← read_nat ss;
  if (h <? 24) && (m <? 60) && (sec <? 60) then Some (h * 3600 + m * 60 + sec) else None.

Definition parse_datetime (s : string) : option Z :=
  match split_at_char " "%char s with
  | (d, None) => days ← read_date d; Some (days * 86400)
  | (d, Some c) => days ← read_date d; secs ← read_clock c; Some (days * 86400 + secs)
  end.

Definition dt_normalize (t : Z) : Z := t / 86400 * 86400.

(** Monday is 0. *)
Definition dayofweek (t : Z) : Z := (t / 86400 + 3) mod 7.

Definition iso_week (t : Z) : Z :=
  let days := t / 86400 in
  (* the Thursday of the ISO week of [t] decides the ISO year *)
  let thursday := days - dayofweek t + 3 in
  let '(y, _, _) := civil_from_days thursday in
  (thursday - days_from_civil y 1 1) / 7 + 1.

Definition dt_num (field : string) (t : Z) : Z :=
  let '(y, m, d) := civil_from_days (t / 86400) in
  1000000 *
  (if bool_decide (field = "year") then y
   else if bool_decide (field = "month") then m
   else if bool_decide (field = "day") then d
   else if bool_decide (field = "hour") then t mod 86400 / 3600
   else if bool_decide (field = "dayofweek") then dayofweek t
   else if bool_decide (field = "isocalendar.week") then iso_week t
   else 0).

Definition day_names : list string :=
  [ "Monday"; "Tuesday"; "Wednesday"; "Thursday"; "Friday"; "Saturday"; "Sunday" ].

Definition month_names : list string :=
  [ "January"; "February"; "March"; "April"; "May"; "June"; "July";
    "August"; "September"; "October"; "November"; "December" ].

Definition dt_name (field : string) (t : Z) : string :=
  let '(_, m, _) := civil_from_days (t / 86400) in
  if bool_decide (field = "day_name")
  then default "" (day_names !! Z.to_nat (dayofweek t))
  else if bool_decide (field = "month_name")
  then default "" (month_names !! Z.to_nat (m - 1))
  else "".

Definition two (x : Z) : string :=
  (if x <? 10 then "0" else "") +:+ pretty (Z.to_N x).

Definition time_str (t : Z) : string :=
  let '(y, m, d) := civil_from_days (t / 86400) in
  let s := t mod 86400 in
  pretty (Z.to_N y) +:+ "-" +:+ two m +:+ "-" +:+ two d +:+ " " +:+
  two (s / 3600) +:+ ":" +:+ two (s mod 3600 / 60) +:+ ":" +:+ two (s mod 60).

End Ref.

Definition ref_lib : PandasLib Z Z := {|
  parse_num := Ref.parse_num;
  num_is_zero := Z.eqb 0%Z;
  num_round := Ref.num_round;
  num_str := Ref.num_str;
  num_as_Int64 := Ref.num_as_Int64;
  parse_datetime := Ref.parse_datetime;
  num_to_time := λ x, Some (x / 1000000000000000)%Z;
  time_to_num := λ t, (t * 1000000000000000)%Z;
  time_str := Ref.time_str;
  time_leb := Z.leb;
  dt_normalize := Ref.dt_normalize;
  dt_num := Ref.dt_num;
  dt_name := Ref.dt_name;
  csv_text_object := true;
  to_datetime_none_nat := false;
|}.

(** The same scalars with the two behaviours of pandas 3. *)
Definition ref_lib3 : PandasLib Z Z := {|
  parse_num := Ref.parse_num;
  num_is_zero := Z.eqb 0%Z;
  num_round := Ref.num_round;
  num_str := Ref.num_str;
  num_as_Int64 := Ref.num_as_Int64;
  parse_datetime := Ref.parse_datetime;
  num_to_time := λ x, Some (x / 1000000000000000)%Z;
  time_to_num := λ t, (t * 1000000000000000)%Z;
  time_str := Ref.time_str;
  time_leb := Z.leb;
  dt_normalize := Ref.dt_normalize;
  dt_num := Ref.dt_num;
  dt_name := Ref.dt_name;
  csv_text_object := false;
  to_datetime_none_nat := true;
|}.

(** ** Numbers with a signed zero

    A float has a sign bit of its own: [-0.0 == 0.0] holds, and the two
    print as "-0.0" and "0.0".  Here a number is its sign bit and the
    magnitude in millionths; rounding works on the magnitude and keeps the
    sign, as [round] does. *)

Module Signed.

Record t := mk { negative : bool; magnitude : Z }.

#[export] Instance t_eq_dec : EqDecision t.
Proof. solve_decision. Defined.

Definition of_Z (z : Z) : t := mk (z <? 0)%Z (Z.abs z).

Definition to_Z (x : t) : Z :=
  if negative x then (- magnitude x)%Z else magnitude x.

Definition parse_num (s : string) : option t :=
  match s with
  | String "-"%char s' => mk true <$> Ref.read_unsigned s'
  | _ => mk false <$> Ref.read_unsigned s
  end.

(** [x == 0] *)
Definition is_zero (x : t) : bool := (magnitude x =? 0)%Z.

(** [x == y] on floats: the two zeros are equal. *)
Definition eqb (x y : t) : bool :=
  (is_zero x && is_zero y)
  || (Bool.eqb (negative x) (negative y) && (magnitude x =? magnitude y)%Z).

Definition num_round (decimals : Z) (x : t) : t :=
  mk (negative x) (Ref.num_round decimals (magnitude x)).

Definition num_str (x : t) : string :=
  (if negative x then "-" else "") +:+ Ref.num_str (magnitude x).

(** An integer has one zero. *)
Definition num_as_Int64 (x : t) : option t :=
  of_Z <$> Ref.num_as_Int64 (to_Z x).

End Signed.

Definition signed_lib : PandasLib Signed.t Z := {|
  parse_num := Signed.parse_num;
  num_is_zero := Signed.is_zero;
  num_round := Signed.num_round;
  num_str := Signed.num_str;
  num_as_Int64 := Signed.num_as_Int64;
  parse_datetime := Ref.parse_datetime;
  num_to_time := λ x, Some (Signed.to_Z x / 1000000000000000)%Z;
  time_to_num := λ t, Signed.of_Z (t * 1000000000000000)%Z;
  time_str := Ref.time_str;
  time_leb := Z.leb;
  dt_normalize := Ref.dt_normalize;
  dt_num := λ field t, Signed.of_Z (Ref.dt_num field t);
  dt_name := Ref.dt_name;
  csv_text_object := true;
  to_datetime_none_nat := false;
|}.

(** ** Concrete inputs

    Frames as [pd.read_csv] returns them: text columns hold text, numeric
    columns hold numbers, an empty field is missing. *)

Definition deg (millionths : Z) : @cell Z Z := Num millionths.

(** The end-to-end scenario of the specification: two reports at one site
    with different spellings of the address, and one with (0,0)
    coordinates. *)
Definition raw_scenario : @DataFrame Z Z :=
  new_frame 3
    [ ("Service Request Number", [Txt "SR-1"; Txt "SR-2"; Txt "SR-3"]);
      ("Created Date",
        [Txt "2024-01-15 13:45:00"; Txt "2024-01-15 08:00:00"; Txt "2024-02-01 07:30:00"]);
      ("Method Received", [Txt "App"; Txt " Phone "; NA]);
      ("Status", [Txt "Closed"; Txt "Open"; Txt "Closed"]);
      ("Police Precinct", [Txt "North"; NA; Txt "West"]);
      ("Council District", [deg 3000000; NA; deg 7000000]);
      ("ZIP Code", [deg 98101000000; deg 98101000000; NA]);
      ("Where is the Illegal Dumping Violation located?",
        [Txt "Street"; Txt "Street"; NA]);
      ("Choose a description of the Illegal Dumping",
        [Txt "Couch"; Txt "Couch"; NA]);
      ("Location", [Txt "123 MAIN ST"; Txt "123 Main Street"; Txt "456 Oak Ave"]);
      ("Latitude", [deg 47606210; deg 47606230; deg 0]);
      ("Longitude", [deg (-122332140); deg (-122332060); deg 0]);
      ("Community Reporting Area", [NA; NA; NA]) ].

(** Two reports whose violation location differs in letter case only. *)
Definition raw_mixed_case : @DataFrame Z Z :=
  new_frame 2
    [ ("Service Request Number", [Txt "SR-1"; Txt "SR-2"]);
      ("Created Date", [Txt "2024-01-15 13:45:00"; Txt "2024-01-16 09:00:00"]);
      ("Method Received", [Txt "App"; Txt "App"]);
      ("Status", [Txt "Closed"; Txt "Open"]);
      ("Police Precinct", [Txt "North"; Txt "West"]);
      ("Council District", [deg 3000000; deg 7000000]);
      ("ZIP Code", [deg 98101000000; deg 98103000000]);
      ("Where is the Illegal Dumping Violation located?",
        [Txt "Street"; Txt "STREET"]);
      ("Choose a description of the Illegal Dumping", [Txt "Couch"; Txt "Couch"]);
      ("Location", [Txt "123 MAIN ST"; Txt "456 Oak Ave"]);
      ("Latitude", [deg 47606210; deg 47611000]);
      ("Longitude", [deg (-122332140); deg (-122340000)]) ].

(** The scenario without its Latitude column. *)
Definition raw_no_latitude : @DataFrame Z Z :=
  @mkDF Z Z 3 (delete "Latitude" (data raw_scenario)).

(** Two reports without a request number. *)
Definition raw_no_request_number : @DataFrame Z Z :=
  setitem "Service Request Number" [NA; Txt "SR-2"; NA] raw_scenario.

Definition empty_world : @World Z Z := mkWorld ∅ ∅.

(** The value of a computation that succeeded. *)
Definition the {A} (r : result A) (otherwise : A) : A :=
  match r with Ok a => a | Raise _ => otherwise end.

Definition no_frame : @DataFrame Z Z := @mkDF Z Z 0 ∅.

Definition no_tables : @StarSchema Z Z :=
  mkStar no_frame no_frame no_frame no_frame no_frame no_frame.

Definition clean_scenario : @DataFrame Z Z :=
  the (load_and_clean (P:=ref_lib) raw_scenario) no_frame.
Definition star_scenario : @StarSchema Z Z :=
  the (build_star_schema (P:=ref_lib) clean_scenario) no_tables.

Definition clean_mixed_case : @DataFrame Z Z :=
  the (load_and_clean (P:=ref_lib) raw_mixed_case) no_frame.
Definition star_mixed_case : @StarSchema Z Z :=
  the (build_star_schema (P:=ref_lib) clean_mixed_case) no_tables.

Definition clean_no_latitude : @DataFrame Z Z :=
  the (load_and_clean (P:=ref_lib) raw_no_latitude) no_frame.


(** A council district that is a number but not an integer. *)
Definition raw_half_district : @DataFrame Z Z :=
  setitem "Council District" [deg 3500000; NA; deg 7000000] raw_scenario.

(** The scenario without its Created Date column. *)
Definition raw_no_created_date : @DataFrame Z Z :=
  @mkDF Z Z 3 (delete "Created Date" (data raw_scenario)).

(** The third report without its address. *)
Definition raw_no_address : @DataFrame Z Z :=
  setitem "Location" [Txt "123 MAIN ST"; Txt "123 Main Street"; NA] raw_scenario.

Definition clean_no_address : @DataFrame Z Z :=
  the (load_and_clean (P:=ref_lib) raw_no_address) no_frame.
Definition star_no_address : @StarSchema Z Z :=
  the (build_star_schema (P:=ref_lib) clean_no_address) no_tables.

(** One report entered twice. *)
Definition raw_repeated : @DataFrame Z Z :=
  new_frame 2
    [ ("Service Request Number", [Txt "SR-1"; Txt "SR-1"]);
      ("Created Date", [Txt "2024-01-15 13:45:00"; Txt "2024-01-15 13:45:00"]);
      ("Method Received", [Txt "App"; Txt "App"]);
      ("Status", [Txt "Closed"; Txt "Closed"]);
      ("Police Precinct", [Txt "North"; Txt "North"]);
      ("Council District", [deg 3000000; deg 3000000]);
      ("ZIP Code", [deg 98101000000; deg 98101000000]);
      ("Where is the Illegal Dumping Violation located?", [Txt "Street"; Txt "Street"]);
      ("Choose a description of the Illegal Dumping", [Txt "Couch"; Txt "Couch"]);
      ("Location", [Txt "123 MAIN ST"; Txt "123 MAIN ST"]);
      ("Latitude", [deg 47606210; deg 47606210]);
      ("Longitude", [deg (-122332140); deg (-122332140)]) ].

Definition clean_repeated : @DataFrame Z Z :=
  the (load_and_clean (P:=ref_lib) raw_repeated) no_frame.


(** * Properties *)

Section Properties.
Context {num time : Type} `{!EqDecision num, !EqDecision time}
  {P : PandasLib num time}.

Local Abbreviation cell := (@cell num time).
Local Abbreviation DataFrame := (@DataFrame num time).
Local Abbreviation StarSchema := (@StarSchema num time).
Local Abbreviation World := (@World num time).
Local Abbreviation of_str := (@of_str num time).
Local Abbreviation str_cell := (@str_cell num time).

(** ** Text *)

Lemma all_chars_remove_special s : all_chars is_key_char (remove_special s) = true.
Proof.
  induction s as [|c s IH]; simpl; [done|].
  destruct (is_key_char c) eqn:E; simpl; [rewrite E|]; done.
Qed.

Lemma is_key_char_blank : is_key_char " " = true.
Proof. reflexivity. Qed.

Lemma all_chars_collapse_from b s :
  all_chars is_key_char s = true →
  all_chars is_key_char (collapse_from b s) = true.
Proof.
  revert b. induction s as [|c s IH]; intros b; simpl; [done|].
  intros [Hc Hs]%andb_prop.
  destruct (is_space c), b; simpl; rewrite ?Hc, ?is_key_char_blank; simpl; auto.
Qed.

Lemma all_chars_lstrip p s : all_chars p s = true → all_chars p (lstrip s) = true.
Proof.
  induction s as [|c s IH]; simpl; [done|].
  intros [Hc Hs]%andb_prop. destruct (is_space c); simpl; [auto|].
  by rewrite Hc, Hs.
Qed.

Lemma all_chars_rstrip p s : all_chars p s = true → all_chars p (rstrip s) = true.
Proof.
  induction s as [|c s IH]; simpl; [done|].
  intros [Hc Hs]%andb_prop. specialize (IH Hs).
  destruct (rstrip s) as [|c' r].
  - destruct (is_space c); simpl; [done|]. by rewrite Hc.
  - change (all_chars p (String c (String c' r))) with (p c && all_chars p (String c' r)).
    by rewrite Hc, IH.
Qed.

Lemma all_chars_strip p s : all_chars p s = true → all_chars p (strip s) = true.
Proof. intros. by apply all_chars_rstrip, all_chars_lstrip. Qed.

(** The normalised address is made of [A-Z0-9 ] only, so it is never one of
    the lower-case markers that [replace] looks for. *)
Lemma address_chars s :
  all_chars is_key_char (strip (collapse_ws (remove_special (upper s)))) = true.
Proof.
  apply all_chars_strip, all_chars_collapse_from, all_chars_remove_special.
Qed.

Lemma replace_markers_key_chars s :
  all_chars is_key_char s = true →
  replace_markers_cell_str s = if bool_decide (s = "") then None else Some s.
Proof.
  intros Hs. unfold replace_markers_cell_str.
  destruct (bool_decide_reflect (s = "None")) as [->|_]; [done|].
  destruct (bool_decide_reflect (s = "nan")) as [->|_]; [done|].
  done.
Qed.

Lemma append_cons x (a b : string) : String x a +:+ b = String x (a +:+ b).
Proof. reflexivity. Qed.

Lemma append_assoc (a b c : string) : (a +:+ b) +:+ c = a +:+ (b +:+ c).
Proof.
  induction a as [|x a IH]; [done|]. rewrite !append_cons. by rewrite IH.
Qed.

Lemma all_chars_app p a b :
  all_chars p (a +:+ b) = all_chars p a && all_chars p b.
Proof.
  induction a as [|c a IH]; [done|].
  rewrite append_cons. simpl. rewrite IH. by rewrite andb_assoc.
Qed.

(** ** The Location Key resolver *)


Lemma build_location_key_rows (location lat lon : list cell) :
  build_location_key location lat lon = zip_with3 location_key_spec location lat lon.
Proof.
  unfold build_location_key, zip_with3.
  revert lat lon. induction location as [|l location IH]; intros lat lon.
  { done. }
  destruct lat as [|a lat]; [done|]. destruct lon as [|o lon].
  { by cbn. }
  specialize (IH lat lon). cbn -[location_key_spec address_key].
  f_equal; [|exact IH].
  unfold location_key_spec, coordinate_key, address_key.
  destruct (cell_to_str l) as [s|]; cbn.
  - pose proof (replace_markers_key_chars _ (address_chars s)) as Hk.
    unfold collapse_ws in *. rewrite Hk.
    destruct (to_numeric_cell a) as [x|], (to_numeric_cell o) as [y|]; cbn;
      rewrite ?andb_false_r; try done.
    destruct (num_is_zero x && num_is_zero y); cbn; [done|].
    by rewrite append_assoc.
  - destruct (to_numeric_cell a) as [x|], (to_numeric_cell o) as [y|]; cbn;
      rewrite ?andb_false_r; try done.
    destruct (num_is_zero x && num_is_zero y); cbn; [done|].
    by rewrite append_assoc.
Qed.

Lemma build_location_key_lookup (location lat lon : list cell) i l a o :
  location !! i = Some l → lat !! i = Some a → lon !! i = Some o →
  build_location_key location lat lon !! i = Some (location_key_spec l a o).
Proof.
  intros Hl Ha Ho. rewrite build_location_key_rows. unfold zip_with3.
  rewrite lookup_zip_with, Hl. simpl.
  rewrite lookup_zip_with, Ha. simpl. by rewrite Ho.
Qed.



Lemma address_key_chars (o : option string) k :
  address_key o = Some k → all_chars is_key_char k = true.
Proof.
  destruct o as [s|]; [|done]. simpl. case_bool_decide; [done|].
  intros [= <-]. apply address_chars.
Qed.

Lemma coordinate_key_not_address (o : option string) (u v : num) :
  address_key o ≠ Some (coordinate_key u v).
Proof.
  intros H%address_key_chars. unfold coordinate_key in H.
  rewrite !all_chars_app in H. simpl in H.
  by rewrite andb_false_r in H.
Qed.

(** Location key stability, as far as the code reaches it: two records
    whose latitude and longitude parse as numbers, are not the (0,0)
    placeholder and round at four decimals to the same floats, the sign of
    a zero included, get the same, present, Location Key. *)
Theorem location_key_stability
    (location lat lon location' lat' lon' : list cell) i j
    (l a o l' a' o' : cell) (x y x' y' : num) :
  location !! i = Some l → lat !! i = Some a → lon !! i = Some o →
  location' !! j = Some l' → lat' !! j = Some a' → lon' !! j = Some o' →
  to_numeric_cell a = Some x → to_numeric_cell o = Some y →
  to_numeric_cell a' = Some x' → to_numeric_cell o' = Some y' →
  num_is_zero x && num_is_zero y = false →
  num_is_zero x' && num_is_zero y' = false →
  num_round 4 x = num_round 4 x' →
  num_round 4 y = num_round 4 y' →
  ∃ k, build_location_key location lat lon !! i = Some (Some k) ∧
       build_location_key location' lat' lon' !! j = Some (Some k).
Proof.
  intros Hl Ha Ho Hl' Ha' Ho' Hx Hy Hx' Hy' Hz Hz' Hrx Hry.
  exists (coordinate_key x y).
  rewrite (build_location_key_lookup _ _ _ _ _ _ _ Hl Ha Ho).
  rewrite (build_location_key_lookup _ _ _ _ _ _ _ Hl' Ha' Ho').
  unfold location_key_spec. rewrite Hx, Hy, Hx', Hy', Hz, Hz'.
  unfold coordinate_key. by rewrite Hrx, Hry.
Qed.

(** C2 - (0,0) exclusion and ordered derivation: every row of
    [build_location_key] is the coordinate key when both coordinates parse
    and are not (0,0), else the normalised address when that is non-empty,
    else absent; a row whose latitude and longitude are both zero takes the
    address path and never carries a coordinate key. *)
Theorem location_key_ordered_derivation
    (location lat lon : list cell) i (l a o : cell) :
  location !! i = Some l → lat !! i = Some a → lon !! i = Some o →
  build_location_key location lat lon !! i = Some (location_key_spec l a o) ∧
  (∀ x y, to_numeric_cell a = Some x → to_numeric_cell o = Some y →
     num_is_zero x = true → num_is_zero y = true →
     build_location_key location lat lon !! i = Some (address_key (cell_to_str l)) ∧
     ∀ u v, build_location_key location lat lon !! i ≠ Some (Some (coordinate_key u v))).
Proof.
  intros Hl Ha Ho.
  rewrite (build_location_key_lookup _ _ _ _ _ _ _ Hl Ha Ho).
  split; [done|]. intros x y Hx Hy Zx Zy.
  unfold location_key_spec. rewrite Hx, Hy, Zx, Zy. simpl.
  split; [done|]. intros u v [= H]. by apply coordinate_key_not_address in H.
Qed.


(** ** The Field Normalizer *)

Lemma is_space_upper_char c : is_space (upper_char c) = is_space c.
Proof. by destruct c as [[] [] [] [] [] [] [] []]. Qed.

Lemma is_lower_upper_char c : is_lower (upper_char c) = false.
Proof. by destruct c as [[] [] [] [] [] [] [] []]. Qed.

Lemma upper_lstrip s : lstrip (upper s) = upper (lstrip s).
Proof.
  induction s as [|c s IH]; simpl; [done|].
  rewrite is_space_upper_char. by destruct (is_space c).
Qed.

Lemma upper_rstrip s : rstrip (upper s) = upper (rstrip s).
Proof.
  induction s as [|c s IH]; simpl; [done|].
  rewrite IH, is_space_upper_char.
  destruct (rstrip s); simpl; [by destruct (is_space c)|done].
Qed.

Lemma upper_strip s : strip (upper s) = upper (strip s).
Proof. unfold strip. by rewrite upper_lstrip, upper_rstrip. Qed.

Lemma upper_empty s : upper s = "" ↔ s = "".
Proof. by destruct s. Qed.

Lemma upper_no_lower s : all_chars (λ c, negb (is_lower c)) (upper s) = true.
Proof.
  induction s as [|c s IH]; simpl; [done|].
  by rewrite is_lower_upper_char, IH.
Qed.

(** After uppercasing, only the empty string is left among the markers. *)
Lemma replace_markers_upper s :
  replace_markers_cell_str (upper s) =
  if bool_decide (s = "") then None else Some (upper s).
Proof.
  unfold replace_markers_cell_str.
  pose proof (upper_no_lower s) as Hs.
  destruct (bool_decide_reflect (upper s = "None")) as [E|_].
  { by rewrite E in Hs. }
  destruct (bool_decide_reflect (upper s = "nan")) as [E|_].
  { by rewrite E in Hs. }
  simpl. rewrite (bool_decide_ext _ _ (upper_empty s)). done.
Qed.


(** [std_text] is [normalizeText], cell by cell. *)
Lemma std_text_normalize_text (s : list cell) :
  std_text s = normalize_text <$> s.
Proof.
  unfold std_text, replace_markers, str_map, astype_string.
  rewrite <- !list_fmap_compose. apply list_fmap_ext. intros _ c _. simpl.
  unfold normalize_text. destruct (cell_to_str c) as [t|]; [|done]. simpl.
  unfold replace_markers_cell_str.
  destruct (bool_decide_reflect (strip t = "None")) as [->|?]; [done|].
  destruct (bool_decide_reflect (strip t = "nan")) as [->|?]; [done|].
  destruct (bool_decide_reflect (strip t = "")) as [->|?]; [done|].
  simpl. rewrite bool_decide_eq_false_2; [done|].
  rewrite !elem_of_cons, elem_of_nil. tauto.
Qed.

(** What [std_upper_key] computes: the text trimmed and uppercased, absent
    only when it is empty. *)
Lemma std_upper_key_rows (s : list cell) :
  std_upper_key s =
  (λ c, t ← cell_to_str c;
        if bool_decide (strip t = "") then None else Some (upper (strip t))) <$> s.
Proof.
  unfold std_upper_key, replace_markers, str_map, astype_string.
  rewrite <- !list_fmap_compose. apply list_fmap_ext. intros _ c _. simpl.
  destruct (cell_to_str c) as [t|]; [|done]. simpl.
  by rewrite upper_strip, replace_markers_upper.
Qed.

(** Away from the two textual markers the two normalisers agree. *)
Lemma std_upper_key_agrees (s : list cell) :
  Forall (λ c, ∀ t, cell_to_str c = Some t → strip t ≠ "None" ∧ strip t ≠ "nan") s →
  std_upper_key s = normalize_key_text <$> s.
Proof.
  intros Hs. rewrite std_upper_key_rows. apply Forall_fmap_ext_1.
  eapply Forall_impl; [exact Hs|]. intros c Hc. simpl.
  unfold normalize_key_text, normalize_text.
  destruct (cell_to_str c) as [t|] eqn:Ht; [|done]. simpl.
  destruct (Hc t Ht) as [H1 H2].
  destruct (bool_decide_reflect (strip t = "")) as [E|E].
  - rewrite bool_decide_eq_true_2; [done|].
    rewrite E, !elem_of_cons. tauto.
  - rewrite bool_decide_eq_false_2; [done|].
    rewrite !elem_of_cons, elem_of_nil. tauto.
Qed.

(** C5 - [std_upper_key] against the uppercased [std_text]: the textual
    markers "None" and "nan", which [std_text] maps to absent, come out of
    [std_upper_key] as the keys "NONE" and "NAN". *)
Theorem std_upper_key_keeps_textual_markers :
  std_text [Txt "None"; Txt " nan "] = [None; None] ∧
  normalize_key_text <$> [Txt "None"; Txt " nan "] = [None; None] ∧
  std_upper_key [Txt "None"; Txt " nan "] = [Some "NONE"; Some "NAN"].
Proof. by vm_compute. Qed.


(** ** Duplicates and row selection *)

Lemma select_rows_fmap {A B} (f : A → B) (cond : list bool) (s : list A) :
  select_rows cond (f <$> s) = f <$> select_rows cond s.
Proof.
  revert s. induction cond as [|b cond IH]; intros [|x s]; simpl; try done.
  destruct b; simpl; by rewrite IH.
Qed.

Lemma select_rows_zip {A B} (cond : list bool) (a : list A) (b : list B) :
  select_rows cond (zip a b) = zip (select_rows cond a) (select_rows cond b).
Proof.
  revert a b. induction cond as [|c cond IH]; intros [|x a] [|y b]; simpl;
    try done.
  - by destruct c, (select_rows cond a).
  - destruct c; simpl; by rewrite IH.
Qed.

Lemma mask_sum_cons b m :
  mask_sum (b :: m) = (if b then 1 else 0) + mask_sum m.
Proof.
  unfold mask_sum. rewrite filter_cons. by case_decide; destruct b.
Qed.

Lemma mask_sum_pos m : 0 < mask_sum m ↔ true ∈ m.
Proof.
  induction m as [|b m IH]; [rewrite elem_of_nil; unfold mask_sum; simpl; lia|].
  rewrite mask_sum_cons, elem_of_cons. destruct b; [intuition lia|].
  rewrite <- IH. intuition (try lia; try done).
Qed.

Lemma mask_any_false m : mask_any m = false ↔ true ∉ m.
Proof. unfold mask_any. by rewrite bool_decide_eq_false. Qed.

Section Duplicates.
Context {K : Type} `{EqDecision K}.
Implicit Types (l seen : list K).

Lemma elem_of_kept_from seen l x :
  x ∈ select_rows (negb <$> duplicated_from seen l) l ↔ x ∈ l ∧ x ∉ seen.
Proof.
  revert seen. induction l as [|y l IH]; intros seen; simpl.
  { rewrite elem_of_nil. tauto. }
  case_bool_decide as Hy; simpl.
  - rewrite IH, !elem_of_cons. split; [naive_solver|].
    intros [[->|?] Hx]; [done|]. split; [done|]. intros [->|?]; naive_solver.
  - rewrite !elem_of_cons, IH, elem_of_cons.
    destruct (decide (x = y)) as [->|]; naive_solver.
Qed.

Lemma NoDup_kept_from seen l :
  NoDup (select_rows (negb <$> duplicated_from seen l) l).
Proof.
  revert seen. induction l as [|y l IH]; intros seen; simpl; [constructor|].
  case_bool_decide; simpl; [apply IH|].
  constructor; [|apply IH]. rewrite elem_of_kept_from, elem_of_cons. tauto.
Qed.

(** What [drop_duplicates] keeps has no repetition, and it keeps a copy of
    every value. *)
Lemma NoDup_drop_duplicates l : NoDup (drop_duplicates l).
Proof. apply NoDup_kept_from. Qed.

Lemma elem_of_drop_duplicates l x : x ∈ drop_duplicates l ↔ x ∈ l.
Proof.
  unfold drop_duplicates, duplicated. rewrite elem_of_kept_from, elem_of_nil.
  tauto.
Qed.

Lemma duplicated_from_clean seen l :
  true ∉ duplicated_from seen l ↔ NoDup l ∧ ∀ x, x ∈ l → x ∉ seen.
Proof.
  revert seen. induction l as [|y l IH]; intros seen; simpl.
  { rewrite elem_of_nil. split; [|tauto]. intros _. split; [constructor|].
    intros x. by rewrite elem_of_nil. }
  rewrite not_elem_of_cons, IH, NoDup_cons. case_bool_decide as Hy.
  - split; [naive_solver|]. intros [_ Hx]. exfalso.
    apply (Hx y); [left|done].
  - split.
    + intros (_ & Hnd & Hx). repeat split; [|done|].
      * intros Hin. apply (Hx y Hin). left.
      * intros x [->|Hin]%elem_of_cons; [done|].
        intros Hs. apply (Hx x Hin). by right.
    + intros ((Hy' & Hnd) & Hx). repeat split; [done|done|].
      intros x Hin [->|Hs]%elem_of_cons; [done|].
      apply (Hx x); [by right|done].
Qed.

(** The dimension gate of the validator is the test for repetition. *)
Lemma mask_any_duplicated l : mask_any (duplicated l) = false ↔ NoDup l.
Proof.
  rewrite mask_any_false. unfold duplicated. rewrite duplicated_from_clean.
  split; [tauto|]. intros. split; [done|]. intros x _. apply not_elem_of_nil.
Qed.

Lemma mask_any_duplicated_true l : mask_any (duplicated l) = true ↔ ¬ NoDup l.
Proof.
  rewrite <- mask_any_duplicated. by destruct (mask_any (duplicated l)).
Qed.

(** The grain gate fires exactly when a value repeats. *)
Lemma mask_sum_duplicated_pos l : 0 < mask_sum (duplicated l) ↔ ¬ NoDup l.
Proof.
  rewrite mask_sum_pos, <- mask_any_duplicated_true. unfold mask_any.
  by rewrite bool_decide_eq_true.
Qed.

End Duplicates.

(** ** Frames *)

Lemma bind_Ok {A B} (r : result A) (f : A → result B) b :
  r ≫= f = Ok b → ∃ a, r = Ok a ∧ f a = Ok b.
Proof. destruct r; simpl; [eauto|done]. Qed.


Lemma getitem_Ok c (df : DataFrame) s :
  getitem c df = Ok s ↔ data df !! c = Some s.
Proof. unfold getitem. destruct (data df !! c); split; congruence. Qed.

Lemma lookup_filter_rows cond (df : DataFrame) c :
  data (filter_rows cond df) !! c = select_rows cond <$> data df !! c.
Proof. unfold filter_rows. simpl. apply lookup_fmap. Qed.

Lemma lookup_rename_other old new (df : DataFrame) c :
  c ≠ old → c ≠ new → data (rename_column old new df) !! c = data df !! c.
Proof.
  intros ??. unfold rename_column. destruct (data df !! old); [|done]. simpl.
  by rewrite lookup_insert_ne, lookup_delete_ne.
Qed.

Lemma select_columns_lookup cols (df : DataFrame) c :
  c ∈ cols →
  (list_to_map (omap (λ c, pair c <$> data df !! c) cols) : gmap string (list cell)) !! c
  = data df !! c.
Proof.
  induction cols as [|c0 cols IH]; [by rewrite elem_of_nil|].
  intros Hc. simpl. destruct (data df !! c0) as [s0|] eqn:E0; simpl.
  - destruct (decide (c = c0)) as [->|Hne].
    + by rewrite lookup_insert_eq.
    + rewrite lookup_insert_ne by done. apply IH.
      apply elem_of_cons in Hc as [?|?]; [done|done].
  - destruct (decide (c = c0)) as [->|Hne].
    + rewrite E0. apply not_elem_of_list_to_map_1.
      rewrite list_elem_of_fmap. intros ([c' s'] & -> & Hin).
      apply list_elem_of_omap in Hin as (c'' & _ & Hs).
      destruct (data df !! c'') eqn:E; simplify_eq/=.
    + apply IH. apply elem_of_cons in Hc as [?|?]; [done|done].
Qed.

(** Selecting a list of columns succeeds exactly when all of them exist. *)
Lemma select_columns_Ok cols (df sel : DataFrame) :
  select_columns cols df = Ok sel →
  index sel = index df ∧
  ∀ c, c ∈ cols → is_Some (data df !! c) ∧ data sel !! c = data df !! c.
Proof.
  unfold select_columns.
  destruct (filter _ cols) as [|m ms] eqn:Hf; [|done]. intros [= <-].
  split; [done|]. intros c Hc. split.
  - destruct (data df !! c) eqn:E; [eauto|]. exfalso.
    assert (c ∈ filter (λ c, data df !! c = None) cols) as Hin
      by (by apply list_elem_of_filter).
    rewrite Hf in Hin. by apply elem_of_nil in Hin.
  - simpl. by apply select_columns_lookup.
Qed.

Lemma select_columns_missing cols (df : DataFrame) c :
  c ∈ cols → data df !! c = None →
  ∃ missing, select_columns cols df = Raise (KeyError missing) ∧ c ∈ missing.
Proof.
  intros Hc E. unfold select_columns.
  assert (c ∈ filter (λ c, data df !! c = None) cols) as Hin
    by (by apply list_elem_of_filter).
  destruct (filter _ cols) as [|m ms]; [by apply elem_of_nil in Hin|].
  eauto.
Qed.


(** ** The Dimensional Modeler, table by table *)

Ltac solve_lookup :=
  unfold new_frame, setitem; cbn [data];
  rewrite ?list_to_map_cons; cbn [fst snd];
  repeat (rewrite lookup_insert_ne by done);
  first [apply lookup_insert_eq | done].


(** The columns of the fact table the claims speak about. *)
Lemma fact_table_columns (model_df fact : DataFrame) cdt mr st pp vl dd :
  fact_table model_df cdt mr st pp vl dd = Ok fact →
  let na := na_series model_df in
  index fact = index model_df ∧
  data fact !! "ServiceRequestNumber"
    = Some (of_str (std_text (df_get_or "Service Request Number" na model_df))) ∧
  data fact !! "CreatedDate" = Some (of_time (normalize cdt)) ∧
  data fact !! "MethodReceived" = Some (of_str mr) ∧
  data fact !! "Status" = Some (of_str st) ∧
  data fact !! "CouncilDistrict" = Some (df_get_or "Council District" na model_df) ∧
  data fact !! "ViolationLocatedAt" = Some (of_str vl) ∧
  data fact !! "DumpingDescription" = Some (of_str dd) ∧
  data fact !! "LocationKey" = data model_df !! "LocationKey" ∧
  data fact !! "CategoryKey" = Some (category_key (of_str vl) (of_str dd)).
Proof.
  unfold fact_table. intros H.
  apply bind_Ok in H as (lk & Hlk & H). apply getitem_Ok in Hlk.
  apply bind_Ok in H as (fvl & Hvl & H). apply getitem_Ok in Hvl.
  apply bind_Ok in H as (fdd & Hdd & H). apply getitem_Ok in Hdd.
  assert (fvl = of_str vl) as ->.
  { apply (inj Some). rewrite <- Hvl. solve_lookup. }
  assert (fdd = of_str dd) as ->.
  { apply (inj Some). rewrite <- Hdd. solve_lookup. }
  injection H as <-. rewrite Hlk.
  split_and!; solve_lookup.
Qed.

Lemma fact_table_Ok (model_df : DataFrame) cdt mr st pp vl dd :
  is_Some (data model_df !! "LocationKey") →
  ∃ fact, fact_table model_df cdt mr st pp vl dd = Ok fact.
Proof.
  intros [lk Hlk]. unfold fact_table.
  rewrite (proj2 (getitem_Ok _ _ _) Hlk). simpl.
  erewrite (proj2 (getitem_Ok "ViolationLocatedAt" _ _)) by solve_lookup. simpl.
  erewrite (proj2 (getitem_Ok "DumpingDescription" _ _)) by solve_lookup. simpl.
  eauto.
Qed.

(** The category dimension: the two text columns restricted to the first
    occurrence of each pair, and the key computed from the restricted
    columns. *)
Lemma dim_category_table_columns n (vl dd : list (option string)) :
  let keep := negb <$> duplicated (zip vl dd) in
  ∃ dc, dim_category_table n vl dd = Ok dc ∧
    data dc !! "ViolationLocatedAt" = Some (of_str (select_rows keep vl)) ∧
    data dc !! "DumpingDescription" = Some (of_str (select_rows keep dd)) ∧
    data dc !! "CategoryKey"
      = Some (category_key (of_str (select_rows keep vl)) (of_str (select_rows keep dd))).
Proof.
  intros keep. unfold dim_category_table, drop_duplicate_rows. fold keep.
  erewrite (proj2 (getitem_Ok "ViolationLocatedAt" _ (of_str (select_rows keep vl)))).
  2:{ rewrite lookup_filter_rows. unfold of_str. rewrite <- select_rows_fmap.
      apply fmap_Some. eexists. split; [|done]. solve_lookup. }
  simpl.
  erewrite (proj2 (getitem_Ok "DumpingDescription" _ (of_str (select_rows keep dd)))).
  2:{ rewrite lookup_filter_rows. unfold of_str. rewrite <- select_rows_fmap.
      apply fmap_Some. eexists. split; [|done]. solve_lookup. }
  simpl. eexists. split; [done|].
  assert (∀ c s, c ≠ "CategoryKey" →
    data (filter_rows keep (new_frame n
      [("ViolationLocatedAt", of_str vl); ("DumpingDescription", of_str dd)])) !! c
      = Some (of_str (select_rows keep s)) →
    data (setitem "CategoryKey"
      (category_key (of_str (select_rows keep vl)) (of_str (select_rows keep dd)))
      (filter_rows keep (new_frame n
        [("ViolationLocatedAt", of_str vl); ("DumpingDescription", of_str dd)]))) !! c
      = Some (of_str (select_rows keep s))) as Hother.
  { intros c s Hc Hs. unfold setitem. cbn [data].
    by rewrite lookup_insert_ne. }
  split_and!.
  - apply Hother; [done|]. rewrite lookup_filter_rows. unfold of_str.
    rewrite <- select_rows_fmap. apply fmap_Some. eexists. split; [|done].
    solve_lookup.
  - apply Hother; [done|]. rewrite lookup_filter_rows. unfold of_str.
    rewrite <- select_rows_fmap. apply fmap_Some. eexists. split; [|done].
    solve_lookup.
  - unfold setitem. cbn [data]. apply lookup_insert_eq.
Qed.



Lemma lookup_setitem_ne col s (df : DataFrame) c :
  c ≠ col → data (setitem col s df) !! c = data df !! c.
Proof. intros. unfold setitem. simpl. by rewrite lookup_insert_ne. Qed.

Lemma lookup_setitem_eq col s (df : DataFrame) :
  data (setitem col s df) !! col = Some s.
Proof. unfold setitem. simpl. apply lookup_insert_eq. Qed.

(** The location dimension exists exactly when the seven columns it
    projects exist, and its key column is the deduplicated key column of the
    input. *)
Lemma dim_location_table_inv (model_df dl : DataFrame) :
  dim_location_table model_df = Ok dl →
  (∀ c, c ∈ dim_location_columns → is_Some (data model_df !! c)) ∧
  ∃ lk, data model_df !! "LocationKey" = Some lk ∧
        data dl !! "LocationKey" = Some (drop_duplicates lk).
Proof.
  unfold dim_location_table. intros H.
  apply bind_Ok in H as (sel & Hsel & H).
  apply select_columns_Ok in Hsel as [_ Hsel].
  split; [intros c Hc; by apply Hsel|].
  apply bind_Ok in H as (loc & _ & H).
  apply bind_Ok in H as (pp & _ & H).
  apply bind_Ok in H as (lk & Hlk & H). apply getitem_Ok in Hlk.
  rewrite !lookup_setitem_ne, !lookup_rename_other in Hlk by done.
  destruct (Hsel "LocationKey") as [_ Hk].
  { unfold dim_location_columns. rewrite !elem_of_cons. tauto. }
  rewrite Hk in Hlk. exists lk. split; [done|].
  injection H as <-. unfold drop_duplicate_rows.
  rewrite lookup_filter_rows, !lookup_setitem_ne, !lookup_rename_other by done.
  by rewrite Hk, Hlk.
Qed.

Lemma dim_location_table_KeyError (model_df : DataFrame) c :
  c ∈ dim_location_columns → data model_df !! c = None →
  ∃ missing, dim_location_table model_df = Raise (KeyError missing) ∧ c ∈ missing.
Proof.
  intros Hc E. unfold dim_location_table.
  destruct (select_columns_missing _ _ _ Hc E) as (m & -> & Hm). eauto.
Qed.

Lemma dropna_notna (s : list cell) c : c ∈ dropna s ↔ c ∈ s ∧ c ≠ NA.
Proof. unfold dropna. rewrite list_elem_of_filter. tauto. Qed.

(** A lookup table holds each non-missing value of its source once. *)
Lemma lookup_table_column name (s : list cell) :
  ∃ values, data (lookup_table name s) !! name = Some values ∧
    NoDup values ∧ ∀ c, c ∈ values ↔ c ∈ s ∧ c ≠ NA.
Proof.
  exists (sort_values (drop_duplicates (dropna s))). split; [|split].
  - unfold lookup_table, new_frame. cbn [data].
    rewrite list_to_map_cons. apply lookup_insert_eq.
  - unfold sort_values. rewrite merge_sort_Permutation.
    apply NoDup_drop_duplicates.
  - intros c. unfold sort_values. rewrite merge_sort_Permutation.
    by rewrite elem_of_drop_duplicates, dropna_notna.
Qed.

Lemma dim_date_table_column (fact dd : DataFrame) :
  dim_date_table fact = Ok dd →
  ∃ created dates, data fact !! "CreatedDate" = Some created ∧
    data dd !! "Date" = Some dates ∧ NoDup dates ∧
    ∀ c, c ∈ dates ↔ c ∈ created ∧ c ≠ NA.
Proof.
  unfold dim_date_table. intros H.
  apply bind_Ok in H as (created & Hc & H). apply getitem_Ok in Hc.
  apply bind_Ok in H as (date_col & Hd & H). apply getitem_Ok in Hd.
  destruct (lookup_table_column "Date" created) as (values & Hv & Hnd & Hin).
  rewrite Hv in Hd. injection Hd as <-.
  exists created, values. split; [done|]. split; [|done].
  injection H as <-. by rewrite !lookup_setitem_ne.
Qed.

Lemma dim_date_table_Ok (fact : DataFrame) :
  is_Some (data fact !! "CreatedDate") → ∃ dd, dim_date_table fact = Ok dd.
Proof.
  intros [created Hc]. unfold dim_date_table.
  rewrite (proj2 (getitem_Ok _ _ _) Hc). simpl.
  destruct (lookup_table_column "Date" created) as (values & Hv & _).
  rewrite (proj2 (getitem_Ok _ _ _) Hv). simpl. eauto.
Qed.

(** [build_star_schema] taken apart: the frame with its Location Key, the
    five standardised columns and the six tables. *)
Lemma build_star_schema_inv (clean : DataFrame) (star : StarSchema) :
  build_star_schema clean = Ok star →
  let na := na_series clean in
  let model_df :=
    setitem "LocationKey"
      (of_str (build_location_key (df_get_or "Location" na clean)
                 (df_get_or "Latitude" na clean)
                 (df_get_or "Longitude" na clean))) clean in
  let mr := std_text (df_get_or "Method Received" na model_df) in
  let st := std_text (df_get_or "Status" na model_df) in
  let pp := std_text (df_get_or "Police Precinct" na model_df) in
  let vl := std_text (df_get_or "Where is the Illegal Dumping Violation located?" na model_df) in
  let dd := std_text (df_get_or "Choose a description of the Illegal Dumping" na model_df) in
  ∃ cdt,
    fact_table model_df cdt mr st pp vl dd = Ok (fact star) ∧
    dim_date_table (fact star) = Ok (dim_date star) ∧
    dim_location_table model_df = Ok (dim_location star) ∧
    dim_category_table (index model_df) vl dd = Ok (dim_category star) ∧
    dim_intake star = lookup_table "MethodReceived" (of_str mr) ∧
    dim_status star = lookup_table "Status" (of_str st).
Proof.
  unfold build_star_schema. intros H.
  apply bind_Ok in H as (cdt & _ & H).
  apply bind_Ok in H as (f & Hf & H).
  apply bind_Ok in H as (d & Hd & H).
  apply bind_Ok in H as (l & Hl & H).
  apply bind_Ok in H as (c & Hc & H).
  apply bind_Ok in H as (fmr & Hmr & H). apply getitem_Ok in Hmr.
  apply bind_Ok in H as (fst & Hst & H). apply getitem_Ok in Hst.
  injection H as <-. simpl. exists cdt.
  pose proof (fact_table_columns _ _ _ _ _ _ _ _ Hf) as (_&_&_&Emr&Est&_).
  rewrite Emr in Hmr. rewrite Est in Hst.
  injection Hmr as <-. injection Hst as <-. done.
Qed.


(** ** The Integrity Validator *)


(** The run of [qa_and_export] on tables that hold the five key columns:
    the directory is made, the gates are tried in order, and the six files
    are written only when all of them pass. *)
Lemma qa_and_export_run (star : StarSchema) dir w sr lk ck lkeys ckeys :
  data (fact star) !! "ServiceRequestNumber" = Some sr →
  data (fact star) !! "LocationKey" = Some lk →
  data (fact star) !! "CategoryKey" = Some ck →
  data (dim_location star) !! "LocationKey" = Some lkeys →
  data (dim_category star) !! "CategoryKey" = Some ckeys →
  run (qa_and_export (fact star) (dim_date star) (dim_location star)
         (dim_category star) (dim_intake star) (dim_status star) dir) w =
  if 0 <? mask_sum (duplicated sr)
  then (Raise (ValueError (grain_message (mask_sum (duplicated sr)))), made_dir dir w)
  else if 0 <? mask_sum (isna lk)
  then (Raise (ValueError (null_key_message "LocationKey" (mask_sum (isna lk)))),
        made_dir dir w)
  else if 0 <? mask_sum (isna ck)
  then (Raise (ValueError (null_key_message "CategoryKey" (mask_sum (isna ck)))),
        made_dir dir w)
  else if mask_any (duplicated lkeys)
  then (Raise (ValueError "dim_location has duplicate LocationKey values."),
        made_dir dir w)
  else if mask_any (duplicated ckeys)
  then (Raise (ValueError "dim_category has duplicate CategoryKey values."),
        made_dir dir w)
  else (Ok (), exported star dir w).
Proof.
  intros Hsr Hlk Hck Hlkeys Hckeys.
  unfold qa_and_export. cbn [for_each]. unfold getitem.
  rewrite Hsr, Hlk, Hck, Hlkeys, Hckeys.
  cbn -[duplicated mask_sum mask_any isna Nat.ltb].
  destruct (0 <? mask_sum (duplicated sr)); [done|].
  cbn -[duplicated mask_sum mask_any isna Nat.ltb].
  destruct (0 <? mask_sum (isna lk)); [done|].
  cbn -[duplicated mask_sum mask_any isna Nat.ltb].
  destruct (0 <? mask_sum (isna ck)); [done|].
  cbn -[duplicated mask_sum mask_any isna Nat.ltb].
  destruct (mask_any (duplicated lkeys)); [done|].
  cbn -[duplicated mask_sum mask_any isna Nat.ltb].
  destruct (mask_any (duplicated ckeys)); done.
Qed.


(** ** Messages *)

Lemma prefix_append (s t : string) : String.prefix s (s +:+ t) = true.
Proof.
  induction s as [|c s IH]; [by destruct t|].
  rewrite append_cons. simpl. by destruct (ascii_dec c c).
Qed.







Lemma mask_sum_isna_pos (s : list cell) : 0 < mask_sum (isna s) ↔ NA ∈ s.
Proof.
  rewrite mask_sum_pos. unfold isna. rewrite list_elem_of_fmap. split.
  - intros (c & Hc & Hin). symmetry in Hc.
    apply bool_decide_eq_true in Hc. by subst.
  - intros Hin. exists NA. split; [|done]. symmetry.
    by apply bool_decide_eq_true.
Qed.










(** ** Keys of the star schema *)


Lemma category_key_rows (a b : list cell) :
  category_key a b = zip_with category_key_cell a b.
Proof.
  unfold category_key, std_upper_key, of_str, str_add, str_add_lit,
    replace_markers, str_map, astype_string.
  revert b. induction a as [|x a IH]; intros [|y b]; try done.
  cbn -[category_key_cell]. f_equal. apply IH.
Qed.

Lemma category_key_lookup (a b : list cell) i x y :
  a !! i = Some x → b !! i = Some y →
  category_key a b !! i = Some (category_key_cell x y).
Proof.
  intros Ha Hb. rewrite category_key_rows, lookup_zip_with, Ha. simpl.
  by rewrite Hb.
Qed.

Lemma of_str_lookup (s : list (option string)) i c :
  of_str s !! i = Some c ↔ ∃ o, s !! i = Some o ∧ c = str_cell o.
Proof.
  unfold of_str. rewrite list_lookup_fmap, fmap_Some. naive_solver.
Qed.

#[export] Instance str_cell_inj : Inj (=) (=) str_cell.
Proof. intros [x|] [y|]; simpl; congruence. Qed.

(** C3 - Category key symmetry: every (ViolationLocatedAt,
    DumpingDescription) pair of a fact row is a row of dim_category, and
    wherever a fact row and a dim_category row hold the same pair, the
    CategoryKey computed in the fact projection equals the one computed in
    dim_category. *)
Theorem category_key_symmetry (clean : DataFrame) (star : StarSchema) :
  build_star_schema clean = Ok star →
  (∀ i v d,
     cell_at (fact star) "ViolationLocatedAt" i = Some v →
     cell_at (fact star) "DumpingDescription" i = Some d →
     ∃ j, cell_at (dim_category star) "ViolationLocatedAt" j = Some v ∧
          cell_at (dim_category star) "DumpingDescription" j = Some d) ∧
  (∀ i j v d,
     cell_at (fact star) "ViolationLocatedAt" i = Some v →
     cell_at (fact star) "DumpingDescription" i = Some d →
     cell_at (dim_category star) "ViolationLocatedAt" j = Some v →
     cell_at (dim_category star) "DumpingDescription" j = Some d →
     ∃ k, cell_at (fact star) "CategoryKey" i = Some k ∧
          cell_at (dim_category star) "CategoryKey" j = Some k).
Proof.
  intros H. apply build_star_schema_inv in H as (cdt & Hf & _ & _ & Hc & _).
  apply fact_table_columns in Hf as (_&_&_&_&_&_& Fvl & Fdd & _ & Fck).
  match type of Hc with dim_category_table ?n ?vl ?dd = _ =>
    destruct (dim_category_table_columns n vl dd) as (dc & Hdc & Dvl & Ddd & Dck);
    set (VL := vl) in *; set (DD := dd) in *
  end.
  rewrite Hdc in Hc. injection Hc as <-.
  unfold cell_at. rewrite Fvl, Fdd, Fck, Dvl, Ddd, Dck. simpl. split.
  - intros i v d (v' & Hv & ->)%of_str_lookup (d' & Hd & ->)%of_str_lookup.
    assert ((v', d') ∈ drop_duplicates (zip VL DD)) as Hin.
    { apply elem_of_drop_duplicates, list_elem_of_lookup. exists i.
      by apply lookup_zip_Some. }
    unfold drop_duplicates in Hin. rewrite select_rows_zip in Hin.
    apply list_elem_of_lookup in Hin as [j Hj]. exists j.
    apply lookup_zip_Some in Hj as [Ha Hb].
    split; apply of_str_lookup; eauto.
  - intros i j v d Hv Hd Hv' Hd'. exists (category_key_cell v d).
    split; by apply category_key_lookup.
Qed.

(** The key columns of a star schema that was built: they exist, and the
    Location Key of dim_location has no repetition. *)
Lemma star_key_columns (clean : DataFrame) (star : StarSchema) :
  build_star_schema clean = Ok star →
  ∃ sr lk ck lkeys ckeys,
    data (fact star) !! "ServiceRequestNumber" = Some sr ∧
    data (fact star) !! "LocationKey" = Some lk ∧
    data (fact star) !! "CategoryKey" = Some ck ∧
    data (dim_location star) !! "LocationKey" = Some lkeys ∧
    data (dim_category star) !! "CategoryKey" = Some ckeys ∧
    NoDup lkeys.
Proof.
  intros H. apply build_star_schema_inv in H as (cdt & Hf & _ & Hl & Hc & _).
  apply fact_table_columns in Hf as (_& Fsr &_&_&_&_&_&_& Flk & Fck).
  rewrite lookup_setitem_eq in Flk.
  apply dim_location_table_inv in Hl as (_ & lk & Hlk & Dlk).
  match type of Hc with dim_category_table ?n ?vl ?dd = _ =>
    destruct (dim_category_table_columns n vl dd) as (dc & Hdc & _ & _ & Dck)
  end.
  rewrite Hdc in Hc. injection Hc as <-.
  do 5 eexists. split_and!; try done. apply NoDup_drop_duplicates.
Qed.

(** C9 - The dim_location branch of the dimension-uniqueness gate is
    unreachable: the LocationKey column of the dim_location that
    [build_star_schema] builds has no repetition, so on its tables
    [qa_and_export] never raises "dim_location has duplicate LocationKey
    values." *)
Theorem dim_location_gate_unreachable (clean : DataFrame) (star : StarSchema) :
  build_star_schema clean = Ok star →
  (∃ keys, data (dim_location star) !! "LocationKey" = Some keys ∧
           NoDup keys ∧ mask_any (duplicated keys) = false) ∧
  ∀ dir w,
    (run (qa_and_export (fact star) (dim_date star) (dim_location star)
            (dim_category star) (dim_intake star) (dim_status star) dir) w).1
    ≠ Raise (ValueError "dim_location has duplicate LocationKey values.").
Proof.
  intros H.
  destruct (star_key_columns _ _ H)
    as (sr & lk & ck & lkeys & ckeys & Hsr & Hlk & Hck & Hlkeys & Hckeys & Hnd).
  pose proof (proj2 (mask_any_duplicated lkeys) Hnd) as Hany.
  split; [by exists lkeys|]. intros dir w.
  rewrite (qa_and_export_run star dir w _ _ _ _ _ Hsr Hlk Hck Hlkeys Hckeys).
  rewrite Hany. unfold grain_message, null_key_message.
  repeat case_match; simpl; rewrite ?append_cons; congruence.
Qed.


(** ** All-or-nothing export *)



(** When every check passes the six files are written. *)
Lemma qa_and_export_exports (star : StarSchema) dir w
    (sr lk ck lkeys ckeys : list cell) :
  data (fact star) !! "ServiceRequestNumber" = Some sr →
  data (fact star) !! "LocationKey" = Some lk →
  data (fact star) !! "CategoryKey" = Some ck →
  data (dim_location star) !! "LocationKey" = Some lkeys →
  data (dim_category star) !! "CategoryKey" = Some ckeys →
  (NoDup sr ∧ (NA ∉ lk) ∧ (NA ∉ ck) ∧ NoDup lkeys ∧ NoDup ckeys ↔
   run (qa_and_export (fact star) (dim_date star) (dim_location star)
          (dim_category star) (dim_intake star) (dim_status star) dir) w
     = (Ok (), exported star dir w)).
Proof.
  intros Hsr Hlk Hck Hlkeys Hckeys.
  rewrite (qa_and_export_run star dir w _ _ _ _ _ Hsr Hlk Hck Hlkeys Hckeys).
  destruct (0 <? mask_sum (duplicated sr)) eqn:E1.
  { apply Nat.ltb_lt, mask_sum_duplicated_pos in E1. split; [tauto|done]. }
  destruct (0 <? mask_sum (isna lk)) eqn:E2.
  { apply Nat.ltb_lt, mask_sum_isna_pos in E2. split; [tauto|done]. }
  destruct (0 <? mask_sum (isna ck)) eqn:E3.
  { apply Nat.ltb_lt, mask_sum_isna_pos in E3. split; [tauto|done]. }
  destruct (mask_any (duplicated lkeys)) eqn:E4.
  { apply mask_any_duplicated_true in E4. split; [tauto|done]. }
  destruct (mask_any (duplicated ckeys)) eqn:E5.
  { apply mask_any_duplicated_true in E5. split; [tauto|done]. }
  split; [done|]. intros _.
  apply Nat.ltb_ge in E1, E2, E3. apply mask_any_duplicated in E4, E5.
  split_and!; try done.
  - destruct (decide (NoDup sr)) as [|Hn]; [done|].
    apply mask_sum_duplicated_pos in Hn. lia.
  - intros Hn%mask_sum_isna_pos. lia.
  - intros Hn%mask_sum_isna_pos. lia.
Qed.


(** ** Uniqueness of the dimension keys *)


Lemma zip_of_str (a b : list (option string)) :
  zip (of_str a) (of_str b) = prod_map str_cell str_cell <$> zip a b.
Proof.
  unfold of_str. revert b.
  induction a as [|x a IH]; intros [|y b]; simpl; try done.
  by rewrite IH.
Qed.

Lemma NoDup_zip_of_str (a b : list (option string)) :
  NoDup (zip a b) → NoDup (zip (of_str a) (of_str b)).
Proof.
  intros Hnd. rewrite zip_of_str.
  apply NoDup_fmap_2; [|done]. intros [x y] [x' y'] [= Hx Hy].
  by apply (inj str_cell) in Hx, Hy; subst.
Qed.

(** C6 - Dimension uniqueness, as the code has it: dim_category is
    deduplicated on the (ViolationLocatedAt, DumpingDescription) pair;
    dim_location, dim_date, dim_intake and dim_status are deduplicated on
    their key column; the CategoryKey of dim_category is unique in every
    table set that [qa_and_export] exports. *)
Theorem dimension_keys_unique (clean : DataFrame) (star : StarSchema) :
  build_star_schema clean = Ok star →
  (∃ vl dd, data (dim_category star) !! "ViolationLocatedAt" = Some vl ∧
            data (dim_category star) !! "DumpingDescription" = Some dd ∧
            NoDup (zip vl dd)) ∧
  (∃ keys, data (dim_location star) !! "LocationKey" = Some keys ∧ NoDup keys) ∧
  (∃ dates, data (dim_date star) !! "Date" = Some dates ∧ NoDup dates) ∧
  (∃ vs, data (dim_intake star) !! "MethodReceived" = Some vs ∧ NoDup vs) ∧
  (∃ vs, data (dim_status star) !! "Status" = Some vs ∧ NoDup vs) ∧
  (∀ dir w,
     (run (qa_and_export (fact star) (dim_date star) (dim_location star)
             (dim_category star) (dim_intake star) (dim_status star) dir) w).1
       = Ok () →
     ∃ ck, data (dim_category star) !! "CategoryKey" = Some ck ∧ NoDup ck).
Proof.
  intros H.
  destruct (star_key_columns _ _ H)
    as (sr & lk & ck & lkeys & ckeys & Hsr & Hlk & Hck & Hlkeys & Hckeys & Hnd).
  apply build_star_schema_inv in H as (cdt & Hf & Hd & Hl & Hc & Hi & Hs).
  split_and!.
  - match type of Hc with dim_category_table ?n ?vl ?dd = _ =>
      destruct (dim_category_table_columns n vl dd) as (dc & Hdc & Dvl & Ddd & _);
      set (VL := vl) in *; set (DD := dd) in *
    end.
    rewrite Hdc in Hc. injection Hc as <-.
    do 2 eexists. split_and!; [done..|]. apply NoDup_zip_of_str.
    rewrite <- select_rows_zip. apply NoDup_drop_duplicates.
  - by exists lkeys.
  - apply dim_date_table_column in Hd as (created & dates & _ & Hdates & Hn & _).
    by exists dates.
  - rewrite Hi.
    destruct (lookup_table_column "MethodReceived"
                (of_str (std_text (df_get_or "Method Received" (na_series clean)
                   (setitem "LocationKey"
                      (of_str (build_location_key
                         (df_get_or "Location" (na_series clean) clean)
                         (df_get_or "Latitude" (na_series clean) clean)
                         (df_get_or "Longitude" (na_series clean) clean))) clean)))))
      as (vs & Hv & Hn & _).
    by exists vs.
  - rewrite Hs.
    destruct (lookup_table_column "Status"
                (of_str (std_text (df_get_or "Status" (na_series clean)
                   (setitem "LocationKey"
                      (of_str (build_location_key
                         (df_get_or "Location" (na_series clean) clean)
                         (df_get_or "Latitude" (na_series clean) clean)
                         (df_get_or "Longitude" (na_series clean) clean))) clean)))))
      as (vs & Hv & Hn & _).
    by exists vs.
  - intros dir w.
    rewrite (qa_and_export_run star dir w _ _ _ _ _ Hsr Hlk Hck Hlkeys Hckeys).
    destruct (0 <? mask_sum (duplicated sr)); [done|].
    destruct (0 <? mask_sum (isna lk)); [done|].
    destruct (0 <? mask_sum (isna ck)); [done|].
    destruct (mask_any (duplicated lkeys)); [done|].
    destruct (mask_any (duplicated ckeys)) eqn:E; [done|].
    intros _. exists ckeys. split; [done|]. by apply mask_any_duplicated.
Qed.


(** ** The Record Cleaner *)


Lemma load_and_clean_steps (df : DataFrame) :
  load_and_clean df =
  d2 ← step_council (step_zip (step_dates df));
  step_features (has_column "Created Date" df || to_datetime_none_nat)
    (step_unknown (drop_column "Community Reporting Area"
       (step_text (step_mask00 (step_latlon d2))))).
Proof. reflexivity. Qed.

Implicit Types (R : string → cell → cell → Prop) (df : DataFrame).

Lemma Forall2_fmap_self {A} (Q : A → A → Prop) (f : A → A) (l : list A) :
  (∀ x, Q x (f x)) → Forall2 Q l (f <$> l).
Proof. intros H. induction l; simpl; constructor; auto. Qed.

Lemma Forall2_refl_on {A} (Q : A → A → Prop) (l : list A) :
  (∀ x, Q x x) → Forall2 Q l l.
Proof. intros H. induction l; constructor; auto. Qed.

Lemma Forall2_compose {A} (Q1 Q2 Q3 : A → A → Prop) (l k m : list A) :
  (∀ x y z, Q1 x y → Q2 y z → Q3 x z) →
  Forall2 Q1 l k → Forall2 Q2 k m → Forall2 Q3 l m.
Proof.
  intros H F. revert m. induction F as [|x y l k Hxy F IH]; intros m G.
  - inversion G. constructor.
  - inversion G as [|? z ? m' Hyz G']; subst. constructor; eauto.
Qed.

Lemma column_rel_refl R c (o : option (list cell)) :
  (∀ c x, R c x x) → option_Forall2 (Forall2 (R c)) o o.
Proof.
  intros H. destruct o; constructor. by apply Forall2_refl_on.
Qed.

Lemma frame_rel_refl R df : (∀ c x, R c x x) → frame_rel R df df.
Proof. intros H. split; [done|]. intros c _. by apply column_rel_refl. Qed.

Lemma frame_rel_trans R1 R2 R3 (a b c : DataFrame) :
  (∀ col x y z, R1 col x y → R2 col y z → R3 col x z) →
  frame_rel R1 a b → frame_rel R2 b c → frame_rel R3 a c.
Proof.
  intros H [I1 H1] [I2 H2]. split; [congruence|]. intros col Hc.
  specialize (H1 col Hc). specialize (H2 col Hc).
  destruct H1 as [s1 s2 F1|]; inversion H2 as [? s3 F2|]; subst; constructor.
  eapply Forall2_compose; [|exact F1|exact F2]. apply H.
Qed.

Lemma column_rel_refl_ne R c col (o : option (list cell)) :
  (∀ c x, c ≠ col → R c x x) → c ≠ col → option_Forall2 (Forall2 (R c)) o o.
Proof.
  intros H Hc. destruct o; constructor. apply Forall2_refl_on. auto.
Qed.

Lemma frame_rel_refl_missing R df col :
  (∀ c x, c ≠ col → R c x x) → data df !! col = None → frame_rel R df df.
Proof.
  intros H E. split; [done|]. intros c _.
  destruct (decide (c = col)) as [->|Hne].
  - rewrite E. constructor.
  - by eapply column_rel_refl_ne.
Qed.

Lemma frame_rel_setitem R df col s s' :
  (∀ c x, c ≠ col → R c x x) → data df !! col = Some s → Forall2 (R col) s s' →
  frame_rel R df (setitem col s' df).
Proof.
  intros Hr Hs F. split; [done|]. intros c _. unfold setitem. simpl.
  destruct (decide (c = col)) as [->|Hne].
  - rewrite lookup_insert_eq, Hs. by constructor.
  - rewrite lookup_insert_ne by done. by eapply column_rel_refl_ne.
Qed.

Lemma frame_rel_setitem_excluded R df col s :
  (∀ c x, R c x x) → col ∈ excluded → frame_rel R df (setitem col s df).
Proof.
  intros Hr He. split; [done|]. intros c Hc. unfold setitem. simpl.
  rewrite lookup_insert_ne by (intros ->; done). by apply column_rel_refl.
Qed.

Lemma frame_rel_update R df col f :
  (∀ c x, c ≠ col → R c x x) → (∀ s, Forall2 (R col) s (f s)) →
  frame_rel R df (update_if_present col f df).
Proof.
  intros Hr Hf. unfold update_if_present.
  destruct (data df !! col) as [s|] eqn:E;
    [|by eapply frame_rel_refl_missing].
  by eapply frame_rel_setitem.
Qed.

Lemma frame_rel_drop R df col :
  (∀ c x, R c x x) → col ∈ excluded → frame_rel R df (drop_column col df).
Proof.
  intros Hr He. split; [done|]. intros c Hc. unfold drop_column. simpl.
  rewrite lookup_delete_ne by (intros ->; done). by apply column_rel_refl.
Qed.

Lemma frame_rel_imap R df (g : string → list cell → list cell) :
  (∀ c s, Forall2 (R c) s (g c s)) →
  frame_rel R df (mkDF (index df) (map_imap (λ c s, Some (g c s)) (data df))).
Proof.
  intros Hg. split; [done|]. intros c _. simpl. rewrite map_lookup_imap.
  destruct (data df !! c); constructor. apply Hg.
Qed.

(** Columns related to those of a well-formed frame have its length. *)
Lemma frame_rel_length R (a b : DataFrame) c s :
  wf a → frame_rel R a b → c ∉ excluded → data b !! c = Some s →
  length s = index a.
Proof.
  intros Hwf [_ H] Hc Hs. specialize (H c Hc). rewrite Hs in H.
  inversion H as [s0 ? F E|]; subst. symmetry in E.
  rewrite <- (Hwf c s0 E). symmetry. by eapply Forall2_length.
Qed.



Lemma step_dates_rel df :
  is_Some (data df !! "Created Date") → frame_rel rel_pre df (step_dates df).
Proof.
  intros [s E]. unfold step_dates, df_get. rewrite E.
  eapply frame_rel_setitem; [by split|exact E|].
  unfold of_time, to_datetime. rewrite <- list_fmap_compose.
  apply Forall2_fmap_self. intros x. split; [done|]. by intros ->.
Qed.

Lemma step_zip_rel df : frame_rel rel_pre df (step_zip df).
Proof.
  apply frame_rel_update; [by split|]. intros s.
  unfold of_str, str_extract_zip, astype_string. rewrite <- !list_fmap_compose.
  apply Forall2_fmap_self. intros x. split; [done|]. by intros ->.
Qed.

Lemma astype_Int64_rel (s : list cell) r :
  astype_Int64 (to_numeric s) = Ok r →
  Forall2 (rel_council "Council District") s r.
Proof.
  revert r. induction s as [|x s IH]; intros r; simpl.
  { intros [= <-]. constructor. }
  destruct (to_numeric_cell x) as [v|] eqn:E.
  - destruct (num_as_Int64 v); [|done].
    intros (r' & Hr & [= <-])%bind_Ok. constructor; [|by apply IH].
    split; [intros ->; done|]. intros _ ?. congruence.
  - intros (r' & Hr & [= <-])%bind_Ok. constructor; [|by apply IH].
    by split.
Qed.

Lemma step_council_rel df d :
  step_council df = Ok d → frame_rel rel_council df d.
Proof.
  unfold step_council.
  destruct (data df !! "Council District") as [s|] eqn:E.
  - intros (r & Hr & [= <-])%bind_Ok.
    eapply frame_rel_setitem; [by split|exact E|]. by apply astype_Int64_rel.
  - intros [= <-]. eapply frame_rel_refl_missing; [|exact E]. by split.
Qed.

Lemma of_num_to_numeric_rel c (s : list cell) :
  Forall2 (keeps_na c) s (of_num (to_numeric s)).
Proof.
  unfold of_num, to_numeric. rewrite <- list_fmap_compose.
  apply Forall2_fmap_self. by intros x ->.
Qed.

Lemma keeps_na_refl c (x : cell) : keeps_na c x x.
Proof. by unfold keeps_na. Qed.

Lemma keeps_na_trans c (x y z : cell) :
  keeps_na c x y → keeps_na c y z → keeps_na c x z.
Proof. unfold keeps_na. auto. Qed.

Lemma step_latlon_rel df : frame_rel keeps_na df (step_latlon df).
Proof.
  unfold step_latlon.
  eapply frame_rel_trans; [exact keeps_na_trans| |];
    apply frame_rel_update;
      first [intros; apply keeps_na_refl | apply of_num_to_numeric_rel].
Qed.

Lemma mask_rel c (s : list cell) (m : list bool) :
  length s ≤ length m → Forall2 (keeps_na c) s (mask s m NA).
Proof.
  revert m. induction s as [|x s IH]; intros [|b m] Hlen; simpl in *;
    try constructor; try lia.
  - unfold keeps_na. by destruct b.
  - apply IH. lia.
Qed.

Lemma step_mask00_rel df :
  (∀ la lo, data df !! "Latitude" = Some la → data df !! "Longitude" = Some lo →
            length la = length lo) →
  frame_rel keeps_na df (step_mask00 df).
Proof.
  intros Hlen. unfold step_mask00.
  destruct (data df !! "Latitude") as [la|] eqn:Ela;
    [|apply frame_rel_refl, keeps_na_refl].
  destruct (data df !! "Longitude") as [lo|] eqn:Elo;
    [|apply frame_rel_refl, keeps_na_refl].
  specialize (Hlen la lo eq_refl eq_refl).
  assert (length (mask_and (cells_eq_zero la) (cells_eq_zero lo)) = length la)
    as Hm.
  { unfold mask_and, cells_eq_zero. rewrite length_zip_with, !length_fmap. lia. }
  eapply frame_rel_trans; [exact keeps_na_trans| |].
  - eapply (frame_rel_setitem _ _ "Latitude"); [intros; apply keeps_na_refl|exact Ela|].
    apply mask_rel. rewrite Hm. lia.
  - eapply (frame_rel_setitem _ _ "Longitude"); [intros; apply keeps_na_refl| |].
    + rewrite lookup_setitem_ne by done. exact Elo.
    + apply mask_rel. rewrite Hm. lia.
Qed.

Lemma step_text_rel df : frame_rel keeps_na df (step_text df).
Proof.
  apply (frame_rel_imap _ _ (λ c s, if is_text_dtype c s then of_str (std_text s) else s)).
  intros c s. destruct (is_text_dtype c s).
  - rewrite std_text_normalize_text. unfold of_str.
    rewrite <- list_fmap_compose. apply Forall2_fmap_self. by intros x ->.
  - apply Forall2_refl_on, keeps_na_refl.
Qed.

Lemma fillna_rel col (s : list cell) :
  Forall2 (rel_fill [col] col) s (fillna (Txt "Unknown") s).
Proof.
  apply Forall2_fmap_self. intros x. destruct x; [right|left..]; try done.
  split; [left|done].
Qed.

Lemma fill_columns_rel (cols : list string) df :
  frame_rel (rel_fill cols) df
    (foldl (λ d col, update_if_present col (fillna (Txt "Unknown")) d) df cols).
Proof.
  revert df. induction cols as [|col cols IH]; intros df; simpl.
  { apply frame_rel_refl. by left. }
  eapply frame_rel_trans; [|
    apply (frame_rel_update (rel_fill [col]) df col (fillna (Txt "Unknown")));
      [by left|apply fillna_rel] | apply IH].
  intros c x y z [->|(Hc & -> & ->)] [->|(Hc' & Hy & ->)].
  - by left.
  - right. split; [by right|done].
  - right. apply list_elem_of_singleton in Hc as ->. split; [left|done].
  - done.
Qed.

Lemma step_unknown_rel df :
  frame_rel (rel_fill safe_unknown_cols) df (step_unknown df).
Proof. apply fill_columns_rel. Qed.

Lemma step_features_rel b df d :
  step_features b df = Ok d → frame_rel rel_same df d.
Proof.
  unfold step_features. intros (created & _ & [= <-])%bind_Ok.
  assert (∀ (a : DataFrame) col s, col ∈ excluded →
    frame_rel rel_same df a → frame_rel rel_same df (setitem col s a)) as Hstep.
  { intros a col s Hc Ha. eapply frame_rel_trans; [|exact Ha|].
    - unfold rel_same. by intros ? x y z -> ->.
    - apply frame_rel_setitem_excluded; [done|exact Hc]. }
  unfold excluded in Hstep.
  repeat (apply Hstep; [rewrite !elem_of_cons; tauto|]).
  by apply frame_rel_refl.
Qed.

(** What the cleaner does to every column it keeps: same length, and a
    missing cell (or a council district that is not a number) is missing
    afterwards, or "Unknown" in a column of the fallback list. *)
Lemma rel_absent_keeps c (x y z : cell) :
  rel_absent c x y → keeps_na c y z → rel_absent c x z.
Proof. unfold rel_absent, keeps_na. auto. Qed.

Lemma rel_pre_trans c (x y z : cell) :
  rel_pre c x y → rel_pre c y z → rel_pre c x z.
Proof.
  unfold rel_pre. intros [E1 N1] [E2 N2]. split.
  - intros Hc. rewrite (E2 Hc). by apply E1.
  - intros Hx. by apply N2, N1.
Qed.

Lemma rel_pre_council c (x y z : cell) :
  rel_pre c x y → rel_council c y z → rel_absent c x z.
Proof.
  unfold rel_pre, rel_council, rel_absent, absent_in.
  intros [E1 N1] [N2 C2] [->|[-> Hx]].
  - by apply N2, N1.
  - rewrite (E1 eq_refl) in *. by apply C2.
Qed.

Lemma rel_absent_fill c (x y z : cell) :
  rel_absent c x y → rel_fill safe_unknown_cols c y z → not_fabricated c x z.
Proof.
  unfold rel_absent, rel_fill, not_fabricated.
  intros Hxy [->|(Hc & -> & ->)] Hx; [left; auto|right; auto].
Qed.

Lemma not_fabricated_same c (x y z : cell) :
  not_fabricated c x y → rel_same c y z → not_fabricated c x z.
Proof. unfold rel_same. by intros H ->. Qed.

Lemma not_excluded c : c ∈ location_inputs → c ∉ excluded.
Proof.
  unfold location_inputs, excluded. rewrite !elem_of_cons, !elem_of_nil.
  intros [->|[->|[->|[->|[->|[->|[]]]]]]]; intros H;
    repeat (destruct H as [H|H]; [discriminate H|]); done.
Qed.

(** Cleaning goes on without the column "Created Date" only where
    [pd.to_datetime(None)] is NaT. *)
Lemma load_and_clean_created (raw clean : DataFrame) :
  load_and_clean raw = Ok clean →
  is_Some (data raw !! "Created Date") ∨ to_datetime_none_nat = true.
Proof.
  rewrite load_and_clean_steps. intros (d2 & _ & H)%bind_Ok.
  unfold step_features in H. apply bind_Ok in H as (created & H & _).
  unfold has_column in H. case_bool_decide; [by left|].
  destruct to_datetime_none_nat; [by right|discriminate H].
Qed.

Lemma load_and_clean_rel_created (raw clean : DataFrame) :
  wf raw → is_Some (data raw !! "Created Date") →
  load_and_clean raw = Ok clean → frame_rel not_fabricated raw clean.
Proof.
  intros Hwf Hcd Hclean.
  revert Hclean. rewrite load_and_clean_steps.
  intros (d2 & H2 & H3)%bind_Ok.
  assert (frame_rel rel_absent raw d2) as A.
  { eapply frame_rel_trans; [exact rel_pre_council| |exact (step_council_rel _ _ H2)].
    eapply frame_rel_trans;
      [exact rel_pre_trans|exact (step_dates_rel _ Hcd)|apply step_zip_rel]. }
  assert (frame_rel rel_absent raw (step_latlon d2)) as A4.
  { eapply frame_rel_trans; [exact rel_absent_keeps|exact A|apply step_latlon_rel]. }
  assert (frame_rel rel_absent raw (step_mask00 (step_latlon d2))) as A5.
  { eapply frame_rel_trans; [exact rel_absent_keeps|exact A4|].
    apply step_mask00_rel. intros la lo Hla Hlo.
    rewrite (frame_rel_length _ _ _ "Latitude" la Hwf A4),
            (frame_rel_length _ _ _ "Longitude" lo Hwf A4); try done.
    - apply not_excluded. unfold location_inputs. rewrite !elem_of_cons. tauto.
    - apply not_excluded. unfold location_inputs. rewrite !elem_of_cons. tauto. }
  assert (frame_rel rel_absent raw
            (drop_column "Community Reporting Area"
               (step_text (step_mask00 (step_latlon d2))))) as A7.
  { eapply frame_rel_trans; [exact rel_absent_keeps| |].
    - eapply frame_rel_trans; [exact rel_absent_keeps|exact A5|apply step_text_rel].
    - apply frame_rel_drop; [apply keeps_na_refl|by left]. }
  eapply frame_rel_trans;
    [exact not_fabricated_same| |exact (step_features_rel _ _ _ H3)].
  eapply frame_rel_trans; [exact rel_absent_fill|exact A7|apply step_unknown_rel].
Qed.

Lemma wf_lookup df c s : wf df → data df !! c = Some s → length s = index df.
Proof. intros Hwf Hs. exact (Hwf c s Hs). Qed.

Lemma wf_setitem df col s : length s = index df → wf df → wf (setitem col s df).
Proof. intros Hs Hwf. unfold wf, setitem. simpl. by apply map_Forall_insert_2. Qed.

(** Where cleaning goes on without the column "Created Date", it does what
    it does to the same frame with a column of missing dates. *)
Lemma step_dates_absent (raw : DataFrame) :
  data raw !! "Created Date" = None →
  step_dates (setitem "Created Date" (na_series raw) raw) = step_dates raw.
Proof.
  intros E. unfold step_dates, df_get, setitem, na_series. cbn [data index].
  rewrite lookup_insert_eq, E, insert_insert_eq.
  unfold of_time, to_datetime. by rewrite !fmap_replicate.
Qed.

Lemma load_and_clean_rel (raw clean : DataFrame) :
  wf raw → load_and_clean raw = Ok clean →
  ∃ raw', wf raw' ∧ frame_rel not_fabricated raw' clean ∧
          is_Some (data raw' !! "Created Date") ∧
          index raw' = index raw ∧
          (∀ c s, data raw !! c = Some s → data raw' !! c = Some s) ∧
          (∀ c, c ≠ "Created Date" → data raw' !! c = data raw !! c).
Proof.
  intros Hwf Hclean.
  destruct (data raw !! "Created Date") as [s|] eqn:E.
  { exists raw. split_and!; eauto. apply load_and_clean_rel_created; eauto. }
  destruct (load_and_clean_created _ _ Hclean) as [[? H]|Hflag]; [congruence|].
  exists (setitem "Created Date" (na_series raw) raw).
  assert (is_Some (data (setitem "Created Date" (na_series raw) raw)
                     !! "Created Date")) as Hcd.
  { unfold setitem. cbn [data]. rewrite lookup_insert_eq. eauto. }
  assert (wf (setitem "Created Date" (na_series raw) raw)) as Hwf'.
  { apply wf_setitem; [apply length_replicate|done]. }
  split_and!; try done.
  - apply load_and_clean_rel_created; [done..|].
    rewrite <- Hclean, !load_and_clean_steps, step_dates_absent by done.
    by rewrite Hflag, !orb_true_r.
  - intros c s' Hc. unfold setitem. cbn [data].
    rewrite lookup_insert_ne; [done|]. intros <-. congruence.
  - intros c Hc. unfold setitem. cbn [data]. by rewrite lookup_insert_ne.
Qed.

Lemma cell_at_mono (a b : DataFrame) c i x :
  (∀ c s, data a !! c = Some s → data b !! c = Some s) →
  cell_at a c i = Some x → cell_at b c i = Some x.
Proof.
  intros H. unfold cell_at. destruct (data a !! c) as [s|] eqn:E; [|done].
  by rewrite (H _ _ E).
Qed.

Lemma location_input_not_created c : c ∈ location_inputs → c ≠ "Created Date".
Proof.
  unfold location_inputs. rewrite !elem_of_cons, !elem_of_nil.
  intros [->|[->|[->|[->|[->|[->|[]]]]]]]; done.
Qed.

Lemma frame_rel_cell R (a b : DataFrame) c i x :
  frame_rel R a b → c ∉ excluded → cell_at a c i = Some x →
  ∃ y, cell_at b c i = Some y ∧ R c x y.
Proof.
  intros [_ H] Hc Hx. specialize (H c Hc). unfold cell_at in *.
  destruct (data a !! c) as [s|]; [|done]. simpl in Hx.
  inversion H as [? s' F|]; subst. simpl.
  destruct (Forall2_lookup_l _ _ _ _ _ F Hx) as (y & Hy & Hxy). eauto.
Qed.

Lemma frame_rel_missing R (a b : DataFrame) c :
  frame_rel R a b → c ∉ excluded → data a !! c = None → data b !! c = None.
Proof.
  intros [_ H] Hc E. specialize (H c Hc). rewrite E in H. by inversion H.
Qed.

Lemma frame_rel_present R (a b : DataFrame) c :
  frame_rel R a b → c ∉ excluded → is_Some (data a !! c) → is_Some (data b !! c).
Proof.
  intros [_ H] Hc [s E]. specialize (H c Hc). rewrite E in H.
  inversion H. eauto.
Qed.

Lemma council_not_safe : "Council District" ∉ safe_unknown_cols.
Proof.
  unfold safe_unknown_cols. rewrite !elem_of_cons, elem_of_nil.
  intros H. repeat (destruct H as [H|H]; [discriminate H|]). done.
Qed.

(** C8 - No fabrication: cleaning turns no missing cell of a kept column
    into a value, "Unknown" in the columns of the fallback list apart; a
    council district that is missing or not a number is missing in the
    cleaned frame and in the fact row built from it. *)
Theorem no_fabrication (raw clean : DataFrame) :
  wf raw → load_and_clean raw = Ok clean →
  (∀ c i x, c ∉ excluded → cell_at raw c i = Some x → x = NA →
     ∃ y, cell_at clean c i = Some y ∧
          (y = NA ∨ (c ∈ safe_unknown_cols ∧ y = Txt "Unknown"))) ∧
  (∀ i x, cell_at raw "Council District" i = Some x →
     to_numeric_cell x = None →
     cell_at clean "Council District" i = Some NA ∧
     ∀ star, build_star_schema clean = Ok star →
             cell_at (fact star) "CouncilDistrict" i = Some NA).
Proof.
  intros Hwf Hclean.
  destruct (load_and_clean_rel _ _ Hwf Hclean) as (raw' & _ & Hrel & _ & _ & Hsub & _).
  split.
  - intros c i x Hc Hx%(cell_at_mono _ raw' _ _ _ Hsub) ->.
    destruct (frame_rel_cell _ _ _ _ _ _ Hrel Hc Hx) as (y & Hy & Hxy).
    exists y. split; [done|]. apply Hxy. by left.
  - intros i x Hx%(cell_at_mono _ raw' _ _ _ Hsub) Hnum.
    destruct (frame_rel_cell _ _ _ "Council District" _ _ Hrel
                ltac:(apply not_excluded; unfold location_inputs;
                      rewrite !elem_of_cons; tauto) Hx)
      as (y & Hy & Hxy).
    destruct Hxy as [->|[Hsafe _]]; [by right| |by apply council_not_safe in Hsafe].
    split; [done|]. intros star Hstar.
    apply build_star_schema_inv in Hstar as (cdt & Hf & _).
    apply fact_table_columns in Hf as (_&_&_&_&_& Fcd &_).
    unfold cell_at in *. rewrite Fcd. simpl.
    unfold df_get_or. rewrite lookup_setitem_ne by done.
    destruct (data clean !! "Council District"); [done|done].
Qed.



Lemma location_input_projected c :
  c ∈ location_inputs → c ∈ dim_location_columns ∧ c ≠ "LocationKey".
Proof.
  unfold location_inputs, dim_location_columns.
  rewrite !elem_of_cons, !elem_of_nil.
  intros [->|[->|[->|[->|[->|[->|[]]]]]]]; split; try done; tauto.
Qed.

(** Without one of the columns that dim_location projects, the modeler
    raises [KeyError], whatever else the frame holds. *)
Lemma build_star_schema_KeyError (clean : DataFrame) c :
  is_Some (data clean !! "Created Date") →
  c ∈ location_inputs → data clean !! c = None →
  ∃ missing, build_star_schema clean = Raise (KeyError missing) ∧ c ∈ missing.
Proof.
  intros [cd Hcd] [Hc Hne]%location_input_projected E.
  unfold build_star_schema. cbv zeta.
  unfold df_get at 1. rewrite lookup_setitem_ne, Hcd by done.
  cbn [mbind result_bind].
  match goal with |- context [fact_table ?m ?a ?b ?c ?d ?e ?f] =>
    destruct (fact_table_Ok m a b c d e f) as [ft Hft];
      [rewrite lookup_setitem_eq; eauto|]; rewrite Hft
  end.
  cbn [mbind result_bind].
  apply fact_table_columns in Hft as (_&_& Fcd &_).
  destruct (dim_date_table_Ok ft) as [dd Hdd]; [eauto|]. rewrite Hdd.
  cbn [mbind result_bind].
  match goal with |- context [dim_location_table ?m] =>
    destruct (dim_location_table_KeyError m c Hc) as (missing & Hm & Hin);
      [by rewrite lookup_setitem_ne|]; rewrite Hm
  end.
  cbn [mbind result_bind]. eauto.
Qed.

(** C7 - Missing input columns: when the input lacks Location, Latitude,
    Longitude, ZIP Code, Police Precinct or Council District, cleaning
    succeeds without the column, but [build_star_schema] raises [KeyError]
    at the projection of dim_location and the pipeline exports nothing. *)
Theorem missing_column_raises_KeyError (raw clean : DataFrame) c :
  wf raw → load_and_clean raw = Ok clean →
  c ∈ location_inputs → data raw !! c = None →
  data clean !! c = None ∧
  (∃ missing, build_star_schema clean = Raise (KeyError missing) ∧ c ∈ missing) ∧
  (∀ dir w, ∃ missing,
     run (main raw dir) w = (Raise (KeyError missing), w) ∧ c ∈ missing).
Proof.
  intros Hwf Hclean Hc E.
  destruct (load_and_clean_rel _ _ Hwf Hclean) as (raw' & _ & Hrel & Hcr & _ & _ & Hsame).
  rewrite <- (Hsame c (location_input_not_created c Hc)) in E.
  pose proof (frame_rel_missing _ _ _ c Hrel (not_excluded c Hc) E) as E'.
  assert (is_Some (data clean !! "Created Date")) as Hcd.
  { eapply frame_rel_present; [exact Hrel| |exact Hcr].
    unfold excluded. rewrite !elem_of_cons, elem_of_nil. intros H.
    repeat (destruct H as [H|H]; [discriminate H|]). done. }
  destruct (build_star_schema_KeyError clean c Hcd Hc E') as (m & Hm & Hin).
  split_and!; [done|eauto|]. intros dir w. exists m. split; [|done].
  unfold main. cbn [run mbind IO_bind lift]. by rewrite Hclean, Hm.
Qed.

(** ** Further properties: text *)

Lemma lstrip_lstrip s : lstrip (lstrip s) = lstrip s.
Proof.
  induction s as [|c s IH]; simpl; [done|].
  destruct (is_space c) eqn:E; [done|]. simpl. by rewrite E.
Qed.

Lemma lstrip_head s c r : lstrip s = String c r → is_space c = false.
Proof.
  induction s as [|d s IH]; simpl; [done|].
  destruct (is_space d) eqn:E; [done|]. by intros [= <- _].
Qed.

Lemma rstrip_rstrip s : rstrip (rstrip s) = rstrip s.
Proof.
  induction s as [|c s IH]; simpl; [done|].
  destruct (rstrip s) as [|a r] eqn:E.
  - destruct (is_space c) eqn:Ec; simpl; [done|]. by rewrite Ec.
  - change (rstrip (String c (String a r)))
      with (match rstrip (String a r) with
            | EmptyString => if is_space c then EmptyString else String c EmptyString
            | r' => String c r'
            end).
    by rewrite IH.
Qed.

Lemma lstrip_rstrip s : lstrip s = s → lstrip (rstrip s) = rstrip s.
Proof.
  destruct s as [|c s]; [done|]. intros H.
  pose proof (lstrip_head _ _ _ H) as Hc. simpl.
  destruct (rstrip s); rewrite ?Hc; simpl; by rewrite Hc.
Qed.

Lemma strip_strip s : strip (strip s) = strip s.
Proof.
  unfold strip. rewrite (lstrip_rstrip (lstrip s)) by apply lstrip_lstrip.
  apply rstrip_rstrip.
Qed.

(** One cell of [std_text]. *)
Lemma std_text_rows (s : list cell) :
  std_text s = (λ c, replace_markers_cell (strip <$> cell_to_str c)) <$> s.
Proof.
  unfold std_text, replace_markers, str_map, astype_string.
  by rewrite <- !list_fmap_compose.
Qed.

Lemma std_text_cell_trimmed (c : cell) t :
  replace_markers_cell (strip <$> cell_to_str c) = Some t →
  strip t = t ∧ t ≠ "" ∧ t ≠ "None" ∧ t ≠ "nan".
Proof.
  destruct (cell_to_str c) as [u|]; [|done]. simpl.
  unfold replace_markers_cell_str.
  destruct (bool_decide_reflect (strip u = "None")); [done|].
  destruct (bool_decide_reflect (strip u = "nan")); [done|].
  destruct (bool_decide_reflect (strip u = "")); [done|].
  simpl. intros [= <-]. by rewrite strip_strip.
Qed.

Lemma std_text_cell_fixed t :
  strip t = t → t ≠ "" → t ≠ "None" → t ≠ "nan" →
  replace_markers_cell (strip <$> Some t) = Some t.
Proof.
  intros E ???. simpl. rewrite E. unfold replace_markers_cell_str.
  by rewrite !bool_decide_eq_false_2.
Qed.

Lemma cell_to_str_str_cell (o : option string) : cell_to_str (str_cell o) = o.
Proof. by destruct o. Qed.

Lemma std_text_cell_idem (c : cell) :
  replace_markers_cell
    (strip <$> cell_to_str (str_cell (replace_markers_cell (strip <$> cell_to_str c))))
  = replace_markers_cell (strip <$> cell_to_str c).
Proof.
  rewrite cell_to_str_str_cell.
  destruct (replace_markers_cell (strip <$> cell_to_str c)) as [t|] eqn:E; [|done].
  apply std_text_cell_trimmed in E as (?&?&?&?). by apply std_text_cell_fixed.
Qed.

(** X1 - [std_text] is idempotent: standardising a column that is already
    standardised, as [build_star_schema] does with the columns
    [load_and_clean] returns, changes nothing. *)
Theorem std_text_idempotent (s : list cell) :
  std_text (of_str (std_text s)) = std_text s.
Proof.
  rewrite !std_text_rows. unfold of_str. rewrite <- !list_fmap_compose.
  apply list_fmap_ext. intros _ c _. simpl. apply std_text_cell_idem.
Qed.

Lemma std_text_cells_trimmed_cell (s : list cell) i t :
  std_text s !! i = Some (Some t) →
  strip t = t ∧ t ≠ "" ∧ t ≠ "None" ∧ t ≠ "nan".
Proof.
  rewrite std_text_rows, list_lookup_fmap.
  destruct (s !! i) as [c|]; [|done]. simpl. intros [= H].
  by apply std_text_cell_trimmed in H.
Qed.

(** X2 - A text cell that [std_text] returns has no leading or trailing
    whitespace and is none of the markers "", "None", "nan". *)
Theorem std_text_cells_trimmed (s : list cell) i t :
  std_text s !! i = Some (Some t) →
  strip t = t ∧ t ≠ "" ∧ t ≠ "None" ∧ t ≠ "nan".
Proof. apply std_text_cells_trimmed_cell. Qed.

Lemma upper_upper s : upper (upper s) = upper s.
Proof.
  induction s as [|c s IH]; simpl; [done|]. rewrite IH. f_equal.
  unfold upper_char at 1. by rewrite is_lower_upper_char.
Qed.

Lemma upper_key_cell_after_std_text (o : option string) :
  (∀ t, o = Some t → strip t = t ∧ t ≠ "") →
  (t ← cell_to_str (str_cell o);
   if bool_decide (strip t = "") then None else Some (upper (strip t)))
  = upper <$> o.
Proof.
  intros H. rewrite cell_to_str_str_cell. destruct o as [t|]; [|done]. simpl.
  destruct (H t eq_refl) as [E ?]. rewrite E. by rewrite bool_decide_eq_false_2.
Qed.

(** X3 - On a column standardised by [std_text], [std_upper_key] is plain
    uppercasing: present cells stay present, absent cells stay absent.  This
    is how the script uses it (lines 349-352 and 410-413). *)
Theorem std_upper_key_after_std_text (s : list cell) :
  std_upper_key (of_str (std_text s)) = fmap (M:=option) upper <$> std_text s.
Proof.
  rewrite std_upper_key_rows, std_text_rows. unfold of_str.
  rewrite <- !list_fmap_compose. apply list_fmap_ext. intros _ c _. simpl.
  apply upper_key_cell_after_std_text. intros t Ht.
  apply std_text_cell_trimmed in Ht. tauto.
Qed.

(** X4 - [std_upper_key] is idempotent, and its keys hold no lower-case
    letter. *)
Theorem std_upper_key_idempotent (s : list cell) :
  std_upper_key (of_str (std_upper_key s)) = std_upper_key s ∧
  ∀ i k, std_upper_key s !! i = Some (Some k) →
         all_chars (λ c, negb (is_lower c)) k = true.
Proof.
  split.
  - rewrite !std_upper_key_rows. unfold of_str. rewrite <- !list_fmap_compose.
    apply list_fmap_ext. intros _ c _. simpl. rewrite cell_to_str_str_cell.
    destruct (cell_to_str c) as [t|]; [|done]. simpl.
    destruct (bool_decide_reflect (strip t = "")) as [E|E]; [done|]. simpl.
    rewrite <- upper_strip, strip_strip, upper_strip, upper_upper.
    rewrite bool_decide_eq_false_2; [done|]. by rewrite upper_empty.
  - intros i k. rewrite std_upper_key_rows, list_lookup_fmap.
    destruct (s !! i) as [c|]; [|done]. simpl.
    destruct (cell_to_str c) as [t|]; [|done]. simpl.
    case_bool_decide; [done|]. intros [= <-]. apply upper_no_lower.
Qed.
(** ** Further properties: the Location Key *)

Lemma key_char_upper_char c : is_key_char c = true → upper_char c = c.
Proof. by destruct c as [[] [] [] [] [] [] [] []]. Qed.

Lemma key_char_space c : is_key_char c = true → is_space c = true → c = " "%char.
Proof. by destruct c as [[] [] [] [] [] [] [] []]. Qed.

Lemma upper_key_chars s : all_chars is_key_char s = true → upper s = s.
Proof.
  induction s as [|c s IH]; simpl; [done|].
  intros [Hc Hs]%andb_prop. by rewrite (key_char_upper_char _ Hc), IH.
Qed.

Lemma remove_special_key_chars s :
  all_chars is_key_char s = true → remove_special s = s.
Proof.
  induction s as [|c s IH]; simpl; [done|].
  intros [Hc Hs]%andb_prop. by rewrite Hc, IH.
Qed.

Lemma collapse_from_idem b s :
  collapse_from b (collapse_from b s) = collapse_from b s.
Proof.
  revert b. induction s as [|c s IH]; intros b; simpl; [done|].
  destruct (is_space c) eqn:Ec.
  - destruct b; [apply IH|]. simpl. by rewrite IH.
  - simpl. by rewrite Ec, IH.
Qed.

Lemma collapse_from_length b s :
  String.length (collapse_from b s) ≤ String.length s.
Proof.
  revert b. induction s as [|c s IH]; intros b; simpl; [done|].
  pose proof (IH true). pose proof (IH false).
  destruct (is_space c), b; simpl; lia.
Qed.

(** The fixed points of [collapse_from]: single blanks, no other
    whitespace; with [in_run] set, no blank in front either. *)
Lemma collapse_fixed_cons b c s :
  collapse_from b (String c s) = String c s →
  if is_space c then b = false ∧ c = " "%char ∧ collapse_from true s = s
  else collapse_from false s = s.
Proof.
  simpl. destruct (is_space c) eqn:Ec.
  - destruct b.
    + intros H. pose proof (collapse_from_length true s) as Hl.
      rewrite H in Hl. simpl in Hl. lia.
    + by intros [= <- ?].
  - by intros [= ?].
Qed.

Lemma collapse_fixed_true s :
  collapse_from true s = s → collapse_from false s = s ∧ lstrip s = s.
Proof.
  destruct s as [|c s]; [done|]. intros H.
  pose proof (collapse_fixed_cons _ _ _ H) as H'. simpl.
  destruct (is_space c); [by destruct H'|]. by rewrite H'.
Qed.

Lemma collapse_fixed_lstrip s :
  collapse_from false s = s → collapse_from false (lstrip s) = lstrip s.
Proof.
  destruct s as [|c s]; [done|]. intros H.
  pose proof (collapse_fixed_cons _ _ _ H) as H'. simpl.
  destruct (is_space c); [|done].
  destruct H' as (_ & _ & H'). apply collapse_fixed_true in H' as [H1 H2].
  by rewrite H2.
Qed.

Lemma collapse_fixed_rstrip b s :
  collapse_from b s = s → collapse_from b (rstrip s) = rstrip s.
Proof.
  revert b. induction s as [|c s IH]; intros b H; [done|].
  pose proof (collapse_fixed_cons _ _ _ H) as H'.
  change (rstrip (String c s))
    with (match rstrip s with
          | EmptyString => if is_space c then EmptyString else String c EmptyString
          | r => String c r
          end).
  destruct (is_space c) eqn:Ec.
  - destruct H' as (-> & -> & H'). specialize (IH true H').
    destruct (rstrip s) as [|d r]; [done|].
    change (collapse_from false (String " " (String d r)))
      with (String " "%char (collapse_from true (String d r))).
    by rewrite IH.
  - specialize (IH false H').
    destruct (rstrip s) as [|d r].
    + simpl. by rewrite Ec.
    + change (collapse_from b (String c (String d r)))
        with (if is_space c
              then (if b then collapse_from true (String d r)
                    else String " "%char (collapse_from true (String d r)))
              else String c (collapse_from false (String d r))).
      by rewrite Ec, IH.
Qed.

Lemma collapse_ws_strip s :
  collapse_ws (strip (collapse_ws s)) = strip (collapse_ws s).
Proof.
  unfold collapse_ws, strip.
  apply collapse_fixed_rstrip, collapse_fixed_lstrip, collapse_from_idem.
Qed.

(** Normalising a normalised address changes nothing. *)
Lemma address_norm_idem s :
  let k := strip (collapse_ws (remove_special (upper s))) in
  strip (collapse_ws (remove_special (upper k))) = k.
Proof.
  intros k. pose proof (address_chars s) as Hk. fold k in Hk.
  rewrite (upper_key_chars _ Hk), (remove_special_key_chars _ Hk).
  unfold k. by rewrite collapse_ws_strip, strip_strip.
Qed.

Lemma address_key_format (o : option string) k :
  address_key o = Some k →
  all_chars is_key_char k = true ∧ k ≠ "" ∧ strip k = k ∧ collapse_ws k = k ∧
  address_key (Some k) = Some k.
Proof.
  intros H. pose proof (address_key_chars _ _ H) as Hk.
  destruct o as [s|]; [|done]. simpl in H.
  case_bool_decide as E; [done|]. injection H as H.
  assert (strip (collapse_ws (remove_special (upper k))) = k) as Hid.
  { rewrite <- H. apply address_norm_idem. }
  split_and!; try done.
  - by rewrite <- H.
  - rewrite <- H. apply strip_strip.
  - rewrite <- H. apply collapse_ws_strip.
  - simpl. rewrite Hid. rewrite bool_decide_eq_false_2; [done|]. by rewrite <- H.
Qed.

(** The rows of the three columns behind one row of the result. *)
Lemma build_location_key_row (location lat lon : list cell) i r :
  build_location_key location lat lon !! i = Some r →
  ∃ l a o, location !! i = Some l ∧ lat !! i = Some a ∧ lon !! i = Some o ∧
           r = location_key_spec l a o.
Proof.
  rewrite build_location_key_rows. unfold zip_with3.
  intros (l & [a o] & -> & Hl & Hz)%lookup_zip_with_Some.
  apply lookup_zip_Some in Hz as [Ha Ho]. simpl in *. eauto 10.
Qed.

(** X5 - The format of a Location Key: it is either the two rounded
    coordinates of its row joined by a comma, or a non-empty text over
    [A-Z0-9 ] without leading, trailing or repeated blanks. *)
Theorem location_key_format (location lat lon : list cell) i k :
  build_location_key location lat lon !! i = Some (Some k) →
  (∃ a o x y, lat !! i = Some a ∧ lon !! i = Some o ∧
     to_numeric_cell a = Some x ∧ to_numeric_cell o = Some y ∧
     k = num_str (num_round 4 x) +:+ "," +:+ num_str (num_round 4 y)) ∨
  (all_chars is_key_char k = true ∧ k ≠ "" ∧ strip k = k ∧ collapse_ws k = k).
Proof.
  intros (l & a & o & Hl & Ha & Ho & Hk)%build_location_key_row.
  unfold location_key_spec in Hk.
  destruct (to_numeric_cell a) as [x|] eqn:Ex, (to_numeric_cell o) as [y|] eqn:Ey;
    try (right; symmetry in Hk; apply address_key_format in Hk; tauto).
  destruct (num_is_zero x && num_is_zero y).
  - right. symmetry in Hk. apply address_key_format in Hk. tauto.
  - left. injection Hk as ->. by exists a, o, x, y.
Qed.

(** X6 - A row keyed by its coordinates and a row keyed by its address
    never share a Location Key. *)
Theorem location_key_forms_disjoint (location lat lon : list cell)
    i j l a o l' a' o' x y :
  location !! i = Some l → lat !! i = Some a → lon !! i = Some o →
  location !! j = Some l' → lat !! j = Some a' → lon !! j = Some o' →
  to_numeric_cell a = Some x → to_numeric_cell o = Some y →
  num_is_zero x && num_is_zero y = false →
  (to_numeric_cell a' = None ∨ to_numeric_cell o' = None ∨
   ∃ x' y', to_numeric_cell a' = Some x' ∧ to_numeric_cell o' = Some y' ∧
            num_is_zero x' && num_is_zero y' = true) →
  build_location_key location lat lon !! i ≠ build_location_key location lat lon !! j.
Proof.
  intros Hl Ha Ho Hl' Ha' Ho' Ex Ey Hz Hj.
  rewrite (build_location_key_lookup _ _ _ i l a o) by done.
  rewrite (build_location_key_lookup _ _ _ j l' a' o') by done.
  unfold location_key_spec. rewrite Ex, Ey, Hz.
  assert (match to_numeric_cell a', to_numeric_cell o' with
          | Some a, Some o =>
              if num_is_zero a && num_is_zero o
              then address_key (cell_to_str l')
              else Some (coordinate_key a o)
          | _, _ => address_key (cell_to_str l')
          end = address_key (cell_to_str l')) as ->.
  { destruct Hj as [->|[->|(x' & y' & -> & -> & ->)]]; try done.
    by destruct (to_numeric_cell a'). }
  intros [= H]. symmetry in H. by apply coordinate_key_not_address in H.
Qed.

(** X7 - Address keys are canonical: when the address of a row keyed by
    its address is replaced by the key, the key is the same. *)
Theorem address_key_canonical (location lat lon : list cell) i a o k :
  lat !! i = Some a → lon !! i = Some o →
  (to_numeric_cell a = None ∨ to_numeric_cell o = None ∨
   ∃ x y, to_numeric_cell a = Some x ∧ to_numeric_cell o = Some y ∧
          num_is_zero x && num_is_zero y = true) →
  build_location_key location lat lon !! i = Some (Some k) →
  build_location_key (<[i := Txt k]> location) lat lon !! i = Some (Some k).
Proof.
  intros Ha Ho Hno Hk.
  apply build_location_key_row in Hk as (l & a1 & o1 & Hl & Ha1 & Ho1 & Hk).
  simplify_eq.
  assert (∀ l0 : cell, location_key_spec l0 a o = address_key (cell_to_str l0)) as Hspec.
  { intros l0. unfold location_key_spec.
    destruct Hno as [->|[->|(x & y & -> & -> & ->)]]; try done.
    by destruct (to_numeric_cell a). }
  rewrite Hspec in Hk. symmetry in Hk. apply address_key_format in Hk.
  rewrite (build_location_key_lookup _ _ _ i (Txt k) a o); try done.
  - rewrite Hspec. simpl. f_equal. apply Hk.
  - apply list_lookup_insert_eq. by eapply lookup_lt_Some.
Qed.
(** ** Further properties: the shape of the tables *)

Lemma select_rows_length {A} (cond : list bool) (s : list A) :
  length (select_rows cond s) = mask_sum (take (length s) cond).
Proof.
  revert s. induction cond as [|b cond IH]; intros [|x s]; simpl; try done.
  rewrite mask_sum_cons, <- IH. by destruct b.
Qed.

Lemma wf_update df col f :
  (∀ s, length (f s) = length s) → wf df → wf (update_if_present col f df).
Proof.
  intros Hf Hwf. unfold update_if_present.
  destruct (data df !! col) as [s|] eqn:E; [|done].
  apply wf_setitem; [|done]. rewrite Hf. by eapply wf_lookup.
Qed.

Lemma wf_rename df old new : wf df → wf (rename_column old new df).
Proof.
  intros Hwf. unfold rename_column.
  destruct (data df !! old) as [s|] eqn:E; [|done].
  unfold wf. simpl. apply map_Forall_insert_2; [by eapply wf_lookup|].
  by apply map_Forall_delete.
Qed.

Lemma wf_drop df col : wf df → wf (drop_column col df).
Proof. intros Hwf. unfold wf, drop_column. simpl. by apply map_Forall_delete. Qed.

Lemma wf_filter_rows cond df : wf df → wf (filter_rows cond df).
Proof.
  intros Hwf c s. unfold filter_rows. simpl. rewrite lookup_fmap.
  destruct (data df !! c) as [s0|] eqn:E; [|done]. simpl. intros [= <-].
  rewrite select_rows_length. by rewrite (wf_lookup _ _ _ Hwf E).
Qed.

Lemma select_columns_sub cols (df sel : DataFrame) c s :
  select_columns cols df = Ok sel → data sel !! c = Some s → data df !! c = Some s.
Proof.
  unfold select_columns. destruct (filter _ cols); [|done]. intros [= <-]. simpl.
  intros H%elem_of_list_to_map_2.
  apply list_elem_of_omap in H as (c' & _ & H).
  destruct (data df !! c') eqn:E; simplify_eq/=. done.
Qed.

Lemma wf_select_columns cols (df sel : DataFrame) :
  select_columns cols df = Ok sel → wf df → wf sel.
Proof.
  intros H Hwf c s Hs. pose proof (select_columns_Ok _ _ _ H) as [-> _].
  eapply wf_lookup; [done|]. by eapply select_columns_sub.
Qed.

Lemma wf_new_frame n (cols : list (string * list cell)) :
  Forall (λ p, length p.2 = n) cols → wf (new_frame n cols).
Proof.
  unfold wf, new_frame. simpl. induction 1 as [|[c s] cols Hs _ IH]; simpl.
  - apply map_Forall_empty.
  - by apply map_Forall_insert_2.
Qed.

Lemma df_get_or_length df col : wf df → length (df_get_or col (na_series df) df) = index df.
Proof.
  intros Hwf. unfold df_get_or. destruct (data df !! col) as [s|] eqn:E; simpl.
  - by eapply wf_lookup.
  - unfold na_series. apply length_replicate.
Qed.

Lemma std_text_length (s : list cell) : length (std_text s) = length s.
Proof. rewrite std_text_rows. apply length_fmap. Qed.

Lemma of_str_length (s : list (option string)) : length (of_str s) = length s.
Proof. apply length_fmap. Qed.

Lemma build_location_key_length (location lat lon : list cell) n :
  length location = n → length lat = n → length lon = n →
  length (build_location_key location lat lon) = n.
Proof.
  intros. rewrite build_location_key_rows. unfold zip_with3.
  rewrite length_zip_with, length_zip. lia.
Qed.

Lemma category_key_length (a b : list cell) n :
  length a = n → length b = n → length (category_key a b) = n.
Proof. intros. rewrite category_key_rows, length_zip_with. lia. Qed.

Lemma dt_num_field_length f (s : list cell) : length (dt_num_field f s) = length s.
Proof. apply length_fmap. Qed.

Lemma dt_name_field_length f (s : list cell) : length (dt_name_field f s) = length s.
Proof. apply length_fmap. Qed.

Lemma of_time_length (s : list (option time)) :
  length (of_time s : list cell) = length s.
Proof. apply length_fmap. Qed.

Lemma to_datetime_length (s : list cell) : length (to_datetime s) = length s.
Proof. apply length_fmap. Qed.

Lemma normalize_length (s : list (option time)) : length (normalize s) = length s.
Proof. apply length_fmap. Qed.

(** [build_star_schema] taken apart, with the column the dates come from. *)
Lemma build_star_schema_created (clean : DataFrame) (star : StarSchema) :
  build_star_schema clean = Ok star →
  let na := na_series clean in
  let model_df :=
    setitem "LocationKey"
      (of_str (build_location_key (df_get_or "Location" na clean)
                 (df_get_or "Latitude" na clean)
                 (df_get_or "Longitude" na clean))) clean in
  let mr := std_text (df_get_or "Method Received" na model_df) in
  let st := std_text (df_get_or "Status" na model_df) in
  let pp := std_text (df_get_or "Police Precinct" na model_df) in
  let vl := std_text (df_get_or "Where is the Illegal Dumping Violation located?" na model_df) in
  let dd := std_text (df_get_or "Choose a description of the Illegal Dumping" na model_df) in
  ∃ created,
    data clean !! "Created Date" = Some created ∧
    fact_table model_df (to_datetime created) mr st pp vl dd = Ok (fact star).
Proof.
  unfold build_star_schema. intros H.
  apply bind_Ok in H as (cdt & Hcdt & H).
  apply bind_Ok in H as (f & Hf & H).
  apply bind_Ok in H as (d & Hd & H).
  apply bind_Ok in H as (l & Hl & H).
  apply bind_Ok in H as (c & Hc & H).
  apply bind_Ok in H as (fmr & Hmr & H).
  apply bind_Ok in H as (fst & Hst & H).
  injection H as <-. simpl.
  unfold df_get in Hcdt. rewrite lookup_setitem_ne in Hcdt by done.
  destruct (data clean !! "Created Date") as [created|]; [|done].
  injection Hcdt as <-. eauto.
Qed.

Lemma fact_table_wf (model_df fact : DataFrame) cdt mr st pp vl dd :
  wf model_df → length cdt = index model_df →
  length mr = index model_df → length st = index model_df →
  length pp = index model_df → length vl = index model_df →
  length dd = index model_df →
  fact_table model_df cdt mr st pp vl dd = Ok fact →
  wf fact ∧ index fact = index model_df.
Proof.
  intros Hwf Hcdt Hmr Hst Hpp Hvl Hdd H. unfold fact_table in H.
  apply bind_Ok in H as (lk & Hlk & H). apply getitem_Ok in Hlk.
  apply bind_Ok in H as (fvl & Hfvl & H). apply getitem_Ok in Hfvl.
  apply bind_Ok in H as (fdd & Hfdd & H). apply getitem_Ok in Hfdd.
  assert (fvl = of_str vl) as ->.
  { apply (inj Some). rewrite <- Hfvl. solve_lookup. }
  assert (fdd = of_str dd) as ->.
  { apply (inj Some). rewrite <- Hfdd. solve_lookup. }
  injection H as <-. split; [|done].
  apply wf_setitem.
  { apply category_key_length; by rewrite of_str_length. }
  apply wf_new_frame. repeat apply Forall_cons_2; try apply Forall_nil_2; cbn [snd];
    rewrite ?of_str_length, ?of_time_length, ?normalize_length, ?std_text_length;
    try done; try (by apply df_get_or_length).
  by eapply wf_lookup.
Qed.

Lemma lookup_table_wf name (s : list cell) : wf (lookup_table name s).
Proof.
  unfold lookup_table. apply wf_new_frame.
  by repeat apply Forall_cons_2; try apply Forall_nil_2.
Qed.

Lemma dim_date_table_wf (fact dd : DataFrame) :
  dim_date_table fact = Ok dd → wf dd.
Proof.
  unfold dim_date_table. intros H.
  apply bind_Ok in H as (created & Hc & H).
  apply bind_Ok in H as (date_col & Hd & H). apply getitem_Ok in Hd.
  injection H as <-.
  pose proof (lookup_table_wf "Date" created) as Hwf.
  pose proof (wf_lookup _ _ _ Hwf Hd) as Hlen.
  repeat (apply wf_setitem;
    [cbn [index setitem];
     rewrite ?dt_num_field_length, ?dt_name_field_length, ?of_time_length,
       ?to_datetime_length; exact Hlen|]).
  exact Hwf.
Qed.

Lemma dim_location_table_wf (model_df dl : DataFrame) :
  wf model_df → dim_location_table model_df = Ok dl → wf dl.
Proof.
  intros Hwf H. unfold dim_location_table in H.
  apply bind_Ok in H as (sel & Hsel & H).
  pose proof (wf_select_columns _ _ _ Hsel Hwf) as Hs.
  apply bind_Ok in H as (loc & Hloc & H). apply getitem_Ok in Hloc.
  apply bind_Ok in H as (pp & Hpp & H). apply getitem_Ok in Hpp.
  apply bind_Ok in H as (lk & Hlk & H).
  injection H as <-. unfold drop_duplicate_rows. apply wf_filter_rows.
  set (d3 := rename_column "Council District" "CouncilDistrict"
               (rename_column "Police Precinct" "PolicePrecinct"
                  (rename_column "ZIP Code" "ZIPCode" sel))) in *.
  assert (wf d3) as H3 by (by repeat apply wf_rename).
  assert (wf (setitem "Location" (of_str (std_text loc)) d3)) as H4.
  { apply wf_setitem; [|done]. rewrite of_str_length, std_text_length.
    by eapply wf_lookup. }
  apply wf_setitem; [|done]. rewrite of_str_length, std_text_length.
  by eapply (wf_lookup _ _ _ H4).
Qed.

Lemma dim_category_table_wf n (vl dd : list (option string)) dc :
  length vl = n → length dd = n →
  dim_category_table n vl dd = Ok dc → wf dc.
Proof.
  intros Hvl Hdd H. unfold dim_category_table in H.
  apply bind_Ok in H as (dvl & Hdvl & H). apply getitem_Ok in Hdvl.
  apply bind_Ok in H as (ddd & Hddd & H). apply getitem_Ok in Hddd.
  injection H as <-.
  match type of Hdvl with data ?d !! _ = _ => assert (wf d) as Hwf end.
  { apply wf_filter_rows, wf_new_frame.
    repeat apply Forall_cons_2; try apply Forall_nil_2; cbn [snd];
      by rewrite of_str_length. }
  apply wf_setitem; [|done].
  apply category_key_length; by eapply wf_lookup.
Qed.

(** X8 - The tables of the star schema are rectangular: in each of the six
    tables every column has as many cells as the table has rows, and the
    fact table has one row per row of the cleaned frame. *)
Theorem star_tables_well_formed (clean : DataFrame) (star : StarSchema) :
  wf clean → build_star_schema clean = Ok star →
  index (fact star) = index clean ∧
  wf (fact star) ∧ wf (dim_date star) ∧ wf (dim_location star) ∧
  wf (dim_category star) ∧ wf (dim_intake star) ∧ wf (dim_status star).
Proof.
  intros Hwf H.
  pose proof (build_star_schema_created _ _ H) as (created & Hcd & Hf).
  pose proof (build_star_schema_inv _ _ H) as (cdt & _ & Hd & Hl & Hc & Hi & Hs).
  match type of Hl with dim_location_table ?m = _ => set (model_df := m) in * end.
  assert (wf model_df) as Hm.
  { apply wf_setitem; [|done]. rewrite of_str_length.
    apply build_location_key_length; by apply df_get_or_length. }
  assert (∀ col, length (std_text (df_get_or col (na_series clean) model_df))
                 = index model_df) as Hcol.
  { intros col. rewrite std_text_length. unfold df_get_or.
    destruct (data model_df !! col) as [s|] eqn:E.
    - exact (wf_lookup _ _ _ Hm E).
    - apply length_replicate. }
  apply fact_table_wf in Hf as [Hfw Hfi]; try done.
  2:{ rewrite to_datetime_length. exact (wf_lookup _ _ _ Hwf Hcd). }
  split_and!; try done.
  - by eapply dim_date_table_wf.
  - by eapply dim_location_table_wf.
  - eapply dim_category_table_wf; [| |exact Hc]; apply Hcol.
  - rewrite Hi. apply lookup_table_wf.
  - rewrite Hs. apply lookup_table_wf.
Qed.
(** ** Further properties: the tables against each other *)

Lemma cell_at_elem_of (df : DataFrame) col s v :
  data df !! col = Some s → (∃ i, cell_at df col i = Some v) ↔ v ∈ s.
Proof.
  intros Hs. unfold cell_at. rewrite Hs. simpl.
  by rewrite list_elem_of_lookup.
Qed.

(** X9 - Referential integrity of the location dimension: the Location Keys
    of dim_location are exactly the Location Keys of the fact table, the
    missing key included when a fact row has none. *)
Theorem location_keys_referential (clean : DataFrame) (star : StarSchema) k :
  build_star_schema clean = Ok star →
  (∃ i, cell_at (fact star) "LocationKey" i = Some k) ↔
  (∃ j, cell_at (dim_location star) "LocationKey" j = Some k).
Proof.
  intros H. apply build_star_schema_inv in H as (cdt & Hf & _ & Hl & _).
  apply fact_table_columns in Hf as (_&_&_&_&_&_&_&_& Flk & _).
  apply dim_location_table_inv in Hl as (_ & lk & Hlk & Dlk).
  rewrite Hlk in Flk.
  rewrite (cell_at_elem_of _ _ _ _ Flk), (cell_at_elem_of _ _ _ _ Dlk).
  by rewrite elem_of_drop_duplicates.
Qed.

(** X10 - Referential integrity of the three lookup dimensions: dim_date,
    dim_intake and dim_status hold exactly the non-missing values of the
    fact columns CreatedDate, MethodReceived and Status. *)
Theorem lookup_dimensions_referential (clean : DataFrame) (star : StarSchema) v :
  build_star_schema clean = Ok star →
  ((∃ j, cell_at (dim_date star) "Date" j = Some v) ↔
     v ≠ NA ∧ ∃ i, cell_at (fact star) "CreatedDate" i = Some v) ∧
  ((∃ j, cell_at (dim_intake star) "MethodReceived" j = Some v) ↔
     v ≠ NA ∧ ∃ i, cell_at (fact star) "MethodReceived" i = Some v) ∧
  ((∃ j, cell_at (dim_status star) "Status" j = Some v) ↔
     v ≠ NA ∧ ∃ i, cell_at (fact star) "Status" i = Some v).
Proof.
  intros H. apply build_star_schema_inv in H as (cdt & Hf & Hd & _ & _ & Hi & Hs).
  apply fact_table_columns in Hf as (_&_& Fcd & Fmr & Fst & _).
  apply dim_date_table_column in Hd as (created & dates & Hc & Hdt & _ & Hin).
  rewrite Fcd in Hc. injection Hc as <-.
  destruct (lookup_table_column "MethodReceived"
              (of_str (std_text (df_get_or "Method Received" (na_series clean)
                 (setitem "LocationKey"
                    (of_str (build_location_key
                       (df_get_or "Location" (na_series clean) clean)
                       (df_get_or "Latitude" (na_series clean) clean)
                       (df_get_or "Longitude" (na_series clean) clean))) clean)))))
    as (mv & Hmv & _ & Hmin).
  destruct (lookup_table_column "Status"
              (of_str (std_text (df_get_or "Status" (na_series clean)
                 (setitem "LocationKey"
                    (of_str (build_location_key
                       (df_get_or "Location" (na_series clean) clean)
                       (df_get_or "Latitude" (na_series clean) clean)
                       (df_get_or "Longitude" (na_series clean) clean))) clean)))))
    as (sv & Hsv & _ & Hsin).
  rewrite <- Hi in Hmv. rewrite <- Hs in Hsv.
  rewrite (cell_at_elem_of _ _ _ _ Hdt), (cell_at_elem_of _ _ _ _ Fcd),
    (cell_at_elem_of _ _ _ _ Hmv), (cell_at_elem_of _ _ _ _ Fmr),
    (cell_at_elem_of _ _ _ _ Hsv), (cell_at_elem_of _ _ _ _ Fst).
  rewrite Hin, Hmin, Hsin. tauto.
Qed.

Lemma cell_le_total :
  (∀ t u : time, time_leb t u = true ∨ time_leb u t = true) → Total cell_le.
Proof.
  intros Ht a b. unfold cell_le, cell_leb.
  destruct a, b; try (by left); [apply String.leb_total|apply Ht].
Qed.

Lemma lookup_table_sorted name (s : list cell) :
  (∀ t u : time, time_leb t u = true ∨ time_leb u t = true) →
  ∃ values, data (lookup_table name s) !! name = Some values ∧
            Sorted cell_le values.
Proof.
  intros Ht. exists (sort_values (drop_duplicates (dropna s))). split.
  - unfold lookup_table, new_frame. cbn [data].
    rewrite list_to_map_cons. apply lookup_insert_eq.
  - unfold sort_values. apply (Sorted_merge_sort _ (Total0:=cell_le_total Ht)).
Qed.

(** X11 - The lookup dimensions are sorted: when the order of timestamps is
    total, the Date column of dim_date, the MethodReceived column of
    dim_intake and the Status column of dim_status are in ascending order
    (text by code point, dates chronologically). *)
Theorem lookup_dimensions_sorted (clean : DataFrame) (star : StarSchema) :
  (∀ t u : time, time_leb t u = true ∨ time_leb u t = true) →
  build_star_schema clean = Ok star →
  ∃ dates methods statuses,
    data (dim_date star) !! "Date" = Some dates ∧
    data (dim_intake star) !! "MethodReceived" = Some methods ∧
    data (dim_status star) !! "Status" = Some statuses ∧
    Sorted cell_le dates ∧ Sorted cell_le methods ∧ Sorted cell_le statuses.
Proof.
  intros Ht H.
  apply build_star_schema_inv in H as (cdt & Hf & Hd & _ & _ & Hi & Hs).
  unfold dim_date_table in Hd.
  apply bind_Ok in Hd as (created & Hc & Hd).
  apply bind_Ok in Hd as (date_col & Hdc & Hd). apply getitem_Ok in Hdc.
  destruct (lookup_table_sorted "Date" created Ht) as (dates & Hdates & Sd).
  rewrite Hdates in Hdc. injection Hdc as <-.
  injection Hd as Hd.
  match type of Hi with _ = lookup_table _ ?s =>
    destruct (lookup_table_sorted "MethodReceived" s Ht) as (mv & Hmv & Sm)
  end.
  match type of Hs with _ = lookup_table _ ?s =>
    destruct (lookup_table_sorted "Status" s Ht) as (sv & Hsv & Ss)
  end.
  rewrite <- Hi in Hmv. rewrite <- Hs in Hsv.
  exists dates, mv, sv. split_and!; try done.
  rewrite <- Hd. by rewrite !lookup_setitem_ne.
Qed.
(** ** Further properties: the location dimension, row by row *)

(** The row a kept row comes from: the first one with its key. *)
Lemma first_occurrence_from {K} `{EqDecision K} (seen keys : list K) j k :
  select_rows (negb <$> duplicated_from seen keys) keys !! j = Some k →
  ∃ i, keys !! i = Some k ∧ (∀ i', i' < i → keys !! i' ≠ Some k) ∧
       ∀ A (col : list A), length col = length keys →
         select_rows (negb <$> duplicated_from seen keys) col !! j = col !! i.
Proof.
  revert seen j. induction keys as [|x keys IH]; intros seen j; simpl; [done|].
  case_bool_decide as Hx; simpl.
  - intros Hk. pose proof (list_elem_of_lookup_2 _ _ _ Hk) as Hin.
    apply elem_of_kept_from in Hin as [_ Hin].
    destruct (IH _ _ Hk) as (i & Hi & Hfirst & Hcol).
    exists (S i). split_and!; [done| |].
    + intros [|i'] Hlt; simpl.
      * intros [= ->]. apply Hin. left.
      * apply Hfirst. lia.
    + intros A [|y col] Hlen; [done|]. simpl. apply Hcol. simpl in Hlen. lia.
  - destruct j as [|j]; simpl.
    + intros [= ->]. exists 0. split_and!; [done|intros; lia|].
      by intros A [|y col] Hlen.
    + intros Hk. pose proof (list_elem_of_lookup_2 _ _ _ Hk) as Hin.
      apply elem_of_kept_from in Hin as [_ Hin].
      destruct (IH _ _ Hk) as (i & Hi & Hfirst & Hcol).
      exists (S i). split_and!; [done| |].
      * intros [|i'] Hlt; simpl.
        -- intros [= ->]. apply Hin. left.
        -- apply Hfirst. lia.
      * intros A [|y col] Hlen; [done|]. simpl. apply Hcol. simpl in Hlen. lia.
Qed.

Lemma lookup_rename_new old new (df : DataFrame) s :
  data df !! old = Some s → data (rename_column old new df) !! new = Some s.
Proof. intros E. unfold rename_column. rewrite E. simpl. apply lookup_insert_eq. Qed.

(** The seven columns of the location dimension. *)
Lemma dim_location_table_columns (model_df dl : DataFrame) :
  dim_location_table model_df = Ok dl →
  ∃ lk loc la lo zc pp cd,
    data model_df !! "LocationKey" = Some lk ∧
    data model_df !! "Location" = Some loc ∧
    data model_df !! "Latitude" = Some la ∧
    data model_df !! "Longitude" = Some lo ∧
    data model_df !! "ZIP Code" = Some zc ∧
    data model_df !! "Police Precinct" = Some pp ∧
    data model_df !! "Council District" = Some cd ∧
    let keep := negb <$> duplicated lk in
    data dl !! "LocationKey" = Some (select_rows keep lk) ∧
    data dl !! "Location" = Some (select_rows keep (of_str (std_text loc))) ∧
    data dl !! "Latitude" = Some (select_rows keep la) ∧
    data dl !! "Longitude" = Some (select_rows keep lo) ∧
    data dl !! "ZIPCode" = Some (select_rows keep zc) ∧
    data dl !! "PolicePrecinct" = Some (select_rows keep (of_str (std_text pp))) ∧
    data dl !! "CouncilDistrict" = Some (select_rows keep cd).
Proof.
  unfold dim_location_table. intros H.
  apply bind_Ok in H as (sel & Hsel & H).
  apply select_columns_Ok in Hsel as [_ Hsel].
  assert (∀ c, c ∈ dim_location_columns →
            ∃ s, data model_df !! c = Some s ∧ data sel !! c = Some s) as Hcols.
  { intros c Hc. destruct (Hsel c Hc) as [[s Hs] E]. exists s. by rewrite E. }
  destruct (Hcols "LocationKey") as (lk & Mlk & Slk);
    [unfold dim_location_columns; rewrite !elem_of_cons; tauto|].
  destruct (Hcols "Location") as (loc & Mloc & Sloc);
    [unfold dim_location_columns; rewrite !elem_of_cons; tauto|].
  destruct (Hcols "Latitude") as (la & Mla & Sla);
    [unfold dim_location_columns; rewrite !elem_of_cons; tauto|].
  destruct (Hcols "Longitude") as (lo & Mlo & Slo);
    [unfold dim_location_columns; rewrite !elem_of_cons; tauto|].
  destruct (Hcols "ZIP Code") as (zc & Mzc & Szc);
    [unfold dim_location_columns; rewrite !elem_of_cons; tauto|].
  destruct (Hcols "Police Precinct") as (pp & Mpp & Spp);
    [unfold dim_location_columns; rewrite !elem_of_cons; tauto|].
  destruct (Hcols "Council District") as (cd & Mcd & Scd);
    [unfold dim_location_columns; rewrite !elem_of_cons; tauto|].
  set (d1 := rename_column "ZIP Code" "ZIPCode" sel) in *.
  set (d2 := rename_column "Police Precinct" "PolicePrecinct" d1) in *.
  set (d3 := rename_column "Council District" "CouncilDistrict" d2) in *.
  assert (data d3 !! "ZIPCode" = Some zc) as Dzc.
  { unfold d3, d2. rewrite !lookup_rename_other by done.
    by apply lookup_rename_new. }
  assert (data d3 !! "PolicePrecinct" = Some pp) as Dpp.
  { unfold d3. rewrite lookup_rename_other by done.
    apply lookup_rename_new. unfold d1. by rewrite lookup_rename_other. }
  assert (data d3 !! "CouncilDistrict" = Some cd) as Dcd.
  { apply lookup_rename_new. unfold d2, d1. by rewrite !lookup_rename_other. }
  assert (∀ c, c ∈ ["LocationKey"; "Location"; "Latitude"; "Longitude"] →
            data d3 !! c = data sel !! c) as Dsame.
  { intros c. rewrite !elem_of_cons, elem_of_nil.
    intros [->|[->|[->|[->|[]]]]]; unfold d3, d2, d1;
      by rewrite !lookup_rename_other. }
  apply bind_Ok in H as (loc' & Hloc & H). apply getitem_Ok in Hloc.
  rewrite Dsame, Sloc in Hloc by (rewrite !elem_of_cons; tauto).
  injection Hloc as <-.
  apply bind_Ok in H as (pp' & Hpp & H). apply getitem_Ok in Hpp.
  rewrite lookup_setitem_ne, Dpp in Hpp by done. injection Hpp as <-.
  apply bind_Ok in H as (lk' & Hlk & H). apply getitem_Ok in Hlk.
  rewrite !lookup_setitem_ne, Dsame, Slk in Hlk
    by (done || rewrite !elem_of_cons; tauto).
  injection Hlk as <-. injection H as <-.
  exists lk, loc, la, lo, zc, pp, cd. split_and!; try done.
  all: unfold drop_duplicate_rows; rewrite lookup_filter_rows.
  - by rewrite !lookup_setitem_ne, Dsame, Slk by (done || rewrite !elem_of_cons; tauto).
  - by rewrite lookup_setitem_ne, lookup_setitem_eq by done.
  - by rewrite !lookup_setitem_ne, Dsame, Sla by (done || rewrite !elem_of_cons; tauto).
  - by rewrite !lookup_setitem_ne, Dsame, Slo by (done || rewrite !elem_of_cons; tauto).
  - by rewrite !lookup_setitem_ne, Dzc by done.
  - by rewrite lookup_setitem_eq.
  - by rewrite !lookup_setitem_ne, Dcd by done.
Qed.

(** X12 - dim_location keeps the first occurrence: a row of dim_location
    carries the attributes of the first row of the cleaned frame that has
    its Location Key, the two text attributes standardised by [std_text]. *)
Theorem dim_location_first_occurrence (clean : DataFrame) (star : StarSchema) j k :
  wf clean → build_star_schema clean = Ok star →
  cell_at (dim_location star) "LocationKey" j = Some k →
  ∃ i loc pp,
    cell_at (fact star) "LocationKey" i = Some k ∧
    (∀ i', i' < i → cell_at (fact star) "LocationKey" i' ≠ Some k) ∧
    data clean !! "Location" = Some loc ∧
    data clean !! "Police Precinct" = Some pp ∧
    cell_at (dim_location star) "Location" j = of_str (std_text loc) !! i ∧
    cell_at (dim_location star) "PolicePrecinct" j = of_str (std_text pp) !! i ∧
    cell_at (dim_location star) "Latitude" j = cell_at clean "Latitude" i ∧
    cell_at (dim_location star) "Longitude" j = cell_at clean "Longitude" i ∧
    cell_at (dim_location star) "ZIPCode" j = cell_at clean "ZIP Code" i ∧
    cell_at (dim_location star) "CouncilDistrict" j = cell_at clean "Council District" i.
Proof.
  intros Hwf H Hk.
  pose proof (build_star_schema_inv _ _ H) as (cdt & Hf & _ & Hl & _).
  apply fact_table_columns in Hf as (_&_&_&_&_&_&_&_& Flk & _).
  apply dim_location_table_columns in Hl
    as (lk & loc & la & lo & zc & pp & cd & Mlk & Mloc & Mla & Mlo & Mzc & Mpp & Mcd
        & Dlk & Dloc & Dla & Dlo & Dzc & Dpp & Dcd).
  rewrite Mlk in Flk.
  rewrite lookup_setitem_ne in Mloc, Mla, Mlo, Mzc, Mpp, Mcd by done.
  assert (length lk = index clean) as Llk.
  { rewrite lookup_setitem_eq in Mlk. injection Mlk as <-.
    rewrite of_str_length. apply build_location_key_length; by apply df_get_or_length. }
  unfold cell_at in Hk. rewrite Dlk in Hk. simpl in Hk.
  destruct (first_occurrence_from [] lk j k Hk) as (i & Hi & Hfirst & Hcol).
  exists i, loc, pp. unfold cell_at.
  rewrite Flk, Dloc, Dpp, Dla, Dlo, Dzc, Dcd, Mla, Mlo, Mzc, Mcd. simpl.
  split_and!; try done.
  - apply Hcol. rewrite of_str_length, std_text_length, Llk.
    by eapply wf_lookup.
  - apply Hcol. rewrite of_str_length, std_text_length, Llk.
    by eapply wf_lookup.
  - apply Hcol. rewrite Llk. by eapply wf_lookup.
  - apply Hcol. rewrite Llk. by eapply wf_lookup.
  - apply Hcol. rewrite Llk. by eapply wf_lookup.
  - apply Hcol. rewrite Llk. by eapply wf_lookup.
Qed.

Lemma select_columns_present cols (df : DataFrame) :
  (∀ c, c ∈ cols → is_Some (data df !! c)) →
  ∃ sel, select_columns cols df = Ok sel.
Proof.
  intros Hall. unfold select_columns.
  destruct (filter _ cols) as [|m ms] eqn:Hf; [eauto|]. exfalso.
  assert (m ∈ filter (λ c, data df !! c = None) cols) as Hin
    by (rewrite Hf; left).
  apply list_elem_of_filter in Hin as [Hn Hin].
  destruct (Hall m Hin) as [s Hs]. congruence.
Qed.

Lemma dim_location_table_Ok (model_df : DataFrame) :
  (∀ c, c ∈ dim_location_columns → is_Some (data model_df !! c)) →
  ∃ dl, dim_location_table model_df = Ok dl.
Proof.
  intros Hall. unfold dim_location_table.
  destruct (select_columns_present _ _ Hall) as [sel Hsel]. rewrite Hsel.
  cbn [mbind result_bind].
  apply select_columns_Ok in Hsel as [_ Hsel].
  assert (∀ c, c ∈ dim_location_columns → is_Some (data sel !! c)) as Hcols.
  { intros c Hc. destruct (Hsel c Hc) as [Hs E]. by rewrite E. }
  destruct (Hcols "Location") as [loc Sloc];
    [unfold dim_location_columns; rewrite !elem_of_cons; tauto|].
  destruct (Hcols "Police Precinct") as [pp Spp];
    [unfold dim_location_columns; rewrite !elem_of_cons; tauto|].
  destruct (Hcols "LocationKey") as [lk Slk];
    [unfold dim_location_columns; rewrite !elem_of_cons; tauto|].
  erewrite (proj2 (getitem_Ok "Location" _ loc))
    by (by rewrite !lookup_rename_other).
  cbn [mbind result_bind].
  erewrite (proj2 (getitem_Ok "PolicePrecinct" _ pp)).
  2:{ rewrite lookup_setitem_ne, lookup_rename_other by done.
      apply lookup_rename_new. by rewrite lookup_rename_other. }
  cbn [mbind result_bind].
  erewrite (proj2 (getitem_Ok "LocationKey" _ lk))
    by (by rewrite !lookup_setitem_ne, !lookup_rename_other).
  cbn [mbind result_bind]. eauto.
Qed.

(** X13 - [build_star_schema] succeeds exactly on the frames that hold the
    column "Created Date" and the six columns that dim_location projects. *)
Theorem build_star_schema_succeeds_iff (clean : DataFrame) :
  (∃ star, build_star_schema clean = Ok star) ↔
  ∀ c, c ∈ "Created Date" :: location_inputs → is_Some (data clean !! c).
Proof.
  split.
  - intros [star H] c Hc.
    pose proof (build_star_schema_created _ _ H) as (created & Hcd & _).
    apply build_star_schema_inv in H as (cdt & _ & _ & Hl & _).
    apply dim_location_table_inv in Hl as [Hall _].
    apply elem_of_cons in Hc as [->|Hc]; [eauto|].
    apply location_input_projected in Hc as [Hc Hne].
    specialize (Hall c Hc). by rewrite lookup_setitem_ne in Hall.
  - intros Hall. destruct (Hall "Created Date") as [cd Hcd]; [left|].
    unfold build_star_schema. cbv zeta.
    unfold df_get at 1. rewrite lookup_setitem_ne, Hcd by done.
    cbn [mbind result_bind].
    match goal with |- context [fact_table ?m ?a ?b ?c ?d ?e ?f] =>
      destruct (fact_table_Ok m a b c d e f) as [ft Hft];
        [rewrite lookup_setitem_eq; eauto|]; rewrite Hft
    end.
    cbn [mbind result_bind].
    apply fact_table_columns in Hft as (_&_& Fcd & Fmr & Fst &_).
    destruct (dim_date_table_Ok ft) as [dd Hdd]; [eauto|]. rewrite Hdd.
    cbn [mbind result_bind].
    match goal with |- context [dim_location_table ?m] =>
      destruct (dim_location_table_Ok m) as [dl Hdl]; [|rewrite Hdl]
    end.
    { intros c Hc. destruct (decide (c = "LocationKey")) as [->|Hne].
      - rewrite lookup_setitem_eq. eauto.
      - rewrite lookup_setitem_ne by done. apply Hall. right.
        unfold dim_location_columns, location_inputs in *.
        rewrite !elem_of_cons in Hc. rewrite !elem_of_cons. tauto. }
    cbn [mbind result_bind].
    match goal with |- context [dim_category_table ?n ?vl ?dd] =>
      destruct (dim_category_table_columns n vl dd) as (dc & Hdc & _); rewrite Hdc
    end.
    cbn [mbind result_bind].
    rewrite (proj2 (getitem_Ok _ _ _) Fmr). cbn [mbind result_bind].
    rewrite (proj2 (getitem_Ok _ _ _) Fst). cbn [mbind result_bind].
    eauto.
Qed.
(** ** Further properties: the cleaned frame, column by column *)

Lemma lookup_update_ne col f df c :
  c ≠ col → data (update_if_present col f df) !! c = data df !! c.
Proof.
  intros Hc. unfold update_if_present.
  destruct (data df !! col); [|done]. by apply lookup_setitem_ne.
Qed.

Lemma lookup_update_eq col f df :
  data (update_if_present col f df) !! col = f <$> data df !! col.
Proof.
  unfold update_if_present.
  destruct (data df !! col) eqn:E; [|by rewrite E]. apply lookup_setitem_eq.
Qed.

Lemma index_update col f df : index (update_if_present col f df) = index df.
Proof. unfold update_if_present. by destruct (data df !! col). Qed.

Lemma lookup_step_dates df c :
  c ≠ "Created Date" → data (step_dates df) !! c = data df !! c.
Proof. intros. unfold step_dates. by apply lookup_setitem_ne. Qed.

Lemma lookup_step_council df d c :
  step_council df = Ok d → c ≠ "Council District" → data d !! c = data df !! c.
Proof.
  unfold step_council. destruct (data df !! "Council District").
  - intros (r & _ & [= <-])%bind_Ok Hc. by apply lookup_setitem_ne.
  - by intros [= <-].
Qed.

Lemma index_step_council df d : step_council df = Ok d → index d = index df.
Proof.
  unfold step_council. destruct (data df !! "Council District").
  - by intros (r & _ & [= <-])%bind_Ok.
  - by intros [= <-].
Qed.

Lemma lookup_step_latlon df c :
  c ≠ "Latitude" → c ≠ "Longitude" → data (step_latlon df) !! c = data df !! c.
Proof. intros. unfold step_latlon. by rewrite !lookup_update_ne. Qed.

Lemma lookup_step_mask00 df c :
  c ≠ "Latitude" → c ≠ "Longitude" → data (step_mask00 df) !! c = data df !! c.
Proof.
  intros. unfold step_mask00.
  destruct (data df !! "Latitude"), (data df !! "Longitude"); try done.
  by rewrite !lookup_setitem_ne.
Qed.

Lemma index_step_mask00 df : index (step_mask00 df) = index df.
Proof.
  unfold step_mask00.
  by destruct (data df !! "Latitude"), (data df !! "Longitude").
Qed.

Lemma fillna_fillna v (s : list cell) : v ≠ NA → fillna v (fillna v s) = fillna v s.
Proof.
  intros Hv. unfold fillna. rewrite <- list_fmap_compose.
  apply list_fmap_ext. intros _ c _. simpl. destruct c; try done.
  destruct v; done.
Qed.

Lemma lookup_fill_columns (cols : list string) df c :
  data (foldl (λ d col, update_if_present col (fillna (Txt "Unknown")) d) df cols) !! c
  = (if bool_decide (c ∈ cols) then fillna (Txt "Unknown") else id) <$> data df !! c.
Proof.
  revert df. induction cols as [|col cols IH]; intros df; cbn [foldl].
  { rewrite bool_decide_eq_false_2 by apply not_elem_of_nil.
    by destruct (data df !! c). }
  rewrite IH. destruct (decide (c = col)) as [->|Hne].
  - rewrite lookup_update_eq, (bool_decide_eq_true_2 (col ∈ col :: cols)) by left.
    destruct (data df !! col) as [s|]; [|done]. cbn [fmap option_fmap option_map].
    case_bool_decide; [|done]. by rewrite fillna_fillna.
  - rewrite lookup_update_ne by done.
    rewrite (bool_decide_ext (c ∈ col :: cols) (c ∈ cols)); [done|].
    rewrite elem_of_cons. tauto.
Qed.

Lemma index_fill_columns (cols : list string) df :
  index (foldl (λ d col, update_if_present col (fillna (Txt "Unknown")) d) df cols)
  = index df.
Proof.
  revert df. induction cols as [|col cols IH]; intros df; simpl; [done|].
  by rewrite IH, index_update.
Qed.

Lemma lookup_step_features b df d c :
  step_features b df = Ok d → c ∉ excluded → data d !! c = data df !! c.
Proof.
  unfold step_features. intros (created & _ & [= <-])%bind_Ok Hc.
  unfold excluded in Hc. rewrite !not_elem_of_cons in Hc.
  destruct Hc as (?&?&?&?&?&?&_). by rewrite !lookup_setitem_ne.
Qed.

(** The cleaned frame from the frame after the (0,0) step: the text loop,
    then the "Unknown" fill. *)
Lemma load_and_clean_inv (raw clean : DataFrame) :
  load_and_clean raw = Ok clean →
  ∃ d2 created,
    step_council (step_zip (step_dates raw)) = Ok d2 ∧
    index clean = index raw ∧
    data clean !! "Created Date" = Some created ∧
    data clean !! "Year" = Some (dt_num_field "year" created) ∧
    data clean !! "Month" = Some (dt_num_field "month" created) ∧
    data clean !! "Day" = Some (dt_num_field "day" created) ∧
    data clean !! "Weekday" = Some (dt_name_field "day_name" created) ∧
    data clean !! "Hour" = Some (dt_num_field "hour" created) ∧
    data clean !! "Community Reporting Area" = None ∧
    ∀ c, c ∉ excluded →
      data clean !! c
      = (if bool_decide (c ∈ safe_unknown_cols) then fillna (Txt "Unknown") else id)
        <$> ((λ s, if is_text_dtype c s then of_str (std_text s) else s)
             <$> data (step_mask00 (step_latlon d2)) !! c).
Proof.
  rewrite load_and_clean_steps. intros (d2 & H2 & H3)%bind_Ok.
  exists d2.
  assert (∀ c, c ≠ "Community Reporting Area" →
    data (step_unknown (drop_column "Community Reporting Area"
            (step_text (step_mask00 (step_latlon d2))))) !! c
    = (if bool_decide (c ∈ safe_unknown_cols) then fillna (Txt "Unknown") else id)
        <$> ((λ s, if is_text_dtype c s then of_str (std_text s) else s)
             <$> data (step_mask00 (step_latlon d2)) !! c)) as Hcol.
  { intros c Hc. unfold step_unknown. rewrite lookup_fill_columns.
    unfold drop_column, step_text. cbn [data].
    rewrite lookup_delete_ne, map_lookup_imap by done.
    by destruct (data (step_mask00 (step_latlon d2)) !! c). }
  pose proof H3 as H3'. unfold step_features in H3'.
  apply bind_Ok in H3' as (created & Hcr & [= <-]).
  exists created.
  assert (getitem "Created Date"
            (step_unknown (drop_column "Community Reporting Area"
               (step_text (step_mask00 (step_latlon d2))))) = Ok created) as Hcr'.
  { destruct (has_column "Created Date" raw || to_datetime_none_nat);
      [done|discriminate Hcr]. }
  apply getitem_Ok in Hcr'.
  split_and!; try done.
  - cbn [index setitem]. unfold step_unknown. rewrite index_fill_columns.
    cbn [index drop_column step_text]. rewrite index_step_mask00.
    unfold step_latlon. rewrite !index_update.
    rewrite (index_step_council _ _ H2). unfold step_zip.
    by rewrite index_update.
  - by rewrite !lookup_setitem_ne by done.
  - rewrite !lookup_setitem_ne by done. apply lookup_setitem_eq.
  - rewrite !lookup_setitem_ne by done. apply lookup_setitem_eq.
  - rewrite !lookup_setitem_ne by done. apply lookup_setitem_eq.
  - rewrite !lookup_setitem_ne by done. apply lookup_setitem_eq.
  - apply lookup_setitem_eq.
  - rewrite !lookup_setitem_ne by done. unfold step_unknown.
    rewrite lookup_fill_columns. unfold drop_column. cbn [data].
    by rewrite lookup_delete_eq.
  - intros c Hc. rewrite (lookup_step_features _ _ _ c H3 Hc).
    apply Hcol. intros ->. apply Hc. left.
Qed.
Lemma not_excluded_iff c :
  c ∉ excluded ↔
  c ≠ "Community Reporting Area" ∧ c ≠ "Year" ∧ c ≠ "Month" ∧ c ≠ "Day" ∧
  c ≠ "Weekday" ∧ c ≠ "Hour".
Proof. unfold excluded. rewrite !not_elem_of_cons. pose proof (not_elem_of_nil c). tauto. Qed.

(** X14 - The shape of the cleaned frame: it has the rows of the input,
    every column has one cell per row, and its columns are "Created Date",
    those of the input without "Community Reporting Area", and the five
    derived ones. *)
Theorem load_and_clean_shape (raw clean : DataFrame) :
  wf raw → load_and_clean raw = Ok clean →
  index clean = index raw ∧ wf clean ∧
  ∀ c, is_Some (data clean !! c) ↔
       c ∈ ["Created Date"; "Year"; "Month"; "Day"; "Weekday"; "Hour"] ∨
       (c ≠ "Community Reporting Area" ∧ is_Some (data raw !! c)).
Proof.
  intros Hwf H.
  destruct (load_and_clean_rel _ _ Hwf H)
    as (raw' & Hwf' & Hrel & Hcr & Hidx' & Hsub & Hsame).
  pose proof (load_and_clean_inv _ _ H)
    as (d2 & created & _ & Hidx & Hcd & Hy & Hm & Hd & Hw & Hh & Hcra & _).
  assert (length created = index raw) as Hlen.
  { rewrite <- Hidx'. eapply frame_rel_length; [done|exact Hrel| |exact Hcd].
    apply not_excluded_iff. by split_and!. }
  split; [done|]. split.
  - intros c s Hs. rewrite Hidx.
    destruct (decide (c ∈ excluded)) as [Hc|Hc].
    + unfold excluded in Hc. rewrite !elem_of_cons, elem_of_nil in Hc.
      destruct Hc as [->|[->|[->|[->|[->|[->|[]]]]]]]; simplify_eq;
        by rewrite ?dt_num_field_length, ?dt_name_field_length.
    + rewrite <- Hidx'. by eapply frame_rel_length.
  - intros c. destruct (decide (c ∈ excluded)) as [Hc|Hc].
    + unfold excluded in Hc. rewrite !elem_of_cons, elem_of_nil in Hc.
      destruct Hc as [->|[->|[->|[->|[->|[->|[]]]]]]];
        rewrite ?Hcra, ?Hy, ?Hm, ?Hd, ?Hw, ?Hh, !elem_of_cons.
      * split; [by intros [? ?]|]. intros [H'|[? _]]; [|done].
        repeat (destruct H' as [H'|H']; [discriminate H'|]).
        by apply elem_of_nil in H'.
      * split; [intros _; left; tauto|eauto].
      * split; [intros _; left; tauto|eauto].
      * split; [intros _; left; tauto|eauto].
      * split; [intros _; left; tauto|eauto].
      * split; [intros _; left; tauto|eauto].
    + destruct (decide (c = "Created Date")) as [->|Hne].
      { rewrite Hcd. split; [intros _; left; left|eauto]. }
      rewrite <- (Hsame c Hne). split.
      * intros Hs. right. apply not_excluded_iff in Hc as Hc'. split; [tauto|].
        destruct (data raw' !! c) eqn:E; [eauto|].
        rewrite (frame_rel_missing _ _ _ c Hrel Hc E) in Hs. by destruct Hs.
      * intros [Hin|[_ Hs]].
        -- exfalso. apply Hc. unfold excluded. rewrite !elem_of_cons in *. tauto.
        -- by eapply frame_rel_present.
Qed.

Lemma lookup_before_mask (raw d2 : DataFrame) c :
  step_council (step_zip (step_dates raw)) = Ok d2 →
  c ∉ ["Created Date"; "ZIP Code"; "Council District"; "Latitude"; "Longitude"] →
  data (step_mask00 (step_latlon d2)) !! c = data raw !! c.
Proof.
  intros H2 Hc. rewrite !not_elem_of_cons in Hc. destruct Hc as (?&?&?&?&?&_).
  rewrite lookup_step_mask00, lookup_step_latlon by done.
  rewrite (lookup_step_council _ _ _ H2) by done.
  unfold step_zip. rewrite lookup_update_ne by done.
  by apply lookup_step_dates.
Qed.

Lemma lookup_mask00_coordinates (raw d2 : DataFrame) la lo :
  step_council (step_zip (step_dates raw)) = Ok d2 →
  data raw !! "Latitude" = Some la → data raw !! "Longitude" = Some lo →
  let la' := of_num (to_numeric la) in
  let lo' := of_num (to_numeric lo) in
  let m := mask_and (cells_eq_zero la') (cells_eq_zero lo') in
  data (step_mask00 (step_latlon d2)) !! "Latitude" = Some (mask la' m NA) ∧
  data (step_mask00 (step_latlon d2)) !! "Longitude" = Some (mask lo' m NA).
Proof.
  intros H2 Hla Hlo la' lo' m.
  assert (data d2 !! "Latitude" = Some la) as Dla.
  { rewrite (lookup_step_council _ _ _ H2) by done.
    unfold step_zip. rewrite lookup_update_ne by done.
    by rewrite lookup_step_dates. }
  assert (data d2 !! "Longitude" = Some lo) as Dlo.
  { rewrite (lookup_step_council _ _ _ H2) by done.
    unfold step_zip. rewrite lookup_update_ne by done.
    by rewrite lookup_step_dates. }
  assert (data (step_latlon d2) !! "Latitude" = Some la') as Lla.
  { unfold step_latlon. rewrite lookup_update_ne by done.
    by rewrite lookup_update_eq, Dla. }
  assert (data (step_latlon d2) !! "Longitude" = Some lo') as Llo.
  { unfold step_latlon. by rewrite lookup_update_eq, lookup_update_ne, Dlo. }
  unfold step_mask00. rewrite Lla, Llo. fold m. split.
  - by rewrite lookup_setitem_ne, lookup_setitem_eq.
  - by rewrite lookup_setitem_eq.
Qed.

Lemma is_text_dtype_false col (s : list cell) :
  col ≠ "ZIP Code" → Forall (λ c, is_text c = false) s →
  is_text_dtype col s = false.
Proof.
  intros Hcol Hs. unfold is_text_dtype. rewrite bool_decide_eq_false_2 by done.
  cbn [orb]. apply andb_false_iff. right.
  induction Hs as [|c s Hc _ IH]; simpl; [done|]. by rewrite Hc, IH.
Qed.

Lemma mask_of_num_not_text (s : list cell) (m : list bool) :
  Forall (λ c : cell, is_text c = false) (mask (of_num (to_numeric s)) m NA).
Proof.
  unfold mask, of_num, to_numeric. rewrite <- list_fmap_compose.
  revert m. induction s as [|x s IH]; intros [|b m]; simpl; try constructor.
  - destruct b; [done|]. by destruct (to_numeric_cell x).
  - apply IH.
Qed.

(** The two coordinates of one row of the cleaned frame. *)
Lemma cleaned_coordinates_cells (raw clean : DataFrame) i a o :
  load_and_clean raw = Ok clean →
  cell_at raw "Latitude" i = Some a → cell_at raw "Longitude" i = Some o →
  let both_zero :=
    match to_numeric_cell a, to_numeric_cell o with
    | Some x, Some y => num_is_zero x && num_is_zero y
    | _, _ => false
    end in
  cell_at clean "Latitude" i
    = Some (if both_zero then NA
            else match to_numeric_cell a with Some x => Num x | None => NA end) ∧
  cell_at clean "Longitude" i
    = Some (if both_zero then NA
            else match to_numeric_cell o with Some y => Num y | None => NA end).
Proof.
  intros H Ha Ho both_zero. unfold cell_at in *.
  destruct (data raw !! "Latitude") as [la|] eqn:Hla; [|done].
  destruct (data raw !! "Longitude") as [lo|] eqn:Hlo; [|done].
  simpl in Ha, Ho.
  pose proof (load_and_clean_inv _ _ H) as (d2 & created & H2 & _ & _ & _ & _ & _ & _ & _ & _ & Hcol).
  destruct (lookup_mask00_coordinates _ _ _ _ H2 Hla Hlo) as [Mla Mlo].
  rewrite (Hcol "Latitude"), (Hcol "Longitude"), Mla, Mlo
    by (apply not_excluded_iff; by split_and!).
  rewrite !bool_decide_eq_false_2
    by (unfold safe_unknown_cols; rewrite !not_elem_of_cons;
        split_and!; try done; apply not_elem_of_nil).
  cbn [fmap option_fmap option_map mbind option_bind id].
  rewrite !is_text_dtype_false by (done || apply mask_of_num_not_text).
  unfold mask, mask_and, cells_eq_zero, of_num, to_numeric.
  rewrite !lookup_zip_with, !list_lookup_fmap, Ha, Ho. simpl.
  unfold both_zero.
  destruct (to_numeric_cell a) as [x|], (to_numeric_cell o) as [y|]; simpl;
    rewrite ?andb_false_r; done.
Qed.

(** X15 - The coordinates after cleaning: each is the number its cell
    parses to, missing when it does not parse, and both are missing when
    both are zero.  No cleaned row holds the pair (0, 0). *)
Theorem cleaned_coordinates (raw clean : DataFrame) i a o :
  load_and_clean raw = Ok clean →
  cell_at raw "Latitude" i = Some a → cell_at raw "Longitude" i = Some o →
  (∃ la lo, cell_at clean "Latitude" i = Some la ∧
            cell_at clean "Longitude" i = Some lo ∧
     match to_numeric_cell a, to_numeric_cell o with
     | Some x, Some y =>
         if num_is_zero x && num_is_zero y then la = NA ∧ lo = NA
         else la = Num x ∧ lo = Num y
     | Some x, None => la = Num x ∧ lo = NA
     | None, Some y => la = NA ∧ lo = Num y
     | None, None => la = NA ∧ lo = NA
     end) ∧
  ∀ x y, cell_at clean "Latitude" i = Some (Num x) →
         cell_at clean "Longitude" i = Some (Num y) →
         num_is_zero x && num_is_zero y = false.
Proof.
  intros H Ha Ho.
  destruct (cleaned_coordinates_cells _ _ _ _ _ H Ha Ho) as [Hla Hlo].
  rewrite Hla, Hlo. split.
  - do 2 eexists. split_and!; try done.
    destruct (to_numeric_cell a) as [x|], (to_numeric_cell o) as [y|]; try done.
    by destruct (num_is_zero x && num_is_zero y).
  - intros x y.
    destruct (to_numeric_cell a) as [x'|], (to_numeric_cell o) as [y'|]; try done.
    destruct (num_is_zero x' && num_is_zero y') eqn:E; [done|].
    by intros [= <-] [= <-].
Qed.
Lemma all_digits_substring n s :
  all_digits n s = true →
  String.length (substring 0 n s) = n ∧
  all_chars is_digit (substring 0 n s) = true.
Proof.
  revert s. induction n as [|n IH]; intros s; simpl.
  { by destruct s. }
  destruct s as [|c s]; [done|]. intros [Hc Hs]%andb_prop.
  destruct (IH s Hs) as [Hl Hd]. simpl. by rewrite Hl, Hc, Hd.
Qed.

Lemma extract_zip_format s z :
  extract_zip s = Some z →
  String.length z = 5 ∧ all_chars is_digit z = true.
Proof.
  induction s as [|c s IH]; [done|].
  change (extract_zip (String c s))
    with (if all_digits 5 (String c s) then Some (substring 0 5 (String c s))
          else extract_zip s).
  destruct (all_digits 5 (String c s)) eqn:E; [|exact IH].
  clear IH. intros Hz. injection Hz as <-.
  exact (all_digits_substring 5 (String c s) E).
Qed.

Lemma digit_not_space c : is_digit c = true → is_space c = false.
Proof. by destruct c as [[] [] [] [] [] [] [] []]. Qed.

Lemma lstrip_digits s : all_chars is_digit s = true → lstrip s = s.
Proof.
  destruct s as [|c s]; [done|]. simpl. intros [Hc _]%andb_prop.
  by rewrite (digit_not_space _ Hc).
Qed.

Lemma rstrip_digits s : all_chars is_digit s = true → rstrip s = s.
Proof.
  induction s as [|c s IH]; [done|]. simpl. intros [Hc Hs]%andb_prop.
  rewrite (IH Hs). destruct s; [|done]. by rewrite (digit_not_space _ Hc).
Qed.

(** A ZIP cell: missing, or five digits. *)
Lemma zip_cell_std_text (c : cell) :
  (c = NA ∨ ∃ z, c = Txt z ∧ String.length z = 5 ∧ all_chars is_digit z = true) →
  str_cell (replace_markers_cell (strip <$> cell_to_str c)) = c.
Proof.
  intros [->|(z & -> & Hl & Hd)]; [done|].
  change (cell_to_str (Txt z)) with (Some z).
  rewrite std_text_cell_fixed; [done|..].
  - unfold strip. by rewrite lstrip_digits, rstrip_digits.
  - by intros ->.
  - by intros ->.
  - by intros ->.
Qed.

(** X16 - A ZIP code of the cleaned frame is missing or a text of exactly
    five digits. *)
Theorem cleaned_zip_format (raw clean : DataFrame) i c :
  load_and_clean raw = Ok clean →
  cell_at clean "ZIP Code" i = Some c →
  c = NA ∨ ∃ z, c = Txt z ∧ String.length z = 5 ∧ all_chars is_digit z = true.
Proof.
  intros H Hc.
  pose proof (load_and_clean_inv _ _ H)
    as (d2 & created & H2 & _ & _ & _ & _ & _ & _ & _ & _ & Hcol).
  unfold cell_at in Hc. rewrite (Hcol "ZIP Code") in Hc
    by (apply not_excluded_iff; by split_and!).
  rewrite bool_decide_eq_false_2 in Hc
    by (unfold safe_unknown_cols; rewrite !not_elem_of_cons;
        split_and!; try done; apply not_elem_of_nil).
  rewrite lookup_step_mask00, lookup_step_latlon in Hc by done.
  rewrite (lookup_step_council _ _ _ H2) in Hc by done.
  unfold step_zip in Hc. rewrite lookup_update_eq in Hc.
  rewrite lookup_step_dates in Hc by done.
  destruct (data raw !! "ZIP Code") as [zs|]; [|done].
  cbn [fmap option_fmap option_map mbind option_bind id] in Hc.
  assert (Forall (λ c : cell, c = NA ∨ ∃ z, c = Txt z ∧ String.length z = 5 ∧
                    all_chars is_digit z = true)
            (of_str (str_extract_zip (astype_string zs)))) as Hz.
  { unfold of_str, str_extract_zip, astype_string. rewrite <- !list_fmap_compose.
    apply Forall_fmap, Forall_true. intros x. simpl.
    destruct (cell_to_str x) as [s|]; simpl; [|by left].
    destruct (extract_zip s) as [z|] eqn:E; simpl; [|by left].
    right. exists z. split; [done|]. exact (extract_zip_format s z E). }
  match type of Hc with context [is_text_dtype ?s] =>
    destruct (is_text_dtype s)
  end.
  - rewrite std_text_rows in Hc. unfold of_str at 1 in Hc.
    rewrite <- list_fmap_compose, list_lookup_fmap in Hc.
    destruct (of_str (str_extract_zip (astype_string zs)) !! i) as [c0|] eqn:E0;
      [|done].
    simpl in Hc. injection Hc as <-.
    pose proof (Forall_lookup_1 _ _ _ _ Hz E0) as H0.
    rewrite (zip_cell_std_text c0 H0). exact H0.
  - simpl in Hc. exact (Forall_lookup_1 _ _ _ _ Hz Hc).
Qed.

Lemma not_excluded_safe c : c ∈ safe_unknown_cols → c ∉ excluded.
Proof.
  unfold safe_unknown_cols, excluded. rewrite !elem_of_cons, !elem_of_nil.
  intros [->|[->|[->|[->|[->|[->|[]]]]]]]; intros H;
    repeat (destruct H as [H|H]; [discriminate H|]); done.
Qed.

(** X17 - No missing value is left in the six categorical columns that
    [load_and_clean] fills with "Unknown". *)
Theorem cleaned_categoricals_present (raw clean : DataFrame) c i :
  load_and_clean raw = Ok clean → c ∈ safe_unknown_cols →
  cell_at clean c i ≠ Some NA.
Proof.
  intros H Hc.
  pose proof (load_and_clean_inv _ _ H)
    as (d2 & created & H2 & _ & _ & _ & _ & _ & _ & _ & _ & Hcol).
  unfold cell_at. rewrite (Hcol c) by by apply not_excluded_safe.
  rewrite bool_decide_eq_true_2 by done.
  destruct (data (step_mask00 (step_latlon d2)) !! c) as [s|]; [|done].
  cbn [fmap option_fmap option_map mbind option_bind].
  unfold fillna. rewrite list_lookup_fmap.
  destruct ((if is_text_dtype c s then of_str (std_text s) else s) !! i) as [x|];
    [|done].
  simpl. by destruct x.
Qed.

(** Where [read_csv] stores text with dtype object, a column that holds a
    text is standardised by the text loop. *)
Lemma is_text_dtype_elem col (s : list cell) t :
  csv_text_object = true → Txt t ∈ s → is_text_dtype col s = true.
Proof.
  intros Hobj Hin. unfold is_text_dtype. rewrite Hobj.
  apply orb_true_iff. right. apply existsb_exists. exists (Txt t).
  split; [|done]. by apply list_elem_of_In.
Qed.

(** A text cell after the text loop is standardised. *)
Lemma std_text_column_cell col (s : list cell) i t :
  csv_text_object = true →
  (if is_text_dtype col s then of_str (std_text s) else s) !! i = Some (Txt t) →
  strip t = t ∧ t ≠ "" ∧ t ≠ "None" ∧ t ≠ "nan".
Proof.
  intros Hobj. destruct (is_text_dtype col s) eqn:E.
  - intros (o & Ho & Hc)%of_str_lookup. destruct o as [u|]; [|done].
    injection Hc as ->. by eapply std_text_cells_trimmed_cell.
  - intros Hin%list_elem_of_lookup_2.
    apply (is_text_dtype_elem col) in Hin; [congruence|done].
Qed.
Lemma dt_num_field_not_text f (s : list cell) i t : dt_num_field f s !! i ≠ Some (Txt t).
Proof.
  unfold dt_num_field. rewrite list_lookup_fmap.
  destruct (s !! i) as [c|]; [|done]. by destruct c.
Qed.

(** A text cell of the cleaned frame, the derived "Weekday" apart. *)
Lemma cleaned_text_cell (raw clean : DataFrame) c i t :
  csv_text_object = true →
  load_and_clean raw = Ok clean → c ≠ "Weekday" →
  cell_at clean c i = Some (Txt t) →
  strip t = t ∧ t ≠ "" ∧ t ≠ "None" ∧ t ≠ "nan".
Proof.
  intros Hobj H Hw Hc.
  pose proof (load_and_clean_inv _ _ H)
    as (d2 & created & H2 & _ & _ & Hy & Hm & Hd & _ & Hh & Hcra & Hcol).
  unfold cell_at in Hc.
  destruct (decide (c ∈ excluded)) as [Hex|Hex].
  - unfold excluded in Hex. rewrite !elem_of_cons, elem_of_nil in Hex.
    destruct Hex as [->|[->|[->|[->|[->|[->|[]]]]]]]; try done;
      rewrite ?Hcra, ?Hy, ?Hm, ?Hd, ?Hh in Hc; try done;
      simpl in Hc; by apply dt_num_field_not_text in Hc.
  - rewrite (Hcol c Hex) in Hc.
    destruct (data (step_mask00 (step_latlon d2)) !! c) as [s|]; [|done].
    cbn [fmap option_fmap option_map mbind option_bind] in Hc.
    case_bool_decide.
    + unfold fillna in Hc. rewrite list_lookup_fmap in Hc.
      destruct ((if is_text_dtype c s then of_str (std_text s) else s) !! i)
        as [x|] eqn:E; [|done].
      simpl in Hc. destruct x; simplify_eq.
      * by split_and!.
      * by eapply std_text_column_cell.
    + by eapply std_text_column_cell.
Qed.

(** X18 - Text in the cleaned frame is standardised where [read_csv] stores
    text with dtype object (pandas 2): outside the derived column "Weekday",
    a text cell has no leading or trailing whitespace and is none of the
    markers "", "None", "nan". *)
Theorem cleaned_text_trimmed (raw clean : DataFrame) c i t :
  csv_text_object = true →
  load_and_clean raw = Ok clean → c ≠ "Weekday" →
  cell_at clean c i = Some (Txt t) →
  strip t = t ∧ t ≠ "" ∧ t ≠ "None" ∧ t ≠ "nan".
Proof. apply cleaned_text_cell. Qed.

Lemma astype_Int64_Ok (l : list (option num)) :
  (∃ r, astype_Int64 l = Ok r) ↔
  Forall (λ o, ∀ x, o = Some x → is_Some (num_as_Int64 x)) l.
Proof.
  induction l as [|o l IH]; simpl.
  { split; [constructor|eauto]. }
  rewrite Forall_cons. destruct o as [x|].
  - destruct (num_as_Int64 x) as [y|] eqn:E.
    + split.
      * intros (r & (r' & Hr & _)%bind_Ok). split; [|apply IH; eauto].
        intros ? [= <-]. eauto.
      * intros [_ (r & Hr)%IH]. rewrite Hr. simpl. eauto.
    + split; [by intros [r ?]|]. intros [Hx _].
      destruct (Hx x eq_refl) as [? ?]. congruence.
  - split.
    + intros (r & (r' & Hr & _)%bind_Ok). split; [done|apply IH; eauto].
    + intros [_ (r & Hr)%IH]. rewrite Hr. simpl. eauto.
Qed.

Lemma astype_Int64_TypeError (l : list (option num)) x :
  Some x ∈ l → num_as_Int64 x = None →
  astype_Int64 l = Raise (TypeError "cannot safely cast non-equivalent float64 to int64").
Proof.
  intros Hin Hx. induction l as [|o l IH]; [by apply elem_of_nil in Hin|].
  simpl. destruct o as [y|].
  - destruct (num_as_Int64 y) eqn:E; [|done].
    rewrite IH; [done|]. apply elem_of_cons in Hin as [[= ->]|Hin]; [congruence|done].
  - rewrite IH; [done|]. by apply elem_of_cons in Hin as [?|Hin].
Qed.

Lemma step_council_Ok (raw : DataFrame) :
  (∃ d2, step_council (step_zip (step_dates raw)) = Ok d2) ↔
  ∀ s, data raw !! "Council District" = Some s →
       Forall (λ c, ∀ x, to_numeric_cell c = Some x → is_Some (num_as_Int64 x)) s.
Proof.
  unfold step_council, step_zip.
  rewrite lookup_update_ne, lookup_step_dates by done.
  destruct (data raw !! "Council District") as [s|].
  - split.
    + intros (d2 & (r & Hr & _)%bind_Ok) s' [= <-].
      assert (∃ r, astype_Int64 (to_numeric s) = Ok r) as Hex by eauto.
      apply astype_Int64_Ok in Hex. unfold to_numeric in Hex.
      by apply Forall_fmap in Hex.
    + intros Hs. specialize (Hs s eq_refl).
      assert (∃ r, astype_Int64 (to_numeric s) = Ok r) as [r Hr].
      { apply astype_Int64_Ok. unfold to_numeric. by apply Forall_fmap. }
      rewrite Hr. simpl. eauto.
  - split; [done|eauto].
Qed.

Lemma created_date_kept (raw d2 : DataFrame) :
  step_council (step_zip (step_dates raw)) = Ok d2 →
  is_Some (data (step_unknown (drop_column "Community Reporting Area"
                   (step_text (step_mask00 (step_latlon d2))))) !! "Created Date").
Proof.
  intros H2. unfold step_unknown. rewrite lookup_fill_columns.
  unfold drop_column, step_text. cbn [data].
  rewrite lookup_delete_ne, map_lookup_imap by done.
  rewrite lookup_step_mask00, lookup_step_latlon by done.
  rewrite (lookup_step_council _ _ _ H2) by done.
  unfold step_zip. rewrite lookup_update_ne by done.
  unfold step_dates. rewrite lookup_setitem_eq. simpl. eauto.
Qed.

(** X19 - [load_and_clean] succeeds exactly when every council district
    that parses as a number is integral and, where [pd.to_datetime(None)]
    is None (pandas 2) and not NaT (pandas 3), the input holds the column
    "Created Date". *)
Theorem load_and_clean_succeeds_iff (raw : DataFrame) :
  (∃ clean, load_and_clean raw = Ok clean) ↔
  (is_Some (data raw !! "Created Date") ∨ to_datetime_none_nat = true) ∧
  ∀ s, data raw !! "Council District" = Some s →
       Forall (λ c, ∀ x, to_numeric_cell c = Some x → is_Some (num_as_Int64 x)) s.
Proof.
  split.
  - intros [clean H]. split; [by eapply load_and_clean_created|].
    apply step_council_Ok. rewrite load_and_clean_steps in H.
    apply bind_Ok in H as (d2 & H2 & _). eauto.
  - intros [Hcd Hs]. apply step_council_Ok in Hs as [d2 H2].
    rewrite load_and_clean_steps, H2. cbn [mbind result_bind].
    destruct (created_date_kept _ _ H2) as [created Hcr].
    unfold step_features.
    assert (has_column "Created Date" raw || to_datetime_none_nat = true) as ->.
    { apply orb_true_iff. destruct Hcd as [Hcd| ->]; [left|by right].
      unfold has_column. by rewrite bool_decide_eq_true_2. }
    rewrite (proj2 (getitem_Ok _ _ _) Hcr). cbn [mbind result_bind]. eauto.
Qed.

(** X20 - A council district that is a number but not an integer makes
    [load_and_clean] raise [TypeError], whether or not the other columns
    are there. *)
Theorem load_and_clean_TypeError (raw : DataFrame) s c x :
  data raw !! "Council District" = Some s →
  c ∈ s → to_numeric_cell c = Some x → num_as_Int64 x = None →
  load_and_clean raw
  = Raise (TypeError "cannot safely cast non-equivalent float64 to int64").
Proof.
  intros Hs Hc Hx Hn. rewrite load_and_clean_steps.
  unfold step_council, step_zip.
  rewrite lookup_update_ne, lookup_step_dates, Hs by done.
  rewrite (astype_Int64_TypeError _ x); [done| |done].
  unfold to_numeric. apply list_elem_of_fmap. exists c. by rewrite Hx.
Qed.

(** X21 - Where [pd.to_datetime(None)] is None (pandas 2): without the
    column "Created Date", and with council districts that cast,
    [load_and_clean] raises [AttributeError] at the first [.dt] access. *)
Theorem load_and_clean_AttributeError (raw : DataFrame) :
  to_datetime_none_nat = false →
  data raw !! "Created Date" = None →
  (∀ s, data raw !! "Council District" = Some s →
        Forall (λ c, ∀ x, to_numeric_cell c = Some x → is_Some (num_as_Int64 x)) s) →
  load_and_clean raw
  = Raise (AttributeError "Can only use .dt accessor with datetimelike values").
Proof.
  intros Hnat Hcd Hs. apply step_council_Ok in Hs as [d2 H2].
  rewrite load_and_clean_steps, H2. cbn [mbind result_bind].
  unfold step_features, has_column. rewrite Hnat, bool_decide_eq_false_2; [done|].
  rewrite Hcd. by intros [? ?].
Qed.
(** ** Further properties: from the raw frame to the keys *)

(** A plain categorical column of the cleaned frame, cell by cell. *)
Lemma cleaned_categorical_cell (raw clean : DataFrame) c i x :
  load_and_clean raw = Ok clean → c ∈ safe_unknown_cols →
  cell_at raw c i = Some x →
  x = NA ∨ (csv_text_object = true ∧ is_text x = true) →
  ∃ t, cell_at clean c i = Some (Txt t) ∧
       (strip t = t ∧ t ≠ "" ∧ t ≠ "None" ∧ t ≠ "nan") ∧
       (x = NA → t = "Unknown").
Proof.
  intros H Hc Hx Hkind.
  pose proof (load_and_clean_inv _ _ H)
    as (d2 & created & H2 & _ & _ & _ & _ & _ & _ & _ & _ & Hcol).
  unfold cell_at in *. rewrite (Hcol c) by by apply not_excluded_safe.
  rewrite bool_decide_eq_true_2 by done.
  rewrite (lookup_before_mask _ _ c H2).
  2:{ unfold safe_unknown_cols in Hc. rewrite !elem_of_cons, elem_of_nil in Hc.
      rewrite !not_elem_of_cons.
      destruct Hc as [->|[->|[->|[->|[->|[->|[]]]]]]];
        split_and!; try done; apply not_elem_of_nil. }
  destruct (data raw !! c) as [s|]; [|done]. simpl in Hx.
  cbn [fmap option_fmap option_map mbind option_bind].
  unfold fillna. rewrite list_lookup_fmap.
  destruct (is_text_dtype c s) eqn:Et.
  - rewrite std_text_rows. unfold of_str.
    rewrite <- list_fmap_compose, list_lookup_fmap, Hx. simpl.
    destruct (replace_markers_cell (strip <$> cell_to_str x)) as [t|] eqn:E; simpl.
    + exists t. apply std_text_cell_trimmed in E as E'.
      split_and!; try tauto. intros ->. done.
    + exists "Unknown". by split_and!.
  - rewrite Hx. simpl. destruct Hkind as [->|[Hobj Hk]].
    + exists "Unknown". by split_and!.
    + destruct x; try done.
      apply list_elem_of_lookup_2, (is_text_dtype_elem c) in Hx; [congruence|done].
Qed.

Lemma fact_location_key (clean : DataFrame) (star : StarSchema) :
  build_star_schema clean = Ok star →
  data (fact star) !! "LocationKey"
  = Some (of_str (build_location_key
            (df_get_or "Location" (na_series clean) clean)
            (df_get_or "Latitude" (na_series clean) clean)
            (df_get_or "Longitude" (na_series clean) clean))).
Proof.
  intros H. apply build_star_schema_inv in H as (cdt & Hf & _).
  apply fact_table_columns in Hf as (_&_&_&_&_&_&_&_& Flk & _).
  by rewrite lookup_setitem_eq in Flk.
Qed.

Lemma cell_at_df_get_or (df : DataFrame) c i x :
  cell_at df c i = Some x → df_get_or c (na_series df) df !! i = Some x.
Proof.
  unfold cell_at, df_get_or. destruct (data df !! c); [|done]. done.
Qed.

(** X22 - A report without an address and without usable coordinates is
    keyed "UNKNOWN": the missing address is filled with "Unknown" by
    [load_and_clean], and [build_location_key] normalises that text. *)
Theorem missing_location_keyed_unknown (raw clean : DataFrame) (star : StarSchema)
    i a o :
  load_and_clean raw = Ok clean → build_star_schema clean = Ok star →
  cell_at raw "Location" i = Some NA →
  cell_at raw "Latitude" i = Some a → cell_at raw "Longitude" i = Some o →
  (to_numeric_cell a = None ∨ to_numeric_cell o = None ∨
   ∃ x y, to_numeric_cell a = Some x ∧ to_numeric_cell o = Some y ∧
          num_is_zero x && num_is_zero y = true) →
  cell_at (fact star) "LocationKey" i = Some (Txt "UNKNOWN").
Proof.
  intros H Hs Hl Ha Ho Hno.
  destruct (cleaned_categorical_cell raw clean "Location" i NA H) as (t & Ht & _ & Hu);
    [unfold safe_unknown_cols; rewrite !elem_of_cons; tauto|done|by left|].
  rewrite (Hu eq_refl) in Ht.
  destruct (cleaned_coordinates_cells _ _ _ _ _ H Ha Ho) as [Hla Hlo].
  unfold cell_at at 1. rewrite (fact_location_key _ _ Hs). simpl.
  apply of_str_lookup. exists (Some "UNKNOWN"). split; [|done].
  erewrite build_location_key_lookup;
    [|by apply cell_at_df_get_or..].
  f_equal. unfold location_key_spec.
  destruct Hno as [E|[E|(x & y & Ex & Ey & Ez)]].
  - rewrite E. simpl. by destruct (match to_numeric_cell o with Some _ => _ | None => _ end).
  - rewrite E. destruct (to_numeric_cell a); simpl; done.
  - rewrite Ex, Ey, Ez. done.
Qed.

Lemma category_key_cell_text v d :
  strip v = v → v ≠ "" → strip d = d → d ≠ "" →
  category_key_cell (Txt v : cell) (Txt d) = Txt (upper v +:+ "|" +:+ upper d).
Proof.
  intros Ev Hv Ed Hd. unfold category_key_cell, upper_key_cell. simpl.
  rewrite !upper_strip, Ev, Ed, !replace_markers_upper.
  rewrite !bool_decide_eq_false_2 by done. simpl.
  by rewrite append_assoc.
Qed.

Lemma fact_category_columns (clean : DataFrame) (star : StarSchema) :
  build_star_schema clean = Ok star →
  let vl := std_text (df_get_or "Where is the Illegal Dumping Violation located?"
                        (na_series clean) clean) in
  let dd := std_text (df_get_or "Choose a description of the Illegal Dumping"
                        (na_series clean) clean) in
  data (fact star) !! "ViolationLocatedAt" = Some (of_str vl) ∧
  data (fact star) !! "DumpingDescription" = Some (of_str dd) ∧
  data (fact star) !! "CategoryKey" = Some (category_key (of_str vl) (of_str dd)).
Proof.
  intros H vl dd. subst vl dd.
  apply build_star_schema_inv in H as (cdt & Hf & _).
  apply fact_table_columns in Hf as (_&_&_&_&_&_& Fvl & Fdd & _ & Fck).
  unfold df_get_or in *.
  repeat rewrite lookup_setitem_ne in Fvl by done.
  repeat rewrite lookup_setitem_ne in Fdd by done.
  repeat rewrite lookup_setitem_ne in Fck by done.
  done.
Qed.

(** The category key of a row whose two category cells are standardised
    text in the cleaned frame. *)
Lemma category_key_of_clean_row (clean : DataFrame) (star : StarSchema) i v d :
  build_star_schema clean = Ok star →
  cell_at clean "Where is the Illegal Dumping Violation located?" i = Some (Txt v) →
  cell_at clean "Choose a description of the Illegal Dumping" i = Some (Txt d) →
  strip v = v → v ≠ "" → v ≠ "None" → v ≠ "nan" →
  strip d = d → d ≠ "" → d ≠ "None" → d ≠ "nan" →
  cell_at (fact star) "ViolationLocatedAt" i = Some (Txt v) ∧
  cell_at (fact star) "DumpingDescription" i = Some (Txt d) ∧
  cell_at (fact star) "CategoryKey" i = Some (Txt (upper v +:+ "|" +:+ upper d)).
Proof.
  intros H Hv Hd Ev Nv1 Nv2 Nv3 Ed Nd1 Nd2 Nd3.
  destruct (fact_category_columns _ _ H) as (Fvl & Fdd & Fck).
  apply cell_at_df_get_or in Hv, Hd.
  assert (∀ (s : list cell) t, s !! i = Some (Txt t) → strip t = t → t ≠ "" →
            t ≠ "None" → t ≠ "nan" → of_str (std_text s) !! i = Some (Txt t)) as Hstd.
  { intros s t Hs E ???. rewrite std_text_rows. unfold of_str.
    rewrite <- list_fmap_compose, list_lookup_fmap, Hs. simpl.
    change (replace_markers_cell_str (strip t))
      with (replace_markers_cell (strip <$> Some t)).
    by rewrite std_text_cell_fixed. }
  unfold cell_at. rewrite Fvl, Fdd, Fck. simpl.
  rewrite (Hstd _ v), (Hstd _ d) by done. split_and!; try done.
  erewrite category_key_lookup; [|by apply Hstd..].
  by rewrite category_key_cell_text.
Qed.

(** X23 - The category key from the raw frame, where [read_csv] stores
    text with dtype object (pandas 2): when the two category cells of a row
    are text or missing in the input, the fact row has a Category Key, the
    two cleaned texts uppercased and joined by a bar. *)
Theorem category_key_from_raw (raw clean : DataFrame) (star : StarSchema) i x y :
  csv_text_object = true →
  load_and_clean raw = Ok clean → build_star_schema clean = Ok star →
  cell_at raw "Where is the Illegal Dumping Violation located?" i = Some x →
  cell_at raw "Choose a description of the Illegal Dumping" i = Some y →
  x = NA ∨ is_text x = true → y = NA ∨ is_text y = true →
  ∃ v d,
    cell_at clean "Where is the Illegal Dumping Violation located?" i = Some (Txt v) ∧
    cell_at clean "Choose a description of the Illegal Dumping" i = Some (Txt d) ∧
    cell_at (fact star) "CategoryKey" i = Some (Txt (upper v +:+ "|" +:+ upper d)).
Proof.
  intros Hobj H Hs Hx Hy Kx Ky.
  destruct (cleaned_categorical_cell raw clean
              "Where is the Illegal Dumping Violation located?" i x H)
    as (v & Hv & (?&?&?&?) & _);
    [unfold safe_unknown_cols; rewrite !elem_of_cons; tauto|done|tauto|].
  destruct (cleaned_categorical_cell raw clean
              "Choose a description of the Illegal Dumping" i y H)
    as (d & Hd & (?&?&?&?) & _);
    [unfold safe_unknown_cols; rewrite !elem_of_cons; tauto|done|tauto|].
  exists v, d. split; [done|]. split; [done|].
  by apply (category_key_of_clean_row clean star i v d Hs Hv Hd).
Qed.
(** ** Further properties: the export and the whole run *)

Lemma append_inj_l (s a b : string) : s +:+ a = s +:+ b → a = b.
Proof.
  induction s as [|c s IH]; [done|]. rewrite !append_cons. intros [= H]. auto.
Qed.


Lemma path_prefix (dir name : string) :
  String.prefix (dir +:+ "/") (dir +:+ "/" +:+ name) = true.
Proof. rewrite <- append_assoc. apply prefix_append. Qed.

Lemma exported_lookup (star : StarSchema) dir (w : World) p :
  files (exported star dir w) !! p =
  if decide (dir +:+ "/" +:+ "dim_status.csv" = p) then Some (dim_status star)
  else if decide (dir +:+ "/" +:+ "dim_intake.csv" = p) then Some (dim_intake star)
  else if decide (dir +:+ "/" +:+ "dim_category.csv" = p) then Some (dim_category star)
  else if decide (dir +:+ "/" +:+ "dim_location.csv" = p) then Some (dim_location star)
  else if decide (dir +:+ "/" +:+ "dim_date.csv" = p) then Some (dim_date star)
  else if decide (dir +:+ "/" +:+ "fact_illegal_dumping.csv" = p) then Some (fact star)
  else files w !! p.
Proof. unfold exported. cbn [files]. by rewrite !lookup_insert. Qed.


Lemma exported_outside_dir (star : StarSchema) dir (w : World) p :
  String.prefix (dir +:+ "/") p = false →
  files (exported star dir w) !! p = files w !! p.
Proof.
  intros Hp. rewrite exported_lookup.
  repeat (let E := fresh "E" in
          case_decide as E;
            [rewrite <- E, path_prefix in Hp; discriminate Hp|]).
  done.
Qed.

Lemma exported_only_under_dir (star : StarSchema) dir (w : World) p :
  files (exported star dir w) !! p ≠ files w !! p →
  String.prefix (dir +:+ "/") p = true.
Proof.
  intros Hne. destruct (String.prefix (dir +:+ "/") p) eqn:E; [done|].
  by apply (exported_outside_dir star dir w) in E.
Qed.


(** The world after a run of [main]: untouched, with the directory only,
    or with the six files. *)
Lemma main_world (raw : DataFrame) dir (w : World) :
  (run (main raw dir) w).2 = w ∨
  (run (main raw dir) w).2 = made_dir dir w ∨
  ∃ star, pipeline_tables raw = Ok star ∧
          run (main raw dir) w = (Ok (), exported star dir w).
Proof.
  unfold main, pipeline_tables. cbn [run mbind IO_bind lift].
  destruct (load_and_clean raw) as [clean|e] eqn:Hc; [|by left].
  cbn [mbind result_bind].
  destruct (build_star_schema clean) as [star|e] eqn:Hs; [|by left].
  destruct (star_key_columns _ _ Hs)
    as (sr & lk & ck & lkeys & ckeys & Hsr & Hlk & Hck & Hlkeys & Hckeys & _).
  rewrite (qa_and_export_run star dir w _ _ _ _ _ Hsr Hlk Hck Hlkeys Hckeys).
  repeat case_match; eauto.
Qed.

Lemma ancestors_from_prefix (seen rest d : string) :
  d ∈ ancestors_from seen rest → String.prefix (d +:+ "/") (seen +:+ rest) = true.
Proof.
  revert seen. induction rest as [|c rest IH]; intros seen; cbn [ancestors_from].
  { by intros ?%elem_of_nil. }
  intros [Hd|Hd]%elem_of_app.
  - destruct (Ascii.eqb c "/") eqn:Ec; [|by apply elem_of_nil in Hd].
    apply Ascii.eqb_eq in Ec as ->.
    destruct (negb (bool_decide (seen = ""))); [|by apply elem_of_nil in Hd].
    apply list_elem_of_singleton in Hd as ->. apply path_prefix.
  - apply IH in Hd. by rewrite append_assoc in Hd.
Qed.

Lemma made_dirs_under (dir d : string) (ds : gset string) :
  d ∈ ({[dir]} ∪ list_to_set (ancestors dir) ∪ ds : gset string) →
  d = dir ∨ String.prefix (d +:+ "/") dir = true ∨ d ∈ ds.
Proof.
  rewrite !elem_of_union, elem_of_singleton, elem_of_list_to_set.
  intros [[->|Hd]|Hd]; [by left| |by right; right].
  right. left. by apply (ancestors_from_prefix "" dir).
Qed.

(** X25 - [main] touches the file system at the export directory only:
    whatever the input and the outcome, a file that differs after the run
    lies under [export_dir], and a directory that is there after the run
    was there before, is [export_dir], or is an ancestor of it. *)
Theorem main_touches_only_export_dir (raw : DataFrame) dir (w : World) :
  (∀ p, files (run (main raw dir) w).2 !! p ≠ files w !! p →
        String.prefix (dir +:+ "/") p = true) ∧
  (∀ d, d ∈ dirs (run (main raw dir) w).2 →
        d = dir ∨ String.prefix (d +:+ "/") dir = true ∨ d ∈ dirs w).
Proof.
  destruct (main_world raw dir w) as [->|[->|(star & _ & ->)]]; cbn [snd].
  - split; [done|auto].
  - split; [done|]. intros d. unfold made_dir. cbn [dirs]. apply made_dirs_under.
  - split; [apply exported_only_under_dir|].
    intros d. unfold exported. cbn [dirs]. apply made_dirs_under.
Qed.

(** X26 - What a successful run guarantees: when [main] returns normally,
    the six tables of the input were written, the request numbers of the
    fact table are pairwise different, no fact row lacks a Location Key or
    a Category Key, and the keys of dim_location and dim_category are
    pairwise different. *)
Theorem main_success_guarantees (raw : DataFrame) dir (w : World) :
  (run (main raw dir) w).1 = Ok () →
  ∃ star sr lk ck lkeys ckeys,
    pipeline_tables raw = Ok star ∧
    (run (main raw dir) w).2 = exported star dir w ∧
    data (fact star) !! "ServiceRequestNumber" = Some sr ∧
    data (fact star) !! "LocationKey" = Some lk ∧
    data (fact star) !! "CategoryKey" = Some ck ∧
    data (dim_location star) !! "LocationKey" = Some lkeys ∧
    data (dim_category star) !! "CategoryKey" = Some ckeys ∧
    NoDup sr ∧ (NA ∉ lk) ∧ (NA ∉ ck) ∧ NoDup lkeys ∧ NoDup ckeys.
Proof.
  unfold main, pipeline_tables. cbn [run mbind IO_bind lift].
  destruct (load_and_clean raw) as [clean|e] eqn:Hc; [|done].
  cbn [mbind result_bind].
  destruct (build_star_schema clean) as [star|e] eqn:Hs; [|done].
  destruct (star_key_columns _ _ Hs)
    as (sr & lk & ck & lkeys & ckeys & Hsr & Hlk & Hck & Hlkeys & Hckeys & _).
  intros Hok.
  assert (run (qa_and_export (fact star) (dim_date star) (dim_location star)
                 (dim_category star) (dim_intake star) (dim_status star) dir) w
          = (Ok (), exported star dir w)) as Hrun.
  { revert Hok.
    rewrite (qa_and_export_run star dir w _ _ _ _ _ Hsr Hlk Hck Hlkeys Hckeys).
    by repeat case_match. }
  exists star, sr, lk, ck, lkeys, ckeys. rewrite Hrun.
  apply (qa_and_export_exports star dir w _ _ _ _ _ Hsr Hlk Hck Hlkeys Hckeys)
    in Hrun.
  destruct Hrun as (?&?&?&?&?). by split_and!.
Qed.

Lemma made_dir_idem dir (w : World) : made_dir dir (made_dir dir w) = made_dir dir w.
Proof. unfold made_dir. cbn [dirs files]. f_equal. set_solver. Qed.

Lemma made_dir_exported (star : StarSchema) dir (w : World) :
  made_dir dir (exported star dir w) = exported star dir w.
Proof. unfold made_dir, exported. cbn [dirs files]. f_equal. set_solver. Qed.

Lemma exported_idem (star : StarSchema) dir (w : World) :
  exported star dir (exported star dir w) = exported star dir w.
Proof.
  unfold exported. cbn [dirs files]. f_equal; [set_solver|].
  apply map_eq. intros p. rewrite !lookup_insert. by repeat case_decide.
Qed.

(** X27 - Re-running is idempotent: a second run of [main] on the same
    input and directory gives the same outcome and leaves the file system
    as the first run left it. *)
Theorem main_idempotent (raw : DataFrame) dir (w : World) :
  run (main raw dir) (run (main raw dir) w).2 = run (main raw dir) w.
Proof.
  unfold main. cbn [run mbind IO_bind lift].
  destruct (load_and_clean raw) as [clean|e] eqn:Hc; [|done].
  cbn [mbind result_bind].
  destruct (build_star_schema clean) as [star|e] eqn:Hs; [|done].
  destruct (star_key_columns _ _ Hs)
    as (sr & lk & ck & lkeys & ckeys & Hsr & Hlk & Hck & Hlkeys & Hckeys & _).
  rewrite !(qa_and_export_run star dir _ _ _ _ _ _ Hsr Hlk Hck Hlkeys Hckeys).
  repeat case_match; simplify_eq; cbn [snd];
    rewrite ?made_dir_idem, ?exported_idem; done.
Qed.
(** ** Further properties: the fact table and the quality report *)

Lemma std_text_fixed_cell (s : list cell) i x :
  s !! i = Some x →
  (x = NA ∨ ∃ t, x = Txt t ∧ strip t = t ∧ t ≠ "" ∧ t ≠ "None" ∧ t ≠ "nan") →
  of_str (std_text s) !! i = Some x.
Proof.
  intros Hs Hx. rewrite std_text_rows. unfold of_str.
  rewrite <- list_fmap_compose, list_lookup_fmap, Hs. simpl. f_equal.
  destruct Hx as [->|(t & -> & E & ? & ? & ?)]; [done|].
  change (cell_to_str (Txt t)) with (Some t).
  by rewrite std_text_cell_fixed.
Qed.

Lemma fact_text_columns (clean : DataFrame) (star : StarSchema) :
  build_star_schema clean = Ok star →
  let col c := of_str (std_text (df_get_or c (na_series clean) clean)) in
  data (fact star) !! "ServiceRequestNumber" = Some (col "Service Request Number") ∧
  data (fact star) !! "MethodReceived" = Some (col "Method Received") ∧
  data (fact star) !! "Status" = Some (col "Status") ∧
  data (fact star) !! "ViolationLocatedAt"
    = Some (col "Where is the Illegal Dumping Violation located?") ∧
  data (fact star) !! "DumpingDescription"
    = Some (col "Choose a description of the Illegal Dumping") ∧
  data (fact star) !! "CouncilDistrict"
    = Some (df_get_or "Council District" (na_series clean) clean) ∧
  data (fact star) !! "ZIPCode"
    = Some (df_get_or "ZIP Code" (na_series clean) clean).
Proof.
  intros H col. subst col.
  apply build_star_schema_inv in H as (cdt & Hf & _).
  pose proof Hf as Hf'.
  apply fact_table_columns in Hf as (_& Fsr &_& Fmr & Fst & Fcd & Fvl & Fdd & _).
  assert (data (fact star) !! "ZIPCode"
          = Some (df_get_or "ZIP Code" (na_series clean) clean)) as Fzip.
  { unfold fact_table in Hf'.
    apply bind_Ok in Hf' as (lk & _ & Hf').
    apply bind_Ok in Hf' as (fvl & _ & Hf').
    apply bind_Ok in Hf' as (fdd & _ & Hf').
    injection Hf' as <-. unfold df_get_or.
    repeat rewrite lookup_setitem_ne by done. solve_lookup. }
  unfold df_get_or in *.
  repeat rewrite lookup_setitem_ne in Fsr by done.
  repeat rewrite lookup_setitem_ne in Fmr by done.
  repeat rewrite lookup_setitem_ne in Fst by done.
  repeat rewrite lookup_setitem_ne in Fcd by done.
  repeat rewrite lookup_setitem_ne in Fvl by done.
  repeat rewrite lookup_setitem_ne in Fdd by done.
  done.
Qed.

(** X28 - The fact table carries the cleaned values unchanged, where
    [read_csv] stores text with dtype object (pandas 2): the second
    [std_text] of [build_star_schema] leaves the text and the missing cells
    of the cleaned frame as they are, and the council district and the ZIP
    code are copied. *)
Theorem fact_keeps_cleaned_values (raw clean : DataFrame) (star : StarSchema) i :
  csv_text_object = true →
  load_and_clean raw = Ok clean → build_star_schema clean = Ok star →
  (∀ src dst x,
     (src, dst) ∈ [ ("Service Request Number", "ServiceRequestNumber");
                    ("Method Received", "MethodReceived");
                    ("Status", "Status");
                    ("Where is the Illegal Dumping Violation located?",
                     "ViolationLocatedAt");
                    ("Choose a description of the Illegal Dumping",
                     "DumpingDescription") ] →
     cell_at clean src i = Some x → x = NA ∨ is_text x = true →
     cell_at (fact star) dst i = Some x) ∧
  (∀ x, cell_at clean "Council District" i = Some x →
        cell_at (fact star) "CouncilDistrict" i = Some x) ∧
  (∀ x, cell_at clean "ZIP Code" i = Some x →
        cell_at (fact star) "ZIPCode" i = Some x).
Proof.
  intros Hobj H Hs.
  destruct (fact_text_columns _ _ Hs) as (Fsr & Fmr & Fst & Fvl & Fdd & Fcd & Fzip).
  split; [|split].
  - intros src dst x Hin Hx Hk.
    assert (x = NA ∨ ∃ t, x = Txt t ∧ strip t = t ∧ t ≠ "" ∧ t ≠ "None" ∧ t ≠ "nan")
      as Hfix.
    { destruct Hk as [->|Hk]; [by left|]. destruct x as [|t| |]; try done.
      right. exists t. split; [done|].
      apply (cleaned_text_cell raw clean src i t Hobj H); [|done].
      rewrite !elem_of_cons, elem_of_nil in Hin.
      destruct Hin as [[= -> _]|[[= -> _]|[[= -> _]|[[= -> _]|[[= -> _]|[]]]]]]; done. }
    apply cell_at_df_get_or in Hx.
    rewrite !elem_of_cons, elem_of_nil in Hin. unfold cell_at.
    destruct Hin as [[= -> ->]|[[= -> ->]|[[= -> ->]|[[= -> ->]|[[= -> ->]|[]]]]]];
      rewrite ?Fsr, ?Fmr, ?Fst, ?Fvl, ?Fdd; simpl; by apply std_text_fixed_cell.
  - intros x Hx. apply cell_at_df_get_or in Hx. unfold cell_at. by rewrite Fcd.
  - intros x Hx. apply cell_at_df_get_or in Hx. unfold cell_at. by rewrite Fzip.
Qed.

Lemma category_key_cell_present (x y : cell) :
  (∃ t, x = Txt t ∧ strip t = t ∧ t ≠ "") →
  (∃ t, y = Txt t ∧ strip t = t ∧ t ≠ "") →
  category_key_cell x y ≠ NA.
Proof.
  intros (v & -> & Ev & Nv) (d & -> & Ed & Nd).
  by rewrite category_key_cell_text.
Qed.

Lemma null_key_message_columns n m :
  null_key_message "LocationKey" n ≠ null_key_message "CategoryKey" m.
Proof.
  unfold null_key_message. intros H%append_inj_l.
  rewrite !append_cons in H. congruence.
Qed.

(** X29 - The Category Key check cannot fail on text input, where
    [read_csv] stores text with dtype object (pandas 2): when the two
    category columns of the input hold text or missing cells only, no fact
    row lacks a Category Key, and [qa_and_export] never raises the null-key
    error for CategoryKey on the tables made from that input. *)
Theorem category_key_gate_unreachable (raw clean : DataFrame) (star : StarSchema)
    vs ds :
  csv_text_object = true →
  load_and_clean raw = Ok clean → build_star_schema clean = Ok star →
  data raw !! "Where is the Illegal Dumping Violation located?" = Some vs →
  data raw !! "Choose a description of the Illegal Dumping" = Some ds →
  Forall (λ x, x = NA ∨ is_text x = true) vs →
  Forall (λ x, x = NA ∨ is_text x = true) ds →
  (∃ ck, data (fact star) !! "CategoryKey" = Some ck ∧ NA ∉ ck) ∧
  ∀ dir w n,
    (run (qa_and_export (fact star) (dim_date star) (dim_location star)
            (dim_category star) (dim_intake star) (dim_status star) dir) w).1
    ≠ Raise (ValueError (null_key_message "CategoryKey" n)).
Proof.
  intros Hobj H Hs Hvs Hds Fv Fd.
  destruct (star_key_columns _ _ Hs)
    as (sr & lk & ck & lkeys & ckeys & Hsr & Hlk & Hck & Hlkeys & Hckeys & Hnd).
  assert (NA ∉ ck) as Hna.
  { intros (i & Hi)%list_elem_of_lookup.
    destruct (fact_category_columns _ _ Hs) as (_ & _ & Fck).
    rewrite Fck in Hck. injection Hck as <-.
    rewrite category_key_rows in Hi.
    apply lookup_zip_with_Some in Hi as (a & b & Hab & Ha & Hb).
    apply of_str_lookup in Ha as (oa & Ha & ->).
    apply of_str_lookup in Hb as (ob & Hb & ->).
    rewrite std_text_rows, list_lookup_fmap in Ha, Hb.
    destruct (df_get_or "Where is the Illegal Dumping Violation located?"
                (na_series clean) clean !! i) as [ca|] eqn:Eca; [|done].
    destruct (df_get_or "Choose a description of the Illegal Dumping"
                (na_series clean) clean !! i) as [cb|] eqn:Ecb; [|done].
    pose proof (load_and_clean_inv _ _ H)
      as (d2 & created & H2 & _ & _ & _ & _ & _ & _ & _ & _ & Hcol).
    assert (∀ c s, c ∈ safe_unknown_cols → data raw !! c = Some s →
              Forall (λ x, x = NA ∨ is_text x = true) s →
              ∀ z, df_get_or c (na_series clean) clean !! i = Some z →
              ∃ t, z = Txt t ∧ strip t = t ∧ t ≠ "" ∧ t ≠ "None" ∧ t ≠ "nan")
      as Hcell.
    { intros c s Hc Hraw Fs z Hz. unfold df_get_or in Hz.
      destruct (data clean !! c) as [cs|] eqn:Ecs.
      - simpl in Hz.
        assert (∃ x, s !! i = Some x) as [x Hx].
        { apply lookup_lt_is_Some. apply lookup_lt_Some in Hz.
          rewrite (Hcol c) in Ecs by by apply not_excluded_safe.
          rewrite (lookup_before_mask _ _ c H2), Hraw in Ecs.
          2:{ unfold safe_unknown_cols in Hc.
              rewrite !elem_of_cons, elem_of_nil in Hc. rewrite !not_elem_of_cons.
              destruct Hc as [->|[->|[->|[->|[->|[->|[]]]]]]];
                split_and!; try done; apply not_elem_of_nil. }
          simpl in Ecs. injection Ecs as <-.
          revert Hz. case_bool_decide; destruct (is_text_dtype c s);
            unfold fillna, of_str; simpl;
            rewrite ?length_fmap, ?std_text_length; done. }
        destruct (cleaned_categorical_cell raw clean c i x H Hc) as (t & Ht & ? & _).
        + unfold cell_at. by rewrite Hraw.
        + destruct (Forall_lookup_1 _ _ _ _ Fs Hx); tauto.
        + unfold cell_at in Ht. rewrite Ecs in Ht. simpl in Ht.
          exists t. split; [congruence|done].
      - exfalso.
        rewrite (Hcol c) in Ecs by by apply not_excluded_safe.
        rewrite (lookup_before_mask _ _ c H2), Hraw in Ecs; [done|].
        unfold safe_unknown_cols in Hc.
        rewrite !elem_of_cons, elem_of_nil in Hc. rewrite !not_elem_of_cons.
        destruct Hc as [->|[->|[->|[->|[->|[->|[]]]]]]];
          split_and!; try done; apply not_elem_of_nil. }
    destruct (Hcell "Where is the Illegal Dumping Violation located?" vs
                ltac:(unfold safe_unknown_cols; rewrite !elem_of_cons; tauto)
                Hvs Fv ca Eca) as (ta & -> & Ea & ? & ? & ?).
    destruct (Hcell "Choose a description of the Illegal Dumping" ds
                ltac:(unfold safe_unknown_cols; rewrite !elem_of_cons; tauto)
                Hds Fd cb Ecb) as (tb & -> & Eb & ? & ? & ?).
    simpl in Ha, Hb. injection Ha as <-. injection Hb as <-.
    change (replace_markers_cell_str (strip ta))
      with (replace_markers_cell (strip <$> Some ta)) in Hab.
    change (replace_markers_cell_str (strip tb))
      with (replace_markers_cell (strip <$> Some tb)) in Hab.
    rewrite !std_text_cell_fixed in Hab by done.
    symmetry in Hab. revert Hab. apply category_key_cell_present; eauto. }
  split; [eauto|]. intros dir w n.
  rewrite (qa_and_export_run star dir w _ _ _ _ _ Hsr Hlk Hck Hlkeys Hckeys).
  assert ((0 <? mask_sum (isna ck)) = false) as ->.
  { apply Nat.ltb_ge. destruct (decide (0 < mask_sum (isna ck))) as [Hp|]; [|lia].
    by apply mask_sum_isna_pos in Hp. }
  repeat case_match; cbn [fst]; try done; intros [= Hm];
    first [ by apply null_key_message_columns in Hm
          | unfold grain_message, null_key_message in Hm;
            rewrite ?append_cons in Hm; congruence ].
Qed.



End Properties.

(** * The claims on concrete inputs *)

Section Concrete.
Local Existing Instance ref_lib.

Example parse_num_ex : Ref.parse_num "-122.33214" = Some (-122332140)%Z.
Proof. reflexivity. Qed.

Example num_round_ex :
  Ref.num_str (Ref.num_round 4 (-122332140)) = "-122.3321" ∧
  Ref.num_str (Ref.num_round 4 47606250) = "47.6062" ∧
  Ref.num_str (Ref.num_round 4 0) = "0.0".
Proof. vm_compute. done. Qed.

Example parse_datetime_ex :
  Ref.time_str <$> Ref.parse_datetime "2024-01-15 13:45:00" = Some "2024-01-15 13:45:00" ∧
  Ref.dt_name "day_name" <$> Ref.parse_datetime "2024-01-15" = Some "Monday" ∧
  Ref.iso_week <$> Ref.parse_datetime "2024-01-15" = Some 3%Z ∧
  Ref.iso_week <$> Ref.parse_datetime "2021-01-03" = Some 53%Z ∧
  Ref.parse_datetime "2023-02-30" = None.
Proof. vm_compute. done. Qed.

Lemma location_key_stability_witness :
  ∃ k,
    build_location_key [Txt "123 MAIN ST"; Txt "123 Main Street"]
      [deg 47606210; deg 47606230] [deg (-122332140); deg (-122332060)] !! 0
      = Some (Some k) ∧
    build_location_key [Txt "123 MAIN ST"; Txt "123 Main Street"]
      [deg 47606210; deg 47606230] [deg (-122332140); deg (-122332060)] !! 1
      = Some (Some k).
Proof.
  apply (location_key_stability
           [Txt "123 MAIN ST"; Txt "123 Main Street"]
           [deg 47606210; deg 47606230] [deg (-122332140); deg (-122332060)]
           [Txt "123 MAIN ST"; Txt "123 Main Street"]
           [deg 47606210; deg 47606230] [deg (-122332140); deg (-122332060)]
           0 1
           (Txt "123 MAIN ST") (deg 47606210) (deg (-122332140))
           (Txt "123 Main Street") (deg 47606230) (deg (-122332060))
           47606210%Z (-122332140)%Z 47606230%Z (-122332060)%Z);
    vm_compute; reflexivity.
Defined.

Example jitter_collapses_onto_one_key :
  build_location_key [Txt "123 MAIN ST"; Txt "123 Main Street"]
    [deg 47606210; deg 47606230] [deg (-122332140); deg (-122332060)]
  = [Some "47.6062,-122.3321"; Some "47.6062,-122.3321"].
Proof. vm_compute. reflexivity. Qed.

Lemma location_key_ordered_derivation_witness :
  build_location_key [Txt "456 Oak Ave"] [deg 0] [deg 0] !! 0
    = Some (location_key_spec (Txt "456 Oak Ave") (deg 0) (deg 0)) ∧
  (∀ x y, to_numeric_cell (deg 0) = Some x → to_numeric_cell (deg 0) = Some y →
     num_is_zero x = true → num_is_zero y = true →
     build_location_key [Txt "456 Oak Ave"] [deg 0] [deg 0] !! 0
       = Some (address_key (cell_to_str (Txt "456 Oak Ave"))) ∧
     ∀ u v, build_location_key [Txt "456 Oak Ave"] [deg 0] [deg 0] !! 0
            ≠ Some (Some (coordinate_key u v))).
Proof.
  apply (location_key_ordered_derivation
           [Txt "456 Oak Ave"] [deg 0] [deg 0] 0
           (Txt "456 Oak Ave") (deg 0) (deg 0));
    vm_compute; reflexivity.
Defined.

Example zero_coordinates_take_the_address :
  build_location_key [Txt "456 Oak Ave"; Txt "#"; NA] [deg 0; deg 0; NA]
    [deg 0; Txt "0.0"; NA]
  = [Some "456 OAK AVE"; None; None].
Proof. vm_compute. reflexivity. Qed.

Lemma category_key_symmetry_witness :
  build_star_schema clean_scenario = Ok star_scenario ∧
  ((∀ i v d,
      cell_at (fact star_scenario) "ViolationLocatedAt" i = Some v →
      cell_at (fact star_scenario) "DumpingDescription" i = Some d →
      ∃ j, cell_at (dim_category star_scenario) "ViolationLocatedAt" j = Some v ∧
           cell_at (dim_category star_scenario) "DumpingDescription" j = Some d) ∧
   (∀ i j v d,
      cell_at (fact star_scenario) "ViolationLocatedAt" i = Some v →
      cell_at (fact star_scenario) "DumpingDescription" i = Some d →
      cell_at (dim_category star_scenario) "ViolationLocatedAt" j = Some v →
      cell_at (dim_category star_scenario) "DumpingDescription" j = Some d →
      ∃ k, cell_at (fact star_scenario) "CategoryKey" i = Some k ∧
           cell_at (dim_category star_scenario) "CategoryKey" j = Some k)).
Proof.
  split; [vm_compute; reflexivity|].
  apply (category_key_symmetry clean_scenario star_scenario).
  vm_compute; reflexivity.
Defined.

(** The row whose two category fields were absent in the input carries the
    key of the literal "Unknown" on both sides. *)
Example unknown_category_key :
  cell_at raw_scenario "Where is the Illegal Dumping Violation located?" 2 = Some NA ∧
  cell_at (fact star_scenario) "ViolationLocatedAt" 2 = Some (Txt "Unknown") ∧
  cell_at (fact star_scenario) "CategoryKey" 2 = Some (Txt "UNKNOWN|UNKNOWN") ∧
  cell_at (dim_category star_scenario) "ViolationLocatedAt" 1 = Some (Txt "Unknown") ∧
  cell_at (dim_category star_scenario) "CategoryKey" 1 = Some (Txt "UNKNOWN|UNKNOWN").
Proof. vm_compute. done. Qed.

(** The end-to-end scenario: three reports, two locations, six files. *)
Example scenario_exports :
  column (dim_location star_scenario) "LocationKey"
    = [Txt "47.6062,-122.3321"; Txt "456 OAK AVE"] ∧
  (run (main raw_scenario "exports") empty_world).1 = Ok () ∧
  dom (files (run (main raw_scenario "exports") empty_world).2)
    = dom (files (exported star_scenario "exports" empty_world)) ∧
  size (files (run (main raw_scenario "exports") empty_world).2) = 6.
Proof. split_and!; vm_compute; reflexivity. Qed.

(** C1 - Location key stability fails at a signed zero: the latitudes
    -0.00001 and 0.00001, beside the longitude 5.0, parse, are not the
    (0,0) placeholder and round at four decimals to -0.0 and 0.0, which are
    equal floats; [build_location_key] prints the two and gives the keys
    "-0.0,5.0" and "0.0,5.0". *)
Theorem location_key_splits_at_signed_zero :
  let x := Signed.mk true 10 in
  let x' := Signed.mk false 10 in
  let y := Signed.mk false 5000000 in
  Signed.parse_num "-0.00001" = Some x ∧
  Signed.parse_num "0.00001" = Some x' ∧
  Signed.parse_num "5.0" = Some y ∧
  Signed.is_zero x && Signed.is_zero y = false ∧
  Signed.is_zero x' && Signed.is_zero y = false ∧
  Signed.eqb (Signed.num_round 4 x) (Signed.num_round 4 x') = true ∧
  Signed.eqb (Signed.num_round 4 y) (Signed.num_round 4 y) = true ∧
  build_location_key (P:=signed_lib)
    [Txt "1 Equator Rd"; Txt "1 Equator Rd"] [Num x; Num x'] [Num y; Num y]
  = [Some "-0.0,5.0"; Some "0.0,5.0"].
Proof. vm_compute. done. Qed.



Lemma dimension_keys_unique_witness :
  build_star_schema clean_scenario = Ok star_scenario ∧
  NoDup (zip (column (dim_category star_scenario) "ViolationLocatedAt")
             (column (dim_category star_scenario) "DumpingDescription")) ∧
  NoDup (column (dim_location star_scenario) "LocationKey") ∧
  NoDup (column (dim_date star_scenario) "Date") ∧
  NoDup (column (dim_intake star_scenario) "MethodReceived") ∧
  NoDup (column (dim_status star_scenario) "Status") ∧
  NoDup (column (dim_category star_scenario) "CategoryKey").
Proof.
  assert (build_star_schema clean_scenario = Ok star_scenario) as H
    by (vm_compute; reflexivity).
  destruct (dimension_keys_unique clean_scenario star_scenario H)
    as ((vl & dd & Hvl & Hdd & N1) & (lk & Hlk & N2) & (dt & Hdt & N3) &
        (mr & Hmr & N4) & (st & Hst & N5) & Hck).
  destruct (Hck "exports" empty_world) as (ck & Hc & N6);
    [vm_compute; reflexivity|].
  unfold column. rewrite Hvl, Hdd, Hlk, Hdt, Hmr, Hst, Hc. simpl.
  split_and!; assumption.
Defined.

Lemma dim_category_repeats_a_key :
  load_and_clean raw_mixed_case = Ok clean_mixed_case ∧
  build_star_schema clean_mixed_case = Ok star_mixed_case ∧
  column (dim_category star_mixed_case) "ViolationLocatedAt"
    = [Txt "Street"; Txt "STREET"] ∧
  column (dim_category star_mixed_case) "DumpingDescription"
    = [Txt "Couch"; Txt "Couch"] ∧
  column (dim_category star_mixed_case) "CategoryKey"
    = [Txt "STREET|COUCH"; Txt "STREET|COUCH"] ∧
  ¬ NoDup (column (dim_category star_mixed_case) "CategoryKey").
Proof.
  split_and!; try (vm_compute; reflexivity).
  apply (bool_decide_unpack _); vm_compute; exact I.
Qed.

Lemma missing_column_raises_KeyError_witness :
  data clean_no_latitude !! "Latitude" = None ∧
  (∃ missing, build_star_schema clean_no_latitude = Raise (KeyError missing) ∧
              "Latitude" ∈ missing) ∧
  (∀ dir w, ∃ missing,
     run (main raw_no_latitude dir) w = (Raise (KeyError missing), w) ∧
     "Latitude" ∈ missing).
Proof.
  apply (missing_column_raises_KeyError raw_no_latitude clean_no_latitude "Latitude").
  - apply (bool_decide_unpack _); vm_compute; exact I.
  - vm_compute. reflexivity.
  - apply (bool_decide_unpack _); vm_compute; exact I.
  - vm_compute. reflexivity.
Defined.

Example missing_latitude_run :
  run (main raw_no_latitude "exports") empty_world
    = (Raise (KeyError ["Latitude"]), empty_world).
Proof. vm_compute. reflexivity. Qed.

Lemma no_fabrication_witness :
  (∀ c i x, c ∉ excluded → cell_at raw_scenario c i = Some x → x = NA →
     ∃ y, cell_at clean_scenario c i = Some y ∧
          (y = NA ∨ (c ∈ safe_unknown_cols ∧ y = Txt "Unknown"))) ∧
  (∀ i x, cell_at raw_scenario "Council District" i = Some x →
     to_numeric_cell x = None →
     cell_at clean_scenario "Council District" i = Some NA ∧
     ∀ star, build_star_schema clean_scenario = Ok star →
             cell_at (fact star) "CouncilDistrict" i = Some NA).
Proof.
  apply (no_fabrication raw_scenario clean_scenario).
  - apply (bool_decide_unpack _); vm_compute; exact I.
  - vm_compute. reflexivity.
Defined.

Example absent_council_district_stays_absent :
  cell_at raw_scenario "Council District" 1 = Some NA ∧
  cell_at clean_scenario "Council District" 1 = Some NA ∧
  cell_at (fact star_scenario) "CouncilDistrict" 1 = Some NA.
Proof. vm_compute. done. Qed.

Lemma dim_location_gate_unreachable_witness :
  (∃ keys, data (dim_location star_scenario) !! "LocationKey" = Some keys ∧
           NoDup keys ∧ mask_any (duplicated keys) = false) ∧
  ∀ dir w,
    (run (qa_and_export (fact star_scenario) (dim_date star_scenario)
            (dim_location star_scenario) (dim_category star_scenario)
            (dim_intake star_scenario) (dim_status star_scenario) dir) w).1
    ≠ Raise (ValueError "dim_location has duplicate LocationKey values.").
Proof.
  apply (dim_location_gate_unreachable clean_scenario star_scenario).
  vm_compute. reflexivity.
Defined.


Example two_absent_request_numbers :
  run (main raw_no_request_number "exports") empty_world
    = (Raise (ValueError
         "Fact grain broken: 1 duplicate ServiceRequestNumber values found."),
       made_dir "exports" empty_world).
Proof. vm_compute. reflexivity. Qed.

Lemma std_text_cells_trimmed_witness :
  strip "App" = "App" ∧ "App" ≠ "" ∧ "App" ≠ "None" ∧ "App" ≠ "nan".
Proof.
  apply (std_text_cells_trimmed [Txt "  App "; NA] 0 "App").
  vm_compute. reflexivity.
Defined.

Lemma location_key_format_witness :
  (∃ a o x y, [deg 0] !! 0 = Some a ∧ [deg 0] !! 0 = Some o ∧
     to_numeric_cell a = Some x ∧ to_numeric_cell o = Some y ∧
     "456 OAK AVE" = num_str (num_round 4 x) +:+ "," +:+ num_str (num_round 4 y)) ∨
  (all_chars is_key_char "456 OAK AVE" = true ∧ "456 OAK AVE" ≠ "" ∧
   strip "456 OAK AVE" = "456 OAK AVE" ∧ collapse_ws "456 OAK AVE" = "456 OAK AVE").
Proof.
  apply (location_key_format [Txt "456  Oak Ave."] [deg 0] [deg 0] 0 "456 OAK AVE").
  vm_compute. reflexivity.
Defined.

Lemma location_key_forms_disjoint_witness :
  build_location_key [Txt "123 MAIN ST"; Txt "456 Oak Ave"]
    [deg 47606210; NA] [deg (-122332140); NA] !! 0
  ≠ build_location_key [Txt "123 MAIN ST"; Txt "456 Oak Ave"]
      [deg 47606210; NA] [deg (-122332140); NA] !! 1.
Proof.
  apply (location_key_forms_disjoint
           [Txt "123 MAIN ST"; Txt "456 Oak Ave"]
           [deg 47606210; NA] [deg (-122332140); NA] 0 1
           (Txt "123 MAIN ST") (deg 47606210) (deg (-122332140))
           (Txt "456 Oak Ave") NA NA 47606210%Z (-122332140)%Z);
    try (vm_compute; reflexivity).
  left. vm_compute. reflexivity.
Defined.

Lemma address_key_canonical_witness :
  build_location_key (<[0 := Txt "456 OAK AVE"]> [Txt "456  Oak Ave."]) [NA] [deg 0] !! 0
  = Some (Some "456 OAK AVE").
Proof.
  apply (address_key_canonical [Txt "456  Oak Ave."] [NA] [deg 0] 0 NA (deg 0));
    try (vm_compute; reflexivity).
  left. vm_compute. reflexivity.
Defined.

Lemma star_tables_well_formed_witness :
  index (fact star_scenario) = index clean_scenario ∧
  wf (fact star_scenario) ∧ wf (dim_date star_scenario) ∧
  wf (dim_location star_scenario) ∧ wf (dim_category star_scenario) ∧
  wf (dim_intake star_scenario) ∧ wf (dim_status star_scenario).
Proof.
  apply (star_tables_well_formed clean_scenario star_scenario).
  - apply (bool_decide_unpack _); vm_compute; exact I.
  - vm_compute. reflexivity.
Defined.

Lemma location_keys_referential_witness :
  (∃ i, cell_at (fact star_scenario) "LocationKey" i = Some (Txt "456 OAK AVE")) ↔
  (∃ j, cell_at (dim_location star_scenario) "LocationKey" j
        = Some (Txt "456 OAK AVE")).
Proof.
  apply (location_keys_referential clean_scenario star_scenario).
  vm_compute. reflexivity.
Defined.

Lemma lookup_dimensions_referential_witness :
  ((∃ j, cell_at (dim_date star_scenario) "Date" j = Some (Txt "App")) ↔
     (Txt "App" : @cell Z Z) ≠ NA ∧
     ∃ i, cell_at (fact star_scenario) "CreatedDate" i = Some (Txt "App")) ∧
  ((∃ j, cell_at (dim_intake star_scenario) "MethodReceived" j = Some (Txt "App")) ↔
     (Txt "App" : @cell Z Z) ≠ NA ∧
     ∃ i, cell_at (fact star_scenario) "MethodReceived" i = Some (Txt "App")) ∧
  ((∃ j, cell_at (dim_status star_scenario) "Status" j = Some (Txt "App")) ↔
     (Txt "App" : @cell Z Z) ≠ NA ∧
     ∃ i, cell_at (fact star_scenario) "Status" i = Some (Txt "App")).
Proof.
  apply (lookup_dimensions_referential clean_scenario star_scenario).
  vm_compute. reflexivity.
Defined.

Lemma lookup_dimensions_sorted_witness :
  ∃ dates methods statuses,
    data (dim_date star_scenario) !! "Date" = Some dates ∧
    data (dim_intake star_scenario) !! "MethodReceived" = Some methods ∧
    data (dim_status star_scenario) !! "Status" = Some statuses ∧
    Sorted cell_le dates ∧ Sorted cell_le methods ∧ Sorted cell_le statuses.
Proof.
  apply (lookup_dimensions_sorted clean_scenario star_scenario).
  - intros t u. cbn [time_leb ref_lib].
    destruct (Z.le_ge_cases t u); [left|right]; by apply Z.leb_le.
  - vm_compute. reflexivity.
Defined.

Example lookup_dimensions_of_the_scenario :
  column (dim_intake star_scenario) "MethodReceived"
    = [Txt "App"; Txt "Phone"; Txt "Unknown"] ∧
  column (dim_status star_scenario) "Status" = [Txt "Closed"; Txt "Open"] ∧
  length (column (dim_date star_scenario) "Date") = 2.
Proof. vm_compute. done. Qed.

Lemma dim_location_first_occurrence_witness :
  ∃ i loc pp,
    cell_at (fact star_scenario) "LocationKey" i = Some (Txt "47.6062,-122.3321") ∧
    (∀ i', i' < i →
       cell_at (fact star_scenario) "LocationKey" i' ≠ Some (Txt "47.6062,-122.3321")) ∧
    data clean_scenario !! "Location" = Some loc ∧
    data clean_scenario !! "Police Precinct" = Some pp ∧
    cell_at (dim_location star_scenario) "Location" 0 = of_str (std_text loc) !! i ∧
    cell_at (dim_location star_scenario) "PolicePrecinct" 0 = of_str (std_text pp) !! i ∧
    cell_at (dim_location star_scenario) "Latitude" 0 = cell_at clean_scenario "Latitude" i ∧
    cell_at (dim_location star_scenario) "Longitude" 0
      = cell_at clean_scenario "Longitude" i ∧
    cell_at (dim_location star_scenario) "ZIPCode" 0 = cell_at clean_scenario "ZIP Code" i ∧
    cell_at (dim_location star_scenario) "CouncilDistrict" 0
      = cell_at clean_scenario "Council District" i.
Proof.
  apply (dim_location_first_occurrence clean_scenario star_scenario 0
           (Txt "47.6062,-122.3321")).
  - apply (bool_decide_unpack _); vm_compute; exact I.
  - vm_compute. reflexivity.
  - vm_compute. reflexivity.
Defined.

(** The two reports at one site make one row of dim_location, with the
    address as the first report spells it. *)
Example first_spelling_is_kept :
  column (dim_location star_scenario) "Location"
  = [Txt "123 MAIN ST"; Txt "456 Oak Ave"].
Proof. vm_compute. reflexivity. Qed.

Lemma load_and_clean_shape_witness :
  index clean_scenario = index raw_scenario ∧ wf clean_scenario ∧
  ∀ c, is_Some (data clean_scenario !! c) ↔
       c ∈ ["Created Date"; "Year"; "Month"; "Day"; "Weekday"; "Hour"] ∨
       (c ≠ "Community Reporting Area" ∧ is_Some (data raw_scenario !! c)).
Proof.
  apply (load_and_clean_shape raw_scenario clean_scenario).
  - apply (bool_decide_unpack _); vm_compute; exact I.
  - vm_compute. reflexivity.
Defined.

Lemma cleaned_coordinates_witness :
  (∃ la lo, cell_at clean_scenario "Latitude" 2 = Some la ∧
            cell_at clean_scenario "Longitude" 2 = Some lo ∧
     match to_numeric_cell (deg 0), to_numeric_cell (deg 0) with
     | Some x, Some y =>
         if num_is_zero x && num_is_zero y then la = NA ∧ lo = NA
         else la = Num x ∧ lo = Num y
     | Some x, None => la = Num x ∧ lo = NA
     | None, Some y => la = NA ∧ lo = Num y
     | None, None => la = NA ∧ lo = NA
     end) ∧
  ∀ x y, cell_at clean_scenario "Latitude" 2 = Some (Num x) →
         cell_at clean_scenario "Longitude" 2 = Some (Num y) →
         num_is_zero x && num_is_zero y = false.
Proof.
  apply (cleaned_coordinates raw_scenario clean_scenario 2 (deg 0) (deg 0));
    vm_compute; reflexivity.
Defined.

Lemma cleaned_zip_format_witness :
  (Txt "98101" : @cell Z Z) = NA ∨
  ∃ z, (Txt "98101" : @cell Z Z) = Txt z ∧ String.length z = 5 ∧
       all_chars is_digit z = true.
Proof.
  apply (cleaned_zip_format raw_scenario clean_scenario 0 (Txt "98101"));
    vm_compute; reflexivity.
Defined.

Lemma cleaned_categoricals_present_witness :
  cell_at clean_scenario "Police Precinct" 1 ≠ Some NA.
Proof.
  apply (cleaned_categoricals_present raw_scenario clean_scenario "Police Precinct" 1).
  - vm_compute. reflexivity.
  - apply (bool_decide_unpack _); vm_compute; exact I.
Defined.

Lemma cleaned_text_trimmed_witness :
  strip "Phone" = "Phone" ∧ "Phone" ≠ "" ∧ "Phone" ≠ "None" ∧ "Phone" ≠ "nan".
Proof.
  apply (cleaned_text_trimmed raw_scenario clean_scenario "Method Received" 1 "Phone").
  - reflexivity.
  - vm_compute. reflexivity.
  - discriminate.
  - vm_compute. reflexivity.
Defined.

Lemma load_and_clean_TypeError_witness :
  load_and_clean raw_half_district
  = Raise (TypeError "cannot safely cast non-equivalent float64 to int64").
Proof.
  apply (load_and_clean_TypeError raw_half_district
           [deg 3500000; NA; deg 7000000] (deg 3500000) 3500000%Z).
  - vm_compute. reflexivity.
  - apply (bool_decide_unpack _); vm_compute; exact I.
  - vm_compute. reflexivity.
  - vm_compute. reflexivity.
Defined.

Lemma load_and_clean_AttributeError_witness :
  load_and_clean raw_no_created_date
  = Raise (AttributeError "Can only use .dt accessor with datetimelike values").
Proof.
  apply (load_and_clean_AttributeError raw_no_created_date).
  - reflexivity.
  - vm_compute. reflexivity.
  - intros s Hs. vm_compute in Hs. injection Hs as <-.
    repeat constructor; intros x Hx; vm_compute in Hx;
      first [discriminate Hx | injection Hx as <-; vm_compute; eauto].
Defined.

Lemma missing_location_keyed_unknown_witness :
  cell_at (fact star_no_address) "LocationKey" 2 = Some (Txt "UNKNOWN").
Proof.
  apply (missing_location_keyed_unknown raw_no_address clean_no_address
           star_no_address 2 (deg 0) (deg 0));
    try (vm_compute; reflexivity).
  right. right. exists 0%Z, 0%Z. vm_compute. auto.
Defined.

Lemma category_key_from_raw_witness :
  ∃ v d,
    cell_at clean_scenario "Where is the Illegal Dumping Violation located?" 2
      = Some (Txt v) ∧
    cell_at clean_scenario "Choose a description of the Illegal Dumping" 2
      = Some (Txt d) ∧
    cell_at (fact star_scenario) "CategoryKey" 2
      = Some (Txt (upper v +:+ "|" +:+ upper d)).
Proof.
  apply (category_key_from_raw raw_scenario clean_scenario star_scenario 2 NA NA);
    try (vm_compute; reflexivity); by left.
Defined.


Lemma main_success_guarantees_witness :
  ∃ star sr lk ck lkeys ckeys,
    pipeline_tables raw_scenario = Ok star ∧
    (run (main raw_scenario "exports") empty_world).2
      = exported star "exports" empty_world ∧
    data (fact star) !! "ServiceRequestNumber" = Some sr ∧
    data (fact star) !! "LocationKey" = Some lk ∧
    data (fact star) !! "CategoryKey" = Some ck ∧
    data (dim_location star) !! "LocationKey" = Some lkeys ∧
    data (dim_category star) !! "CategoryKey" = Some ckeys ∧
    NoDup sr ∧ (NA ∉ lk) ∧ (NA ∉ ck) ∧ NoDup lkeys ∧ NoDup ckeys.
Proof.
  apply (main_success_guarantees raw_scenario "exports" empty_world).
  vm_compute. reflexivity.
Defined.

Lemma fact_keeps_cleaned_values_witness :
  (∀ src dst x,
     (src, dst) ∈ [ ("Service Request Number", "ServiceRequestNumber");
                    ("Method Received", "MethodReceived");
                    ("Status", "Status");
                    ("Where is the Illegal Dumping Violation located?",
                     "ViolationLocatedAt");
                    ("Choose a description of the Illegal Dumping",
                     "DumpingDescription") ] →
     cell_at clean_scenario src 1 = Some x → x = NA ∨ is_text x = true →
     cell_at (fact star_scenario) dst 1 = Some x) ∧
  (∀ x, cell_at clean_scenario "Council District" 1 = Some x →
        cell_at (fact star_scenario) "CouncilDistrict" 1 = Some x) ∧
  (∀ x, cell_at clean_scenario "ZIP Code" 1 = Some x →
        cell_at (fact star_scenario) "ZIPCode" 1 = Some x).
Proof.
  apply (fact_keeps_cleaned_values raw_scenario clean_scenario star_scenario 1);
    vm_compute; reflexivity.
Defined.

Lemma category_key_gate_unreachable_witness :
  (∃ ck, data (fact star_scenario) !! "CategoryKey" = Some ck ∧ NA ∉ ck) ∧
  ∀ dir w n,
    (run (qa_and_export (fact star_scenario) (dim_date star_scenario)
            (dim_location star_scenario) (dim_category star_scenario)
            (dim_intake star_scenario) (dim_status star_scenario) dir) w).1
    ≠ Raise (ValueError (null_key_message "CategoryKey" n)).
Proof.
  apply (category_key_gate_unreachable raw_scenario clean_scenario star_scenario
           [Txt "Street"; Txt "Street"; NA] [Txt "Couch"; Txt "Couch"; NA]);
    first [ vm_compute; reflexivity
          | apply (bool_decide_unpack _); vm_compute; exact I ].
Defined.


(** [mkdir(parents=True)] makes the directories above the export
    directory as well. *)
Example nested_export_directory :
  ancestors "out/deep/dir" = ["out"; "out/deep"] ∧
  dirs (run (main raw_scenario "out/deep/dir") empty_world).2
    = {["out"; "out/deep"; "out/deep/dir"]} ∧
  dirs (run (main raw_mixed_case "out/deep/dir") empty_world).2
    = {["out"; "out/deep"; "out/deep/dir"]} ∧
  files (run (main raw_mixed_case "out/deep/dir") empty_world).2 = ∅.
Proof.
  split; [vm_compute; reflexivity|].
  split_and!; try (vm_compute; reflexivity);
    apply set_eq; intros d; rewrite !elem_of_union, !elem_of_singleton;
    vm_compute; set_solver.
Qed.

(** Where [pd.to_datetime(None)] is NaT and text columns have dtype "str"
    (pandas 3), an input without "Created Date" is cleaned, its dates all
    missing, and the text loop passes over the text columns: a padded cell
    stays padded. *)
Example pandas3_cleaning :
  (∃ clean, load_and_clean (P:=ref_lib3) raw_no_created_date = Ok clean ∧
            column clean "Created Date" = replicate (index raw_no_created_date) NA) ∧
  (∃ clean, load_and_clean (P:=ref_lib3) raw_scenario = Ok clean ∧
            cell_at clean "Method Received" 1
            = cell_at raw_scenario "Method Received" 1) ∧
  cell_at raw_scenario "Method Received" 1 ≠ cell_at clean_scenario "Method Received" 1.
Proof.
  split_and!; [eexists; split; vm_compute; reflexivity..|].
  vm_compute. discriminate.
Qed.

Example repeated_report_is_counted :
  duplicate_rows (data_quality_report clean_repeated) = 1 ∧
  total_rows (data_quality_report clean_repeated) = 2 ∧
  total_columns (data_quality_report clean_repeated) = 17.
Proof. vm_compute. done. Qed.

End Concrete.
